(** * mysqllog: the slow-query-log line consumer and entry parser

    A shallow embedding of [parser.go].  Go strings are byte sequences and
    are modelled by [string] (a list of 8-bit characters); a Go map by stdpp's
    [gmap]; a run-time panic (an index out of range) by the [Panic] outcome
    of the [result] type.  The standard-library routines the parser calls
    ([strings], [strconv], [regexp]) are modelled in their own modules,
    restricted to the way [parser.go] calls them. *)

From Stdlib Require Import ZArith Ascii String List Bool Lia.
From stdpp Require Import base option list strings gmap fin_maps.

Open Scope string_scope.

(** ** Outcomes of Go code that may panic *)

Inductive result (A : Type) : Type :=
| Ok (a : A)
| Panic.
Arguments Ok {A} a.
Arguments Panic {A}.

Definition bind {A B : Type} (r : result A) (f : A -> result B) : result B :=
  match r with
  | Ok a => f a
  | Panic => Panic
  end.

Notation "'let!' x ':=' e 'in' k" := (bind e (fun x => k))
  (at level 10, x name, e at level 100, k at level 200).
Notation "'let!' ' p ':=' e 'in' k" := (bind e (fun p => k))
  (at level 10, p pattern, e at level 100, k at level 200).

#[global] Instance result_eq_dec {A : Type} `{EqDecision A} : EqDecision (result A).
Proof. solve_decision. Defined.

(** [xs[i]] on a slice: a panic when [i] is out of range. *)
Definition index {A : Type} (xs : list A) (i : nat) : result A :=
  match nth_error xs i with
  | Some x => Ok x
  | None => Panic
  end.

(** ** Package [strings] *)

Module Strings.

Definition byte (c : ascii) : N := N_of_ascii c.

Fixpoint rev (s : string) : string :=
  match s with
  | EmptyString => EmptyString
  | String c s' => rev s' ++ String c EmptyString
  end.

(** [strings.HasPrefix(s, prefix)] *)
Fixpoint HasPrefix (s prefix : string) {struct prefix} : bool :=
  match prefix, s with
  | EmptyString, _ => true
  | String _ _, EmptyString => false
  | String p prefix', String c s' => Ascii.eqb c p && HasPrefix s' prefix'
  end.

(** [strings.HasSuffix(s, suffix)] *)
Definition HasSuffix (s suffix : string) : bool :=
  HasPrefix (rev s) (rev suffix).

(** [strings.Split(s, sep)] for a non-empty [sep] (every call site passes a
    non-empty literal).  The result is never empty; its head is the piece
    before the first occurrence of [sep].  [skip] counts the bytes of a
    separator that was just recognised and is still to be stepped over. *)
Fixpoint Split_from (s sep : string) (skip : nat) : list string :=
  match s with
  | EmptyString => [EmptyString]
  | String c s' =>
      match skip with
      | S n => Split_from s' sep n
      | O =>
          if HasPrefix s sep
          then EmptyString :: Split_from s' sep (String.length sep - 1)
          else match Split_from s' sep 0 with
               | piece :: pieces => String c piece :: pieces
               | [] => [String c EmptyString]
               end
      end
  end.

Definition Split (s sep : string) : list string := Split_from s sep 0.

(** [strings.Join(elems, sep)] *)
Fixpoint Join (elems : list string) (sep : string) : string :=
  match elems with
  | [] => EmptyString
  | [e] => e
  | e :: rest => e ++ sep ++ Join rest sep
  end.

Fixpoint contains (cutset : string) (c : ascii) : bool :=
  match cutset with
  | EmptyString => false
  | String d cutset' => Ascii.eqb c d || contains cutset' c
  end.

(** [strings.TrimRight(s, cutset)] for an ASCII [cutset]: the trailing bytes
    that occur in [cutset] are removed. *)
Fixpoint TrimRight (s cutset : string) : string :=
  match s with
  | EmptyString => EmptyString
  | String c s' =>
      match TrimRight s' cutset with
      | EmptyString => if contains cutset c then EmptyString else String c EmptyString
      | t => String c t
      end
  end.

(** Width in bytes of the white-space rune ([unicode.IsSpace]) that [s]
    starts with, in UTF-8; [0] when [s] does not start with one.  The
    white-space runes are U+0009..U+000D, U+0020, U+0085, U+00A0, U+1680,
    U+2000..U+200A, U+2028, U+2029, U+202F, U+205F and U+3000. *)
Definition spaceWidth (s : string) : nat :=
  match s with
  | EmptyString => 0
  | String a r =>
      let x := byte a in
      if ((9 <=? x) && (x <=? 13) || (x =? 32))%N then 1
      else match r with
           | EmptyString => 0
           | String b r' =>
               let y := byte b in
               if ((x =? 194) && ((y =? 133) || (y =? 160)))%N then 2
               else match r' with
                    | EmptyString => 0
                    | String c _ =>
                        let z := byte c in
                        if ((x =? 225) && (y =? 154) && (z =? 128)
                            || (x =? 226) && (y =? 128)
                               && ((128 <=? z) && (z <=? 138)
                                   || (z =? 168) || (z =? 169) || (z =? 175))
                            || (x =? 226) && (y =? 129) && (z =? 159)
                            || (x =? 227) && (y =? 128) && (z =? 128))%N
                        then 3 else 0
                    end
           end
  end.

(** The same for the rune that the string ends with, on the reversed
    string [r]: its last one, two or three bytes must be a white-space rune
    of exactly that width. *)
Definition spaceWidthRev (r : string) : nat :=
  match r with
  | EmptyString => 0
  | String a r1 =>
      if Nat.eqb (spaceWidth (String a EmptyString)) 1 then 1
      else match r1 with
           | EmptyString => 0
           | String b r2 =>
               if Nat.eqb (spaceWidth (String b (String a EmptyString))) 2 then 2
               else match r2 with
                    | EmptyString => 0
                    | String c _ =>
                        if Nat.eqb (spaceWidth (String c (String b (String a EmptyString)))) 3
                        then 3 else 0
                    end
           end
  end.

Fixpoint trimWhile (width : string -> nat) (s : string) (skip : nat) : string :=
  match s with
  | EmptyString => EmptyString
  | String _ s' =>
      match skip with
      | S n => trimWhile width s' n
      | O => match width s with
             | O => s
             | S n => trimWhile width s' n
             end
      end
  end.

(** [strings.TrimSpace(s)]: leading, then trailing white-space runes are
    removed. *)
Definition TrimSpace (s : string) : string :=
  rev (trimWhile spaceWidthRev (rev (trimWhile spaceWidth s 0)) 0).

End Strings.

(** ** Package [strconv] *)

Module Strconv.

(** [strconv.ParseBool(str)] *)
Definition ParseBool (str : string) : option bool :=
  if existsb (String.eqb str) ["1"; "t"; "T"; "TRUE"; "true"; "True"] then Some true
  else if existsb (String.eqb str) ["0"; "f"; "F"; "FALSE"; "false"; "False"] then Some false
  else None.

Definition digit (c : ascii) : option Z :=
  let x := Z.of_N (Strings.byte c) in
  if ((48 <=? x) && (x <=? 57))%Z then Some (x - 48)%Z else None.

(** The value of a run of decimal digits, most significant first, on top
    of the value [acc] of the digits already read; [None] at any other
    byte. *)
Fixpoint digits (s : string) (acc : Z) : option Z :=
  match s with
  | EmptyString => Some acc
  | String c s' =>
      match digit c with
      | Some d => digits s' (10 * acc + d)%Z
      | None => None
      end
  end.

(** [strconv.ParseUint(s, 10, 64)] without the range check, which
    [ParseInt] subsumes. *)
Definition ParseUint (s : string) : option Z :=
  match s with
  | EmptyString => None
  | _ => digits s 0
  end.

(** [strconv.ParseInt(s, 10, 64)]: an optional sign, then decimal digits;
    a value outside the signed 64-bit range is an error. *)
Definition ParseInt (s : string) : option Z :=
  match s with
  | EmptyString => None
  | String c s' =>
      let neg := Ascii.eqb c "-" in
      let s1 := if Ascii.eqb c "+" || neg then s' else s in
      match ParseUint s1 with
      | None => None
      | Some un =>
          let cutoff := (2 ^ 63)%Z in
          if negb neg && (cutoff <=? un)%Z then None
          else if neg && (cutoff <? un)%Z then None
          else Some (if neg then - un else un)%Z
      end
  end.

End Strconv.

(** ** Package [time]

    [time.Unix(sec, 0).Format(layout)] for the layout of [parser.go].  The
    instant is read on the wall clock of the local zone, which is a matter
    of the process's environment: [zone sec] is the offset of the local zone,
    in seconds east of UTC, at the instant [sec].  Dates are those of the
    proleptic Gregorian calendar.  (Package [time] computes them from an
    unsigned count of seconds since the first of January of the year
    -292277022399, its "absolute zero year", and documents that instants
    before it do not compute correctly; the model is meant for the years
    after that one.) *)

Module Time.

Record clock : Type := mkClock {
  year : Z; month : Z; day : Z;
  hour : Z; minute : Z; second : Z
}.

Definition absoluteZeroYear : Z := -292277022399.

(** Year of the 400-year era, month and day of the day [doe] of the era
    (an era starts on a first of March); the year counts from March. *)
Definition dateOfEra (doe : Z) : Z * Z * Z :=
  let yoe := ((doe - doe / 1460 + doe / 36524 - doe / 146096) / 365)%Z in
  let doy := (doe - (365 * yoe + yoe / 4 - yoe / 100))%Z in
  let mp := ((5 * doy + 2) / 153)%Z in
  let d := (doy - (153 * mp + 2) / 5 + 1)%Z in
  let m := (if mp <? 10 then mp + 3 else mp - 9)%Z in
  (yoe, m, d).

(** Year, month and day of the day [days] after 1970-01-01. *)
Definition date (days : Z) : Z * Z * Z :=
  let z := (days + 719468)%Z in
  let era := (z / 146097)%Z in
  let '(yoe, m, d) := dateOfEra (z mod 146097) in
  ((yoe + era * 400 + (if m <=? 2 then 1 else 0))%Z, m, d).

(** [time.Unix(sec, 0)], read on the local wall clock. *)
Definition Unix (zone : Z -> Z) (sec : Z) : clock :=
  let local := (sec + zone sec)%Z in
  let '(y, m, d) := date (local / 86400) in
  let t := (local mod 86400)%Z in
  {| year := y; month := m; day := d;
     hour := (t / 3600)%Z; minute := (t / 60 mod 60)%Z; second := (t mod 60)%Z |}.

Definition digitChar (d : Z) : ascii := ascii_of_N (Z.to_N (48 + d)).

(** The decimal digits of [u >= 0], most significant first, before [acc]. *)
Fixpoint digitsFrom (fuel : nat) (u : Z) (acc : string) : string :=
  match fuel with
  | O => acc
  | S fuel' =>
      let acc' := String (digitChar (u mod 10)) acc in
      if (u <? 10)%Z then acc' else digitsFrom fuel' (u / 10) acc'
  end.

Definition decimal (u : Z) : string :=
  digitsFrom (S (Z.to_nat (Z.log2 u))) u EmptyString.

Fixpoint zeros (n : nat) : string :=
  match n with
  | O => EmptyString
  | S n' => String "0" (zeros n')
  end.

(** [appendInt(b, x, width)]: a minus sign for a negative [x], then the
    digits of its absolute value, padded with zeros to [width] digits. *)
Definition appendInt (x : Z) (width : nat) : string :=
  let digits := decimal (Z.abs x) in
  (if (x <? 0)%Z then "-" else EmptyString)
  ++ zeros (width - String.length digits) ++ digits.

(** [t.Format(layout)] for a layout made of the elements [2006], [01],
    [02], [15], [04], [05] and of bytes that belong to no layout element
    (the other elements of the layout language are not modelled).  [skip]
    counts the bytes of an element still to be stepped over. *)
Fixpoint formatFrom (t : clock) (layout : string) (skip : nat) : string :=
  match layout with
  | EmptyString => EmptyString
  | String c rest =>
      match skip with
      | S n => formatFrom t rest n
      | O =>
          if Strings.HasPrefix layout "2006" then appendInt (year t) 4 ++ formatFrom t rest 3
          else if Strings.HasPrefix layout "01" then appendInt (month t) 2 ++ formatFrom t rest 1
          else if Strings.HasPrefix layout "02" then appendInt (day t) 2 ++ formatFrom t rest 1
          else if Strings.HasPrefix layout "15" then appendInt (hour t) 2 ++ formatFrom t rest 1
          else if Strings.HasPrefix layout "04" then appendInt (minute t) 2 ++ formatFrom t rest 1
          else if Strings.HasPrefix layout "05" then appendInt (second t) 2 ++ formatFrom t rest 1
          else String c (formatFrom t rest 0)
      end
  end.

Definition Format (t : clock) (layout : string) : string := formatFrom t layout 0.

(** A text of a given shape: a [d] of the shape stands for a decimal
    digit, any other byte for itself. *)
Fixpoint hasShape (shape s : string) : bool :=
  match shape, s with
  | EmptyString, EmptyString => true
  | String p shape', String c s' =>
      (if Ascii.eqb p "d" then (((48 <=? Strings.byte c) && (Strings.byte c <=? 57))%N) else Ascii.eqb c p) && hasShape shape' s'
  | _, _ => false
  end.

End Time.

(** ** Package [regexp] *)

Module Regexp.

(** The fragment of the syntax that the two patterns of [parser.go] use.
    Repetition is only ever applied to a character class there, and groups
    do not matter to [FindAllString], which returns whole matches. *)
Inductive regex : Type :=
| Empty                              (* [(?:)] *)
| Lit (s : string)                   (* literal text *)
| Star (class : ascii -> bool)       (* [c*], greedy *)
| Plus (class : ascii -> bool)       (* [c+], greedy *)
| Opt (r : regex)                    (* [r?], greedy *)
| Seq (r1 r2 : regex)
| Alt (r1 r2 : regex)
| WordBoundary.                      (* [\b] *)

Infix ":+:" := Seq (at level 60, right associativity).

Definition between (lo hi : N) (c : ascii) : bool :=
  ((lo <=? Strings.byte c) && (Strings.byte c <=? hi))%N.

(** [\w]: [[0-9A-Za-z_]] *)
Definition word (c : ascii) : bool :=
  between 48 57 c || between 65 90 c || between 97 122 c || Ascii.eqb c "_".

(** [\s]: [[\t\n\f\r ]] *)
Definition space (c : ascii) : bool :=
  existsb (N.eqb (Strings.byte c)) [9; 10; 12; 13; 32]%N.

(** [\S] and [[^\s]] *)
Definition notSpace (c : ascii) : bool := negb (space c).

(** [.]: any character but a newline *)
Definition dot (c : ascii) : bool := negb (N.eqb (Strings.byte c) 10).

Definition only (a : ascii) (c : ascii) : bool := Ascii.eqb c a.

Definition isWord (c : option ascii) : bool :=
  match c with
  | Some c => word c
  | None => false
  end.

Definition next (s : string) : option ascii :=
  match s with
  | EmptyString => None
  | String c _ => Some c
  end.

Section Exec.
Context {R : Type}.

(** A backtracking matcher in continuation-passing style: [k prev s] is
    the rest of the pattern, run on the rest [s] of the text, [prev]
    being the character just before [s].  Alternatives are tried in
    priority order (left branch first, longer repetition first), which is
    the leftmost-first match [regexp] returns. *)
Fixpoint star (class : ascii -> bool) (prev : option ascii) (s : string)
    (k : option ascii -> string -> option R) : option R :=
  match s with
  | String c s' =>
      if class c
      then match star class (Some c) s' k with
           | Some r => Some r
           | None => k prev s
           end
      else k prev s
  | EmptyString => k prev s
  end.

Fixpoint lit (t : string) (prev : option ascii) (s : string)
    (k : option ascii -> string -> option R) : option R :=
  match t with
  | EmptyString => k prev s
  | String a t' =>
      match s with
      | String c s' => if Ascii.eqb c a then lit t' (Some c) s' k else None
      | EmptyString => None
      end
  end.

Fixpoint exec (r : regex) (prev : option ascii) (s : string)
    (k : option ascii -> string -> option R) : option R :=
  match r with
  | Empty => k prev s
  | Lit t => lit t prev s k
  | Star class => star class prev s k
  | Plus class =>
      match s with
      | String c s' => if class c then star class (Some c) s' k else None
      | EmptyString => None
      end
  | Opt r1 =>
      match exec r1 prev s k with
      | Some x => Some x
      | None => k prev s
      end
  | Seq r1 r2 => exec r1 prev s (fun prev' s' => exec r2 prev' s' k)
  | Alt r1 r2 =>
      match exec r1 prev s k with
      | Some x => Some x
      | None => exec r2 prev s k
      end
  | WordBoundary => if xorb (isWord prev) (isWord (next s)) then k prev s else None
  end.
End Exec.

(** The texts of a pattern, word boundaries aside: what a match of the
    pattern can be. *)
Fixpoint allOf (class : ascii -> bool) (w : string) : bool :=
  match w with
  | EmptyString => true
  | String c w' => class c && allOf class w'
  end.

Fixpoint lang (r : regex) (w : string) : Prop :=
  match r with
  | Empty => w = EmptyString
  | Lit t => w = t
  | Star class => allOf class w = true
  | Plus class => w <> EmptyString /\ allOf class w = true
  | Opt r1 => w = EmptyString \/ lang r1 w
  | Seq r1 r2 => exists u v, w = u ++ v /\ lang r1 u /\ lang r2 v
  | Alt r1 r2 => lang r1 w \/ lang r2 w
  | WordBoundary => w = EmptyString
  end.

(** The match of [r] that starts at the beginning of [s], if any. *)
Definition matchAt (r : regex) (prev : option ascii) (s : string) : option string :=
  match exec r prev s (fun _ rest => Some rest) with
  | Some rest => Some (substring 0 (String.length s - String.length rest) s)
  | None => None
  end.

(** The successive non-overlapping matches in [s], scanning from the left.
    [skip] counts the bytes of the last match still to be stepped over and
    [atEnd] tells that the position is the end of the last match, where an
    empty match is not accepted.  (Neither pattern of [parser.go] matches
    the empty string.) *)
Fixpoint findAll (r : regex) (prev : option ascii) (s : string)
    (skip : nat) (atEnd : bool) : list string :=
  match skip with
  | S n =>
      match s with
      | String c s' => findAll r (Some c) s' n true
      | EmptyString => []
      end
  | O =>
      match matchAt r prev s with
      | Some EmptyString =>
          (if atEnd then [] else [EmptyString]) ++
          match s with
          | String c s' => findAll r (Some c) s' 0 false
          | EmptyString => []
          end
      | Some m =>
          m :: match s with
               | String c s' => findAll r (Some c) s' (String.length m - 1) true
               | EmptyString => []
               end
      | None =>
          match s with
          | String c s' => findAll r (Some c) s' 0 false
          | EmptyString => []
          end
      end
  end.

(** [re.FindAllString(s, -1)] *)
Definition FindAllString (re : regex) (s : string) : list string :=
  findAll re None s 0 false.

End Regexp.

Import Strings Strconv Regexp.

(** [`\b(User@Host: \S+\[\w+\]+ @ (?:)(\w+)? \[\S*\])|(Id:.+)`] *)
Definition userHostAttributesRe : regex :=
  Alt (WordBoundary :+: Lit "User@Host: " :+: Plus notSpace :+: Lit "[" :+: Plus word
         :+: Plus (only "]") :+: Lit " @ " :+: Empty :+: Opt (Plus word) :+: Lit " ["
         :+: Star notSpace :+: Lit "]")
      (Lit "Id:" :+: Plus dot).

(** [`\b([\w_]+:\s+[^\s]+)\b`] *)
Definition attributesRe : regex :=
  WordBoundary :+: Plus word :+: Lit ":" :+: Plus space :+: Plus notSpace :+: WordBoundary.

(** The one-byte string of a newline. *)
Definition LF : string := String "010" EmptyString.

(** ** The phases of a block, in the words of the specification

    Section 4.2: the header phase walks the lines that are empty or start
    with [#]; the context phase those that start with [use ] or [SET ]; the
    statement is what remains, cut before the log-rotation marker. *)

Definition isHeaderLine (line : string) : bool :=
  match line with
  | EmptyString => true
  | String c _ => Ascii.eqb c "#"
  end.

(** A header line other than the [# User@Host] one. *)
Definition isAttributeLine (line : string) : bool :=
  isHeaderLine line && negb (HasPrefix line "# User@Host").

Definition isContextLine (line : string) : bool :=
  HasPrefix line "use " || HasPrefix line "SET ".

Definition isRotationMarker (line : string) : bool :=
  HasSuffix line ("started with:" ++ LF).

Fixpoint takeWhile {A : Type} (f : A -> bool) (xs : list A) : list A :=
  match xs with
  | [] => []
  | x :: xs' => if f x then x :: takeWhile f xs' else []
  end.

Fixpoint dropWhile {A : Type} (f : A -> bool) (xs : list A) : list A :=
  match xs with
  | [] => []
  | x :: xs' => if f x then dropWhile f xs' else xs
  end.

(** A block of the log (glossary): header lines, each starting with [#],
    then the lines of the statement, none of which is empty or starts with
    [#]; at least one of each. *)
Definition isBlock (header body : list string) : Prop :=
  header <> [] /\ Forall (fun line => HasPrefix line "#" = true) header /\
  body <> [] /\ Forall (fun line => isHeaderLine line = false) body.

Definition bodyLines (block : list string) : list string :=
  dropWhile isContextLine (dropWhile isHeaderLine block).

Definition keptLines (block : list string) : list string :=
  takeWhile (fun line => negb (isRotationMarker line)) (bodyLines block).

Definition statementOf (block : list string) : string :=
  TrimSpace (Join (keptLines block) LF).

(** The keys that [parseEntry] and [parseUserHostLine] write by name. *)
Definition builtinKeys : list string :=
  ["User"; "Host"; "IP"; "Database"; "Timestamp"; "Statement"].

(** What [parseUserHostLine] keeps of its result: the keys are [User],
    [Host] and [IP]; [Host] and [IP] are never empty; [IP] comes with [Host],
    and [Host] with [User]. *)
Definition wellFormedFields (fields : gmap string string) : Prop :=
  (forall k, is_Some (fields !! k) -> k = "User" \/ k = "Host" \/ k = "IP") /\
  fields !! "Host" <> Some EmptyString /\ fields !! "IP" <> Some EmptyString /\
  (is_Some (fields !! "IP") -> is_Some (fields !! "Host")) /\
  (is_Some (fields !! "Host") -> is_Some (fields !! "User")).

(** ** The data model of [parser.go] *)

(** The four kinds of attribute the switch of [parseEntry] tells apart.

    Modelled from the spec: the constants [attributeTypeString],
    [attributeTypeBool], [attributeTypeFloat], [attributeTypeInt] and the
    table [attributeTypes] are declared outside [parser.go].  Following
    section 4.2 ("unrecognized names ... are silently dropped"), the lookup
    of a name that the table does not list selects none of the four cases,
    which the model renders by a [gmap] lookup that yields [None]. *)
Inductive attributeType : Type :=
| attributeTypeString
| attributeTypeBool
| attributeTypeFloat
| attributeTypeInt.

Record Parser : Type := mkParser {
  inHeader : bool;
  inQuery : bool;
  lines : list string
}.

#[global] Instance Parser_eq_dec : EqDecision Parser.
Proof. solve_decision. Defined.

(** The zero value [Parser{}], the only way to create a parser. *)
Definition newParser : Parser :=
  {| inHeader := false; inQuery := false; lines := [] |}.

(** The functions of package [mysqllog]. *)
Module mysqllog.

Section Parser.

(** The carrier of [float64] and [strconv.ParseFloat(s, 64)], which a
    shallow embedding leaves abstract. *)
Variable float64 : Type.
Variable ParseFloat : string -> option float64.

(** [time.Unix(sec, 0).Format("2006-01-02 15:04:05")], which depends on the
    time zone of the process. *)
Variable formatUnix : Z -> string.

(** The attribute-type table (see [attributeType]). *)
Variable attributeTypes : gmap string attributeType.

(** A value of type [interface{}] stored in a [LogEvent]. *)
Inductive value : Type :=
| VString (s : string)
| VBool (b : bool)
| VFloat (f : float64)
| VInt (n : Z).

(** [type LogEvent map[string]interface{}] *)
Local Abbreviation LogEvent := (gmap string value).

(** *** [parseUserHostLine] *)

(** [event[k]] on a [map[string]string]: the empty string for a missing key. *)
Definition at_ (event : gmap string string) (k : string) : string :=
  default EmptyString (event !! k).

(** The body of the loop over the matches. *)
Definition userHostMatch (event : gmap string string) (match_ : string)
    : result (gmap string string) :=
  let parts := Split match_ ": " in
  let! p0 := index parts 0 in
  if String.eqb p0 "User@Host" then
    let! p1 := index parts 1 in
    let userHostParts := Split p1 "@" in
    let! u0 := index userHostParts 0 in
    let! user := index (Split u0 "[") 0 in
    let event := <["User" := TrimSpace user]> event in
    let! u1 := index userHostParts 1 in
    let! host := index (Split u1 "[") 0 in
    let event := <["Host" := TrimSpace host]> event in
    let! u1' := index userHostParts 1 in
    let! ip := index (Split u1' "[") 1 in
    let event := <["IP" := TrimRight (TrimSpace ip) "]"]> event in
    let event :=
      if Nat.eqb (String.length (at_ event "IP")) 0 then delete "IP" event else event in
    let event :=
      if Nat.eqb (String.length (at_ event "Host")) 0 then
        if Nat.ltb 0 (String.length (at_ event "IP"))
        then <["Host" := at_ event "IP"]> event
        else delete "Host" event
      else event in
    Ok event
  else Ok event.

Fixpoint userHostMatches (matches : list string) (event : gmap string string)
    : result (gmap string string) :=
  match matches with
  | [] => Ok event
  | match_ :: rest =>
      let! event := userHostMatch event match_ in
      userHostMatches rest event
  end.

Definition parseUserHostLine (line : string) : result (gmap string string) :=
  userHostMatches (FindAllString userHostAttributesRe line) ∅.

(** *** [parseEntry] *)

(** The body of the loop over the matches of [attributesRe]. *)
Definition attributeMatch (event : LogEvent) (match_ : string) : result LogEvent :=
  let parts := Split match_ ": " in
  let! p0 := index parts 0 in
  let! attributeValue :=
    match attributeTypes !! p0 with
    | Some attributeTypeString =>
        let! p1 := index parts 1 in Ok (Some (VString p1))
    | Some attributeTypeBool =>
        let! p1 := index parts 1 in Ok (VBool <$> ParseBool p1)
    | Some attributeTypeFloat =>
        let! p1 := index parts 1 in Ok (VFloat <$> ParseFloat p1)
    | Some attributeTypeInt =>
        let! p1 := index parts 1 in Ok (VInt <$> ParseInt p1)
    | None => Ok None
    end in
  match attributeValue with
  | None => Ok event
  | Some v => Ok (<[p0 := v]> event)
  end.

Fixpoint attributeMatches (matches : list string) (event : LogEvent) : result LogEvent :=
  match matches with
  | [] => Ok event
  | match_ :: rest =>
      let! event := attributeMatch event match_ in
      attributeMatches rest event
  end.

(** The body of the first loop for a line that starts with [#]. *)
Definition headerLine (line : string) (event : LogEvent) : result LogEvent :=
  if HasPrefix line "# User@Host" then
    let! fields := parseUserHostLine line in
    Ok ((VString <$> fields) ∪ event)
  else attributeMatches (FindAllString attributesRe line) event.

(** The first loop, [for i, line = range lines], from index [i] on.  The
    result carries the value of [i] after the loop: the index of the line
    that made it [break], and the index of the last line when the range
    was exhausted ([0] for no line at all). *)
Fixpoint headerLines (lines : list string) (i : nat) (event : LogEvent)
    : result (LogEvent * nat) :=
  match lines with
  | [] => Ok (event, pred i)
  | line :: rest =>
      match line with
      | EmptyString => headerLines rest (S i) event
      | String c _ =>
          if negb (Ascii.eqb c "#") then Ok (event, i)
          else
            let! event := headerLine line event in
            headerLines rest (S i) event
      end
  end.

(** The second loop, on [lines[i:]]; the result carries the lines from the
    final [i] on. *)
Fixpoint contextLines (lines : list string) (event : LogEvent)
    : result (LogEvent * list string) :=
  match lines with
  | [] => Ok (event, [])
  | line :: rest =>
      if HasPrefix line "use " then
        let! db := index (Split line " ") 1 in
        contextLines rest (<["Database" := VString (TrimRight db (";" ++ LF))]> event)
      else if HasPrefix line "SET " then
        if HasPrefix line "SET timestamp=" then
          let! t := index (Split line "=") 1 in
          let unixTimestampString := TrimRight t (";" ++ LF) in
          let event := <["Timestamp" := VString unixTimestampString]> event in
          match ParseInt unixTimestampString with
          | Some i =>
              contextLines rest (<["Timestamp" := VString (formatUnix i)]> event)
          | None => contextLines rest event
          end
        else contextLines rest event
      else Ok (event, lines)
  end.

(** The third loop, on [lines[i:]]: the value of [queryLines]. *)
Fixpoint queryLines (lines : list string) : list string :=
  match lines with
  | [] => []
  | line :: rest =>
      if HasSuffix line ("started with:" ++ LF) then []
      else line :: queryLines rest
  end.

Definition parseEntry (lines : list string) : result LogEvent :=
  let! '(event, i) := headerLines lines 0 ∅ in
  let! '(event, rest) := contextLines (drop i lines) event in
  Ok (<["Statement" := VString (TrimSpace (Join (queryLines rest) LF))]> event).

(** The events of the header phase on their own: the leading lines that
    are empty or start with [#], in order. *)
Fixpoint headerEvents (lines : list string) (event : LogEvent) : result LogEvent :=
  match lines with
  | [] => Ok event
  | line :: rest =>
      if isHeaderLine line then
        match line with
        | EmptyString => headerEvents rest event
        | _ => let! event := headerLine line event in headerEvents rest event
        end
      else Ok event
  end.

(** The value of [Timestamp] for the text [raw] after [SET timestamp=]. *)
Definition timestampOf (raw : string) : string :=
  match ParseInt raw with
  | Some sec => formatUnix sec
  | None => raw
  end.

(** *** [ConsumeLine] and [Flush]

    A call returns the event ([None] for [nil]) and the parser after it. *)

Definition ConsumeLine (p : Parser) (line : string) : result (option LogEvent * Parser) :=
  if String.eqb line EmptyString then
    if inQuery p then
      let! event := parseEntry (lines p) in
      Ok (Some event, {| inHeader := true; inQuery := false; lines := [line] |})
    else Ok (None, p)
  else if HasPrefix line "#" then
    if inQuery p then
      let! event := parseEntry (lines p) in
      Ok (Some event, {| inHeader := true; inQuery := false; lines := [line] |})
    else Ok (None, {| inHeader := true; inQuery := inQuery p; lines := lines p ++ [line] |})
  else if inHeader p then
    Ok (None, {| inHeader := false; inQuery := true; lines := lines p ++ [line] |})
  else if inQuery p then
    Ok (None, {| inHeader := inHeader p; inQuery := inQuery p; lines := lines p ++ [line] |})
  else Ok (None, p).

Definition Flush (p : Parser) : result (option LogEvent * Parser) :=
  if negb (inQuery p) then Ok (None, p)
  else
    let! event := parseEntry (lines p) in
    Ok (Some event, {| inHeader := inHeader p; inQuery := inQuery p; lines := [] |}).

(** *** The caller's loop and the reachable parsers

    The caller hands the lines over one at a time; [feed] collects what
    each call returns.  A parser is only ever changed by [ConsumeLine] and
    [Flush]. *)

Fixpoint feed (p : Parser) (input : list string)
    : result (list (option LogEvent) * Parser) :=
  match input with
  | [] => Ok ([], p)
  | line :: rest =>
      let! '(event, p) := ConsumeLine p line in
      let! '(events, p) := feed p rest in
      Ok (event :: events, p)
  end.

Inductive reachable : Parser -> Prop :=
| reachable_new : reachable newParser
| reachable_ConsumeLine p line event p' :
    reachable p -> ConsumeLine p line = Ok (event, p') -> reachable p'
| reachable_Flush p event p' :
    reachable p -> Flush p = Ok (event, p') -> reachable p'.

(** The parser hands [event] to its caller in state [p]. *)
Definition emits (p : Parser) (event : LogEvent) : Prop :=
  (exists line p', ConsumeLine p line = Ok (Some event, p')) \/
  (exists p', Flush p = Ok (Some event, p')).

(** The coercion of an attribute value, in the words of section 4.2: a
    string is kept, a boolean, a float or an integer must parse. *)
Inductive parsesAs : attributeType -> string -> value -> Prop :=
| parses_string s : parsesAs attributeTypeString s (VString s)
| parses_bool s b : ParseBool s = Some b -> parsesAs attributeTypeBool s (VBool b)
| parses_float s f : ParseFloat s = Some f -> parsesAs attributeTypeFloat s (VFloat f)
| parses_int s n : ParseInt s = Some n -> parsesAs attributeTypeInt s (VInt n).

(** The dynamic type of a value is the declared one. *)
Definition hasType (t : attributeType) (v : value) : Prop :=
  match t, v with
  | attributeTypeString, VString _ => True
  | attributeTypeBool, VBool _ => True
  | attributeTypeFloat, VFloat _ => True
  | attributeTypeInt, VInt _ => True
  | _, _ => False
  end.

(** Every entry of an event is an attribute of the table with a value of
    its declared type, or a string under one of the built-in keys. *)
Definition wellTyped (event : LogEvent) : Prop :=
  forall k v, event !! k = Some v ->
    (exists t, attributeTypes !! k = Some t /\ hasType t v) \/
    (In k builtinKeys /\ exists s, v = VString s).

End Parser.

End mysqllog.

Import mysqllog.

(** [P] holds of the [n] integers from [x] on: a check by enumeration. *)
Fixpoint allFrom (P : Z -> bool) (n : nat) (x : Z) : bool :=
  match n with
  | O => true
  | S n' => P x && allFrom P n' (x + 1)%Z
  end.

(** [time.Unix(sec, 0).Format("2006-01-02 15:04:05")] in a process whose
    local zone is [zone]: the formatter of [parseEntry] there. *)
Abbreviation formatLocal zone :=
  (fun sec : Z => Time.Format (Time.Unix zone sec) "2006-01-02 15:04:05").

(** [type LogEvent map[string]interface{}], outside the section *)
Abbreviation LogEvent float64 := (gmap string (value float64)).

#[global] Instance value_eq_dec {float64 : Type} `{EqDecision float64} :
  EqDecision (value float64).
Proof. solve_decision. Defined.

Arguments VString {float64} s.
Arguments VBool {float64} b.
Arguments VFloat {float64} f.
Arguments VInt {float64} n.

(** ** A concrete instance, for the examples

    A table with the attributes that section 8 of the specification names,
    decimal literals for [float64], and UTC for the time zone. *)

Module Sample.

Definition attributeTypes : gmap string attributeType :=
  {[ "Query_time" := attributeTypeFloat;
     "Lock_time" := attributeTypeFloat;
     "Rows_sent" := attributeTypeInt;
     "Rows_examined" := attributeTypeInt;
     "Schema" := attributeTypeString;
     "QC_hit" := attributeTypeBool ]}.

(** A decimal literal [digits.digits] as its digits and its number of
    fraction digits. *)
Definition ParseFloat (s : string) : option (Z * nat) :=
  match Split s "." with
  | [int; frac] =>
      match ParseUint int, digits frac 0 with
      | Some _, Some _ =>
          match digits (int ++ frac) 0 with
          | Some n => Some (n, String.length frac)
          | None => None
          end
      | _, _ => None
      end
  | [int] => match ParseUint int with Some n => Some (n, 0) | None => None end
  | _ => None
  end.

Fixpoint decimal (width : nat) (n : Z) : string :=
  match width with
  | O => EmptyString
  | S w => decimal w (n / 10) ++ String (ascii_of_N (Z.to_N (48 + n mod 10))) EmptyString
  end.

(** The civil date of a day count since 1970-01-01 (years 0 to 9999). *)
Definition civil (days : Z) : Z * Z * Z :=
  let z := (days + 719468)%Z in
  let era := (z / 146097)%Z in
  let doe := (z - era * 146097)%Z in
  let yoe := ((doe - doe / 1460 + doe / 36524 - doe / 146096) / 365)%Z in
  let doy := (doe - (365 * yoe + yoe / 4 - yoe / 100))%Z in
  let mp := ((5 * doy + 2) / 153)%Z in
  let d := (doy - (153 * mp + 2) / 5 + 1)%Z in
  let m := (if mp <? 10 then mp + 3 else mp - 9)%Z in
  let y := (yoe + era * 400 + (if m <=? 2 then 1 else 0))%Z in
  (y, m, d).

Definition formatUnix (sec : Z) : string :=
  let '(y, m, d) := civil (sec / 86400) in
  let t := (sec mod 86400)%Z in
  decimal 4 y ++ "-" ++ decimal 2 m ++ "-" ++ decimal 2 d ++ " " ++
  decimal 2 (t / 3600) ++ ":" ++ decimal 2 (t / 60 mod 60) ++ ":" ++ decimal 2 (t mod 60).

(** The model at this instance. *)
Abbreviation parseEntry := (mysqllog.parseEntry (Z * nat) ParseFloat formatUnix attributeTypes).
Abbreviation ConsumeLine := (mysqllog.ConsumeLine (Z * nat) ParseFloat formatUnix attributeTypes).
Abbreviation Flush := (mysqllog.Flush (Z * nat) ParseFloat formatUnix attributeTypes).
Abbreviation feed := (mysqllog.feed (Z * nat) ParseFloat formatUnix attributeTypes).
Abbreviation reachable := (mysqllog.reachable (Z * nat) ParseFloat formatUnix attributeTypes).
Abbreviation emits := (mysqllog.emits (Z * nat) ParseFloat formatUnix attributeTypes).

(** The block of section 6 of the specification, and a second one. *)
Definition header1 : list string :=
  ["# Time: 2021-01-01T00:00:00.000000Z";
   "# User@Host: user[user] @ host [1.2.3.4]  Id: 123";
   "# Query_time: 0.000123  Lock_time: 0.000045 Rows_sent: 1  Rows_examined: 10"].

Definition body1 : list string :=
  ["use some_db;"; "SET timestamp=1609459200;"; "SELECT * FROM t;"].

Definition event1 : LogEvent (Z * nat) :=
  {[ "User" := VString "user"; "Host" := VString "host"; "IP" := VString "1.2.3.4";
     "Query_time" := VFloat (123%Z, 6); "Lock_time" := VFloat (45%Z, 6);
     "Rows_sent" := VInt 1; "Rows_examined" := VInt 10;
     "Database" := VString "some_db"; "Timestamp" := VString "2021-01-01 00:00:00";
     "Statement" := VString "SELECT * FROM t;" ]}.

Definition header2 : list string :=
  ["# User@Host: root[root] @ localhost []"; "# Query_time: 1.5 Rows_sent: many"].

Definition body2 : list string := ["SELECT 1"; "  FROM dual;"].

Definition event2 : LogEvent (Z * nat) :=
  {[ "User" := VString "root"; "Host" := VString "localhost";
     "Query_time" := VFloat (15%Z, 1);
     "Statement" := VString ("SELECT 1" ++ LF ++ "  FROM dual;") ]}.

(** The parser after the lines of the first block. *)
Definition afterBlock1 : Parser :=
  {| inHeader := false; inQuery := true; lines := header1 ++ body1 |}.

(** A block whose third line ends with the rotation marker and a newline,
    and one whose third line ends with the marker alone. *)
Definition rotated : list string :=
  ["# Rows_sent: 1"; "SELECT 1;"; "mysqld started with:" ++ LF; "Tcp port: 3306"].

Definition rotatedBare : list string :=
  ["# Rows_sent: 1"; "SELECT 1;"; "mysqld started with:"; "Tcp port: 3306"].

Definition rotatedEvent : LogEvent (Z * nat) :=
  {[ "Rows_sent" := VInt 1; "Statement" := VString "SELECT 1;" ]}.

(** Two blocks around a [# User@Host] line, and their events. *)
Definition localhostBlock : list string :=
  ["# Time: 2021-01-01T00:00:00Z"; "# User@Host: root[root] @ localhost []";
   "# Query_time: 0.5"; "SELECT 1;"].

Definition localhostEvent : LogEvent (Z * nat) :=
  {[ "User" := VString "root"; "Host" := VString "localhost";
     "Query_time" := VFloat (5%Z, 1); "Statement" := VString "SELECT 1;" ]}.

Definition addressBlock : list string :=
  ["# Time: 2021-01-01T00:00:00Z"; "# User@Host: root[root] @  [127.0.0.1]";
   "# Query_time: 0.5"; "SELECT 1;"].

Definition addressEvent : LogEvent (Z * nat) :=
  {[ "User" := VString "root"; "Host" := VString "127.0.0.1"; "IP" := VString "127.0.0.1";
     "Query_time" := VFloat (5%Z, 1); "Statement" := VString "SELECT 1;" ]}.

(** A block with a timestamp that is not a number. *)
Definition stampedBlock : list string :=
  ["# Rows_sent: 1"; "use some_db;"; "SET timestamp=yesterday;"; "SET NAMES utf8;"; "SELECT 1;"].

Definition stampedEvent : LogEvent (Z * nat) :=
  {[ "Rows_sent" := VInt 1; "Database" := VString "some_db";
     "Timestamp" := VString "yesterday"; "Statement" := VString "SELECT 1;" ]}.

(** A block of header lines only, and its event. *)
Definition headerOnlyEvent : LogEvent (Z * nat) :=
  {[ "Rows_sent" := VInt 1; "Statement" := VString "# Rows_sent: 1" ]}.

(** The fields of [# User@Host: root[root] @  [127.0.0.1]]. *)
Definition addressFields : gmap string string :=
  {[ "User" := "root"; "Host" := "127.0.0.1"; "IP" := "127.0.0.1" ]}.

(** The parser right after the blank line that closes the first block. *)
Definition afterBlank : Parser :=
  {| inHeader := true; inQuery := false; lines := [EmptyString] |}.

(** A block whose header line makes [parseUserHostLine] fail. *)
Definition failingBlock : list string :=
  ["# User@Host: a@b@c[d] @ h []"; "SELECT 1;"].

(** A stream without a [# User@Host] line. *)
Definition plainStream : list string :=
  ["# Time: 2021-01-01T00:00:00Z"; "# Query_time: 0.5"; "SELECT 1;"; EmptyString; "SELECT 2;"].

(** A process in the zone UTC; two blocks whose timestamp value holds an
    equals sign, and a block with a plain epoch. *)
Definition utc (sec : Z) : Z := 0%Z.

Abbreviation parseEntryUTC :=
  (mysqllog.parseEntry (Z * nat) ParseFloat (formatLocal utc) attributeTypes).

Definition equalsBlock : list string :=
  ["# Rows_sent: 1"; "SET timestamp=a=b;"; "SELECT 1;"].

Definition epochEqualsBlock : list string :=
  ["# Rows_sent: 1"; "SET timestamp=1=2;"; "SELECT 1;"].

Definition trimmedBlock : list string :=
  ["# Rows_sent: 1"; "SET timestamp=12;;"; "SELECT 1;"].

Definition twiceBlock : list string :=
  ["# Rows_sent: 1"; "SET timestamp=1;"; "SET timestamp=2;"; "SELECT 1;"].

Definition farBlock : list string :=
  ["# Rows_sent: 1"; "SET timestamp=253402300800;"; "SELECT 1;"].

Definition epochBlock : list string :=
  ["# Rows_sent: 1"; "use some_db;"; "SET timestamp=1609459200;"; "SET NAMES utf8;"; "SELECT 1;"].

Definition epochEvent : LogEvent (Z * nat) :=
  {[ "Rows_sent" := VInt 1; "Database" := VString "some_db";
     "Timestamp" := VString "2021-01-01 00:00:00"; "Statement" := VString "SELECT 1;" ]}.

End Sample.


(** * Properties *)

(** ** Facts about the [strings] routines *)

Lemma Split_from_not_nil (s sep : string) (skip : nat) : Split_from s sep skip <> [].
Proof.
  revert skip. induction s as [|c s IH]; intros skip; cbn [Split_from]; [done|].
  destruct skip as [|n]; [|apply IH].
  destruct (HasPrefix (String c s) sep); [done|].
  destruct (Split_from s sep 0); done.
Qed.

Lemma Split_from_cons (s sep : string) (skip : nat) :
  exists piece pieces, Split_from s sep skip = piece :: pieces.
Proof.
  pose proof (Split_from_not_nil s sep skip) as H.
  destruct (Split_from s sep skip) as [|piece pieces]; [congruence|eauto].
Qed.

Lemma HasPrefix_app (p t : string) : HasPrefix (p ++ t) p = true.
Proof.
  induction p as [|c p IH]; simpl; [reflexivity|].
  rewrite Ascii.eqb_refl. exact IH.
Qed.

Lemma HasPrefix_inv (s p : string) :
  HasPrefix s p = true -> exists t, s = p ++ t.
Proof.
  revert s. induction p as [|c p IH]; intros s H; simpl in *.
  - exists s. reflexivity.
  - destruct s as [|d s]; [discriminate|].
    apply andb_true_iff in H as [Hc Hp].
    apply Ascii.eqb_eq in Hc. subst d.
    destruct (IH s Hp) as [t ->]. exists t. reflexivity.
Qed.

(** A text without the one-byte separator is a single piece. *)
Lemma Split_absent (s : string) (c : ascii) :
  contains s c = false -> Split s (String c EmptyString) = [s].
Proof.
  unfold Split. induction s as [|d s IH]; simpl; [reflexivity|].
  intros H. apply orb_false_iff in H as [Hd Hs].
  rewrite Ascii.eqb_sym in Hd. rewrite Hd. simpl.
  rewrite (IH Hs). reflexivity.
Qed.

(** The piece before the first separator, when the text up to it holds none. *)
Lemma Split_first (s t : string) (c : ascii) :
  contains s c = false ->
  Split (s ++ String c t) (String c EmptyString) = s :: Split t (String c EmptyString).
Proof.
  unfold Split. induction s as [|d s IH]; simpl.
  - intros _. rewrite Ascii.eqb_refl. reflexivity.
  - intros H. apply orb_false_iff in H as [Hd Hs].
    rewrite Ascii.eqb_sym in Hd. rewrite Hd. simpl.
    rewrite (IH Hs). reflexivity.
Qed.

(** Trimming takes a trailing cut-set byte off a text it would leave alone. *)
Lemma TrimRight_snoc (v cutset : string) (c : ascii) :
  contains cutset c = true ->
  TrimRight v cutset = v ->
  TrimRight (v ++ String c EmptyString) cutset = v.
Proof.
  intros Hc. induction v as [|d v IH]; simpl.
  - intros _. rewrite Hc. reflexivity.
  - destruct (TrimRight v cutset) as [|e t] eqn:Hv.
    + destruct (contains cutset d); [discriminate|].
      intros [= <-]. simpl. rewrite Hc. reflexivity.
    + intros [= <-]. rewrite IH; reflexivity.
Qed.

Lemma takeWhile_dropWhile {A : Type} (f : A -> bool) (xs : list A) :
  (takeWhile f xs ++ dropWhile f xs)%list = xs.
Proof.
  induction xs as [|x xs IH]; simpl; [reflexivity|].
  destruct (f x); simpl; [f_equal; exact IH | reflexivity].
Qed.

Lemma drop_takeWhile {A : Type} (f : A -> bool) (xs : list A) :
  drop (length (takeWhile f xs)) xs = dropWhile f xs.
Proof.
  induction xs as [|x xs IH]; simpl; [reflexivity|].
  destruct (f x); simpl; [exact IH | reflexivity].
Qed.

Lemma takeWhile_stop {A : Type} (f : A -> bool) (pre post : list A) (x : A) :
  Forall (fun y => f y = true) pre -> f x = false ->
  takeWhile f (pre ++ x :: post)%list = pre.
Proof.
  intros Hpre Hx. induction Hpre as [|y pre Hy _ IH]; simpl.
  - rewrite Hx. reflexivity.
  - rewrite Hy, IH. reflexivity.
Qed.

Lemma takeWhile_all {A : Type} (f : A -> bool) (xs : list A) :
  Forall (fun y => f y = true) xs -> takeWhile f xs = xs.
Proof.
  intros H. induction H as [|y xs Hy _ IH]; simpl; [reflexivity|].
  rewrite Hy, IH. reflexivity.
Qed.

(** ** The entry parser *)

Section Properties.

Variable float64 : Type.
Variable ParseFloat : string -> option float64.
Variable formatUnix : Z -> string.
Variable attributeTypes : gmap string attributeType.

Local Abbreviation LogEvent := (LogEvent float64).
Local Abbreviation attributeMatch := (attributeMatch float64 ParseFloat attributeTypes).
Local Abbreviation headerLine := (headerLine float64 ParseFloat attributeTypes).
Local Abbreviation headerLines := (headerLines float64 ParseFloat attributeTypes).
Local Abbreviation headerEvents := (headerEvents float64 ParseFloat attributeTypes).
Local Abbreviation contextLines := (contextLines float64 formatUnix).
Local Abbreviation timestampOf := (timestampOf formatUnix).
Local Abbreviation parseEntry := (parseEntry float64 ParseFloat formatUnix attributeTypes).
Local Abbreviation ConsumeLine := (ConsumeLine float64 ParseFloat formatUnix attributeTypes).
Local Abbreviation Flush := (Flush float64 ParseFloat formatUnix attributeTypes).
Local Abbreviation feed := (feed float64 ParseFloat formatUnix attributeTypes).
Local Abbreviation reachable := (reachable float64 ParseFloat formatUnix attributeTypes).
Local Abbreviation emits := (emits float64 ParseFloat formatUnix attributeTypes).
Local Abbreviation parsesAs := (parsesAs float64 ParseFloat).

(** A [use ] line: the second piece of the split at blanks exists. *)
Lemma contextLines_use (line : string) (rest : list string) (event : LogEvent) :
  HasPrefix line "use " = true ->
  exists db, contextLines (line :: rest) event
             = contextLines rest (<["Database" := VString db]> event).
Proof.
  intros H. destruct (HasPrefix_inv _ _ H) as [t ->].
  cbn [mysqllog.contextLines]. rewrite H.
  change ("use " ++ t) with ("use" ++ String " " t).
  rewrite Split_first by reflexivity.
  destruct (Split_from_cons t " " 0) as (piece & pieces & Hp).
  unfold Split at 1. rewrite Hp. cbn [index nth_error bind].
  eauto.
Qed.

(** A [SET timestamp=] line: [Timestamp] becomes [timestampOf] of the second
    piece of the split at [=], trimmed. *)
Lemma contextLines_SET_timestamp (t : string) (rest : list string) (event : LogEvent) :
  exists piece pieces event',
    Split t "=" = piece :: pieces /\
    contextLines (("SET timestamp=" ++ t) :: rest) event = contextLines rest event' /\
    event' !! "Timestamp" = Some (VString (timestampOf (TrimRight piece (";" ++ LF)))) /\
    forall k, k <> "Timestamp" -> event' !! k = event !! k.
Proof.
  destruct (Split_from_cons t "=" 0) as (piece & pieces & Hp).
  exists piece, pieces.
  cbn [mysqllog.contextLines].
  change (HasPrefix ("SET timestamp=" ++ t) "use ") with false.
  change (HasPrefix ("SET timestamp=" ++ t) "SET ") with true.
  rewrite (HasPrefix_app "SET timestamp=" t). cbv iota.
  change ("SET timestamp=" ++ t) with ("SET timestamp" ++ String "=" t).
  rewrite Split_first by reflexivity.
  unfold Split in *. rewrite Hp. cbn [index nth_error bind].
  unfold mysqllog.timestampOf.
  destruct (ParseInt (TrimRight piece (";" ++ LF))) as [sec|].
  - eexists. split; [reflexivity|]. split; [reflexivity|]. split.
    + apply lookup_insert_eq.
    + intros k Hk. rewrite !lookup_insert_ne by congruence. reflexivity.
  - eexists. split; [reflexivity|]. split; [reflexivity|]. split.
    + apply lookup_insert_eq.
    + intros k Hk. rewrite lookup_insert_ne by congruence. reflexivity.
Qed.

(** The context phase never fails, and leaves the lines from the first one
    that is not a context line. *)
Lemma contextLines_total (lines : list string) (event : LogEvent) :
  exists event', contextLines lines event = Ok (event', dropWhile isContextLine lines).
Proof.
  revert event. induction lines as [|line rest IH]; intros event.
  - exists event. reflexivity.
  - cbn [dropWhile]. unfold isContextLine.
    destruct (HasPrefix line "use ") eqn:Huse.
    + destruct (contextLines_use line rest event Huse) as [db ->]. apply IH.
    + destruct (HasPrefix line "SET ") eqn:Hset; cbn [orb].
      * cbn [mysqllog.contextLines]. rewrite Huse, Hset.
        destruct (HasPrefix line "SET timestamp=") eqn:Hts; [|apply IH].
        destruct (HasPrefix_inv _ _ Hts) as [t ->].
        destruct (contextLines_SET_timestamp t rest event) as (p & ps & e' & _ & He & _).
        cbn [mysqllog.contextLines] in He. rewrite Huse, Hset, Hts in He.
        rewrite He. apply IH.
      * cbn [mysqllog.contextLines]. rewrite Huse, Hset.
        exists event. reflexivity.
Qed.

(** The context phase writes [Database] and [Timestamp] only, the first on
    a [use ] line and the second on a [SET timestamp=] line. *)
Lemma contextLines_lookup (lines rest : list string) (event event' : LogEvent) (k : string) :
  contextLines lines event = Ok (event', rest) ->
  (k = "Database" ->
   Forall (fun l => HasPrefix l "use " = false) (takeWhile isContextLine lines)) ->
  (k = "Timestamp" ->
   Forall (fun l => HasPrefix l "SET timestamp=" = false) (takeWhile isContextLine lines)) ->
  event' !! k = event !! k.
Proof.
  revert event. induction lines as [|line lines IH]; intros event Hrun Hdb Hts.
  - injection Hrun as <- _. reflexivity.
  - cbn [takeWhile] in Hdb, Hts. unfold isContextLine in Hdb, Hts.
    destruct (HasPrefix line "use ") eqn:Huse.
    + cbn [orb] in Hdb, Hts.
      destruct (contextLines_use line lines event Huse) as [db Hstep].
      rewrite Hstep in Hrun.
      assert (k <> "Database") as Hk.
      { intros ->. specialize (Hdb eq_refl). inversion Hdb; congruence. }
      rewrite (IH _ Hrun).
      * apply lookup_insert_ne. congruence.
      * intros Heq. specialize (Hdb Heq). inversion Hdb; assumption.
      * intros Heq. specialize (Hts Heq). inversion Hts; assumption.
    + cbn [orb] in Hdb, Hts. cbn [mysqllog.contextLines] in Hrun. rewrite Huse in Hrun.
      destruct (HasPrefix line "SET ") eqn:Hset.
      * destruct (HasPrefix line "SET timestamp=") eqn:Hstamp.
        -- assert (k <> "Timestamp") as Hk.
           { intros ->. specialize (Hts eq_refl). inversion Hts; congruence. }
           destruct (HasPrefix_inv _ _ Hstamp) as [t ->].
           destruct (contextLines_SET_timestamp t lines event) as (p & ps & e1 & _ & He & _ & Hother).
           cbn [mysqllog.contextLines] in He. rewrite Huse, Hset, Hstamp in He.
           rewrite He in Hrun. rewrite (IH _ Hrun).
           ++ apply Hother. exact Hk.
           ++ intros Heq. specialize (Hdb Heq). inversion Hdb; assumption.
           ++ intros Heq. specialize (Hts Heq). inversion Hts; assumption.
        -- apply (IH _ Hrun).
           ++ intros Heq. specialize (Hdb Heq). inversion Hdb; assumption.
           ++ intros Heq. specialize (Hts Heq). inversion Hts; assumption.
      * injection Hrun as <- _. reflexivity.
Qed.

(** The statement loop keeps the lines before the first rotation marker. *)
Lemma queryLines_takeWhile (lines : list string) :
  queryLines lines = takeWhile (fun line => negb (isRotationMarker line)) lines.
Proof.
  induction lines as [|line lines IH]; cbn [queryLines takeWhile]; [reflexivity|].
  unfold isRotationMarker at 1.
  destruct (HasSuffix line ("started with:" ++ LF)); cbn [negb]; [reflexivity|].
  rewrite IH. reflexivity.
Qed.

(** The header loop on a block that has a line after its header: it stops
    at that line, with the events of the header lines. *)
Lemma headerLines_break (lines : list string) (i : nat) (event : LogEvent) :
  dropWhile isHeaderLine lines <> [] ->
  headerLines lines i event
  = (let! event' := headerEvents lines event in
     Ok (event', i + length (takeWhile isHeaderLine lines))).
Proof.
  revert i event. induction lines as [|line lines IH]; intros i event Hrest.
  - contradiction.
  - cbn [mysqllog.headerLines mysqllog.headerEvents takeWhile dropWhile] in *.
    destruct line as [|c line]; cbn [isHeaderLine] in *.
    + rewrite (IH _ _ Hrest). cbn [length].
      replace (S i + length (takeWhile isHeaderLine lines))
        with (i + S (length (takeWhile isHeaderLine lines))) by lia.
      reflexivity.
    + destruct (Ascii.eqb c "#"); cbn [negb].
      * destruct (headerLine (String c line) event) as [event1|]; cbn [bind]; [|reflexivity].
        rewrite (IH _ _ Hrest). cbn [length].
        replace (S i + length (takeWhile isHeaderLine lines))
          with (i + S (length (takeWhile isHeaderLine lines))) by lia.
        reflexivity.
      * cbn [bind length]. rewrite Nat.add_0_r. reflexivity.
Qed.

(** [parseEntry] as the three phases of section 4.2, on a block that is empty
    or has a line after its header. *)
Lemma parseEntry_phases (lines : list string) :
  lines = [] \/ dropWhile isHeaderLine lines <> [] ->
  parseEntry lines
  = (let! event := headerEvents lines ∅ in
     let! '(event, rest) := contextLines (dropWhile isHeaderLine lines) event in
     Ok (<["Statement" := VString (TrimSpace (Join (queryLines rest) LF))]> event)).
Proof.
  intros [-> | Hrest]; [reflexivity|].
  unfold mysqllog.parseEntry. rewrite (headerLines_break _ _ _ Hrest).
  destruct (headerEvents lines ∅) as [event|]; cbn [bind]; [|reflexivity].
  cbn [Nat.add]. rewrite drop_takeWhile. reflexivity.
Qed.

(** On such a block, the event that [parseEntry] returns holds the statement
    of the block under [Statement]. *)
Lemma parseEntry_Statement (lines : list string) (event : LogEvent) :
  lines = [] \/ dropWhile isHeaderLine lines <> [] ->
  parseEntry lines = Ok event ->
  event !! "Statement" = Some (VString (statementOf lines)).
Proof.
  intros Hshape Hrun. rewrite (parseEntry_phases _ Hshape) in Hrun.
  destruct (headerEvents lines ∅) as [event0|]; cbn [bind] in Hrun; [|discriminate].
  destruct (contextLines_total (dropWhile isHeaderLine lines) event0) as [event1 Hctx].
  rewrite Hctx in Hrun. cbn [bind] in Hrun. injection Hrun as <-.
  rewrite lookup_insert_eq, queryLines_takeWhile. reflexivity.
Qed.

(** After the header phase, [parseEntry] cannot fail. *)
Lemma parseEntry_returns (lines : list string) (event0 : LogEvent) :
  lines = [] \/ dropWhile isHeaderLine lines <> [] ->
  headerEvents lines ∅ = Ok event0 ->
  exists event, parseEntry lines = Ok event.
Proof.
  intros Hshape Hhdr. rewrite (parseEntry_phases _ Hshape), Hhdr. cbn [bind].
  destruct (contextLines_total (dropWhile isHeaderLine lines) event0) as [event1 ->].
  cbn [bind]. eauto.
Qed.

(** C2 (amended): the log-rotation marker that [parseEntry] tests for is a
    line that ends with [started with:] followed by a newline byte.  When
    some statement-body line of a block ends so, that line and all lines
    after it are excluded from [Statement], which is made of the body lines
    before it. *)
Theorem rotation_marker_cuts_Statement
    (lines pre post : list string) (marker : string) (event : LogEvent) :
  bodyLines lines = (pre ++ marker :: post)%list ->
  Forall (fun line => isRotationMarker line = false) pre ->
  HasSuffix marker ("started with:" ++ LF) = true ->
  parseEntry lines = Ok event ->
  event !! "Statement" = Some (VString (TrimSpace (Join pre LF))).
Proof.
  intros Hbody Hpre Hmarker Hrun.
  assert (dropWhile isHeaderLine lines <> []) as Hshape.
  { intros Hnil. unfold bodyLines in Hbody. rewrite Hnil in Hbody.
    destruct pre; discriminate Hbody. }
  rewrite (parseEntry_Statement lines event (or_intror Hshape) Hrun).
  unfold statementOf, keptLines. rewrite Hbody, takeWhile_stop.
  - reflexivity.
  - eapply Forall_impl; [exact Hpre|]. cbv beta. intros line ->. reflexivity.
  - unfold isRotationMarker. rewrite Hmarker. reflexivity.
Qed.

(** ** The line consumer *)

Lemma not_comment_not_header (line : string) :
  String.eqb line EmptyString = false -> HasPrefix line "#" = false ->
  isHeaderLine line = false.
Proof.
  destruct line as [|c line]; cbn; [discriminate|].
  rewrite andb_true_r. intros _ H. exact H.
Qed.

Lemma dropWhile_snoc {A : Type} (f : A -> bool) (xs : list A) (x : A) :
  f x = false -> dropWhile f (xs ++ [x])%list <> [].
Proof.
  intros Hx. induction xs as [|y xs IH]; cbn [dropWhile app].
  - rewrite Hx. discriminate.
  - destruct (f y); [exact IH | discriminate].
Qed.

(** An event comes from [parseEntry] on the buffer, in the query state. *)
Lemma emits_parseEntry (p : Parser) (event : LogEvent) :
  emits p event -> inQuery p = true /\ parseEntry (lines p) = Ok event.
Proof.
  intros [(line & p' & H) | (p' & H)].
  - unfold mysqllog.ConsumeLine in H.
    destruct (inQuery p); [split; [reflexivity|] | ].
    + destruct (parseEntry (lines p)) as [e|]; cbn [bind] in H.
      * destruct (String.eqb line EmptyString); [congruence|].
        destruct (HasPrefix line "#"); [congruence|].
        destruct (inHeader p); discriminate.
      * destruct (String.eqb line EmptyString); [discriminate|].
        destruct (HasPrefix line "#"); [discriminate|].
        destruct (inHeader p); discriminate.
    + destruct (String.eqb line EmptyString); [discriminate|].
      destruct (HasPrefix line "#"); [discriminate|].
      destruct (inHeader p); discriminate.
  - unfold mysqllog.Flush in H.
    destruct (inQuery p); cbn [negb] in H; [|discriminate].
    split; [reflexivity|].
    destruct (parseEntry (lines p)) as [e|]; cbn [bind] in H; congruence.
Qed.

(** In the query state the buffer is empty (after a [Flush]) or has a line
    after its header lines. *)
Lemma reachable_buffer (p : Parser) :
  reachable p -> inQuery p = true ->
  lines p = [] \/ dropWhile isHeaderLine (lines p) <> [].
Proof.
  intros Hreach. induction Hreach as [|p line event p' _ IH Hstep|p event p' _ IH Hstep].
  - discriminate.
  - unfold mysqllog.ConsumeLine in Hstep.
    destruct (String.eqb line EmptyString) eqn:Hblank.
    { destruct (inQuery p) eqn:Hq.
      - destruct (parseEntry (lines p)); cbn [bind] in Hstep; [|discriminate].
        injection Hstep as _ <-. discriminate.
      - injection Hstep as _ <-. rewrite Hq. discriminate. }
    destruct (HasPrefix line "#") eqn:Hcomment.
    { destruct (inQuery p) eqn:Hq.
      - destruct (parseEntry (lines p)); cbn [bind] in Hstep; [|discriminate].
        injection Hstep as _ <-. discriminate.
      - injection Hstep as _ <-. cbn. discriminate. }
    pose proof (not_comment_not_header line Hblank Hcomment) as Hline.
    destruct (inHeader p).
    { injection Hstep as _ <-. intros _. right. cbn [lines].
      apply dropWhile_snoc. exact Hline. }
    destruct (inQuery p) eqn:Hq.
    + injection Hstep as _ <-. intros _. right. cbn [lines].
      apply dropWhile_snoc. exact Hline.
    + injection Hstep as _ <-. rewrite Hq. discriminate.
  - unfold mysqllog.Flush in Hstep.
    destruct (inQuery p) eqn:Hq; cbn [negb] in Hstep.
    + destruct (parseEntry (lines p)); cbn [bind] in Hstep; [|discriminate].
      injection Hstep as _ <-. intros _. left. reflexivity.
    + injection Hstep as _ <-. rewrite Hq. discriminate.
Qed.

(** C7: every event that [ConsumeLine] or [Flush] hands out has the key
    [Statement]; its value is made of the lines of the buffered block that
    remain after the header and the context phase (up to the log-rotation
    marker, if any: all of them when no line carries it), joined with
    newlines and trimmed of white space; it is the empty string when no
    line remains. *)
Theorem emitted_event_has_Statement (p : Parser) (event : LogEvent) :
  reachable p -> emits p event ->
  event !! "Statement" = Some (VString (TrimSpace (Join (keptLines (lines p)) LF))) /\
  (Forall (fun line => isRotationMarker line = false) (bodyLines (lines p)) ->
   keptLines (lines p) = bodyLines (lines p)) /\
  (bodyLines (lines p) = [] -> event !! "Statement" = Some (VString EmptyString)).
Proof.
  intros Hreach Hemit.
  destruct (emits_parseEntry p event Hemit) as [Hq Hrun].
  pose proof (parseEntry_Statement _ _ (reachable_buffer p Hreach Hq) Hrun) as Hst.
  split; [exact Hst|]. split.
  - intros Hnone. unfold keptLines. apply takeWhile_all.
    eapply Forall_impl; [exact Hnone|]. cbv beta. intros line ->. reflexivity.
  - intros Hnil. rewrite Hst. unfold statementOf, keptLines. rewrite Hnil. reflexivity.
Qed.

(** C9: in every parser reachable from the initial one by calls of
    [ConsumeLine] and [Flush], [inHeader] and [inQuery] are not both true. *)
Theorem flags_never_both_true (p : Parser) :
  reachable p -> inHeader p && inQuery p = false.
Proof.
  intros Hreach. induction Hreach as [|p line event p' _ IH Hstep|p event p' _ IH Hstep].
  - reflexivity.
  - unfold mysqllog.ConsumeLine in Hstep.
    destruct (inHeader p) eqn:Hh, (inQuery p) eqn:Hq; try discriminate IH;
      destruct (String.eqb line EmptyString), (HasPrefix line "#");
      try (destruct (parseEntry (lines p)); cbn [bind] in Hstep; [|discriminate]);
      injection Hstep as _ <-; cbn [inHeader inQuery];
      rewrite ?Hh, ?Hq; reflexivity.
  - unfold mysqllog.Flush in Hstep.
    destruct (inQuery p) eqn:Hq; cbn [negb] in Hstep.
    + destruct (parseEntry (lines p)); cbn [bind] in Hstep; [|discriminate].
      injection Hstep as _ <-. exact IH.
    + injection Hstep as _ <-. rewrite Hq. exact IH.
Qed.

(** C10: a [Flush] that returns an event empties the buffer and leaves both
    flags as they were, so the parser is still in the query state; a second
    [Flush] right after it returns an event again, whose [Statement] is the
    empty string. *)
Theorem Flush_keeps_the_flags (p p' : Parser) (event : LogEvent) :
  Flush p = Ok (Some event, p') ->
  inHeader p' = inHeader p /\ inQuery p' = inQuery p /\ lines p' = [] /\
  inQuery p' = true /\
  exists event', Flush p' = Ok (Some event', p') /\
                 event' !! "Statement" = Some (VString EmptyString).
Proof.
  unfold mysqllog.Flush. destruct (inQuery p) eqn:Hq; cbn [negb]; [|discriminate].
  destruct (parseEntry (lines p)); cbn [bind]; [|discriminate].
  intros [= _ <-]. cbn [inHeader inQuery lines].
  repeat (split; [reflexivity|]).
  eexists. split; reflexivity.
Qed.

(** C3 (amended): a freshly created parser has both flags false and an empty
    buffer, so it is in neither state.  When the very first line fed to
    [ConsumeLine] is non-empty and does not begin with [#], nothing is
    returned, the line is not buffered and the parser is unchanged.  Such a
    line is buffered, with a switch to the query state, once [inHeader] is
    set. *)
Theorem first_line_needs_a_header (line : string) :
  line <> EmptyString -> HasPrefix line "#" = false ->
  inHeader newParser = false /\ inQuery newParser = false /\ lines newParser = [] /\
  ConsumeLine newParser line = Ok (None, newParser) /\
  forall p, inHeader p = true ->
    ConsumeLine p line
    = Ok (None, {| inHeader := false; inQuery := true; lines := lines p ++ [line] |}).
Proof.
  intros Hline Hcomment.
  assert (String.eqb line EmptyString = false) as Hblank.
  { apply String.eqb_neq. exact Hline. }
  repeat (split; [reflexivity|]).
  unfold mysqllog.ConsumeLine. rewrite Hblank, Hcomment.
  split; [reflexivity|].
  intros p ->. reflexivity.
Qed.

(** C1: a header whose user part holds two [@] makes [parseUserHostLine]
    index a one-element slice; the call of [ConsumeLine] that closes the
    block panics. *)
Theorem ConsumeLine_panics_on_UserHost_header :
  let p := {| inHeader := false; inQuery := true;
              lines := ["# User@Host: a@b@c[d] @ h []"; "SELECT 1;"] |} in
  feed newParser ["# User@Host: a@b@c[d] @ h []"; "SELECT 1;"] = Ok ([None; None], p) /\
  ConsumeLine p EmptyString = Panic.
Proof.
  split; vm_compute; reflexivity.
Qed.

(** ** Feeding blocks line by line *)

Lemma feed_app (p : Parser) (xs ys : list string) :
  feed p (xs ++ ys)
  = (let! '(events, p1) := feed p xs in
     let! '(events', p2) := feed p1 ys in
     Ok ((events ++ events')%list, p2)).
Proof.
  revert p. induction xs as [|x xs IH]; intros p; cbn [mysqllog.feed app bind].
  - destruct (feed p ys) as [[events p2]|]; reflexivity.
  - destruct (ConsumeLine p x) as [[event p1]|]; cbn [bind]; [|reflexivity].
    rewrite IH.
    destruct (feed p1 xs) as [[events p2]|]; cbn [bind]; [|reflexivity].
    destruct (feed p2 ys) as [[events' p3]|]; reflexivity.
Qed.

(** Comment lines outside the query state are buffered. *)
Lemma feed_header (header buffer : list string) (h : bool) :
  Forall (fun line => HasPrefix line "#" = true) header -> header <> [] ->
  feed {| inHeader := h; inQuery := false; lines := buffer |} header
  = Ok (repeat None (length header),
        {| inHeader := true; inQuery := false; lines := buffer ++ header |}).
Proof.
  intros Hall. revert buffer h.
  induction Hall as [|line header Hline Hall IH]; intros buffer h Hne; [contradiction|].
  cbn [mysqllog.feed]. unfold mysqllog.ConsumeLine at 1.
  assert (String.eqb line EmptyString = false) as ->.
  { destruct line; [discriminate Hline | reflexivity]. }
  rewrite Hline. cbn [inQuery inHeader lines bind].
  destruct header as [|line' header].
  - reflexivity.
  - rewrite IH by discriminate. cbn [bind length repeat].
    rewrite <- app_assoc. reflexivity.
Qed.

(** Statement lines after a header are buffered in the query state. *)
Lemma feed_body (body buffer : list string) (h : bool) :
  Forall (fun line => isHeaderLine line = false) body ->
  feed {| inHeader := h; inQuery := negb h; lines := buffer |} body
  = Ok (repeat None (length body),
        {| inHeader := match body with [] => h | _ => false end;
           inQuery := match body with [] => negb h | _ => true end;
           lines := buffer ++ body |}).
Proof.
  intros Hall. revert buffer h.
  induction Hall as [|line body Hline Hall IH]; intros buffer h.
  - cbn. rewrite app_nil_r. reflexivity.
  - cbn [mysqllog.feed]. unfold mysqllog.ConsumeLine at 1.
    assert (String.eqb line EmptyString = false) as ->.
    { destruct line; [discriminate Hline | reflexivity]. }
    assert (HasPrefix line "#" = false) as ->.
    { destruct line as [|c line]; [reflexivity|]. cbn in *. rewrite Hline. reflexivity. }
    cbn [inQuery inHeader lines].
    assert (forall q : Parser,
      (if h then Ok (None, {| inHeader := false; inQuery := true; lines := buffer ++ [line] |})
       else if negb h
            then Ok (None, {| inHeader := h; inQuery := negb h; lines := buffer ++ [line] |})
            else Ok (None, q))
      = Ok (@None LogEvent, {| inHeader := false; inQuery := negb false; lines := buffer ++ [line] |}))
      as Hstep by (intros q; destruct h; reflexivity).
    rewrite Hstep. cbn [bind]. rewrite IH. cbn [bind length repeat].
    rewrite <- app_assoc. destruct body; reflexivity.
Qed.

(** C4: two blocks with one blank line between them, fed line by line to a
    fresh parser.  No call on a line of the first block returns an event;
    the call on the blank line returns the event of the first block; no call
    on a line of the second block returns an event; the final [Flush]
    returns the event of the second block. *)
Theorem two_blocks_line_by_line
    (header1 body1 header2 body2 : list string) (event1 event2 : LogEvent) :
  isBlock header1 body1 -> isBlock header2 body2 ->
  parseEntry (header1 ++ body1) = Ok event1 ->
  parseEntry (EmptyString :: header2 ++ body2) = Ok event2 ->
  exists p,
    feed newParser (header1 ++ body1 ++ [EmptyString] ++ header2 ++ body2)
    = Ok ((repeat None (length (header1 ++ body1)) ++ [Some event1]
           ++ repeat None (length (header2 ++ body2)))%list, p) /\
    Flush p = Ok (Some event2, {| inHeader := false; inQuery := true; lines := [] |}).
Proof.
  intros (Hne1 & Hh1 & Hb1 & Hl1) (Hne2 & Hh2 & Hb2 & Hl2) Hrun1 Hrun2.
  exists {| inHeader := false; inQuery := true;
            lines := EmptyString :: header2 ++ body2 |}.
  split.
  - pose proof (feed_body body1 header1 true Hl1) as Hfeed1.
    pose proof (feed_body body2 (EmptyString :: header2) true Hl2) as Hfeed2.
    cbn [negb] in Hfeed1, Hfeed2.
    assert (forall (A : Type) (x y : A), match body1 with [] => x | _ => y end = y) as Hm1
      by (intros; destruct body1; [contradiction | reflexivity]).
    assert (forall (A : Type) (x y : A), match body2 with [] => x | _ => y end = y) as Hm2
      by (intros; destruct body2; [contradiction | reflexivity]).
    rewrite !Hm1 in Hfeed1. rewrite !Hm2 in Hfeed2.
    unfold newParser.
    rewrite feed_app, (feed_header header1 [] false Hh1 Hne1). cbn [bind app].
    rewrite feed_app, Hfeed1. cbn [bind app].
    cbn [mysqllog.feed]. unfold mysqllog.ConsumeLine at 1.
    cbn [String.eqb inQuery lines]. rewrite Hrun1. cbn [bind].
    rewrite feed_app, (feed_header header2 [EmptyString] true Hh2 Hne2). cbn [bind app].
    rewrite Hfeed2. cbn [bind].
    rewrite !length_app, !repeat_app, <- !app_assoc. reflexivity.
  - unfold mysqllog.Flush. cbn [inQuery negb lines inHeader].
    rewrite Hrun2. reflexivity.
Qed.

(** ** Attributes of the header lines *)

(** C8: for a match [Name: Value] of the attribute pattern, the event gets
    the key [Name] only when the table declares [Name] and [Value] parses
    under the declared type, and then with the typed value.  A name the
    table does not list, or a value that does not parse under the declared
    type, leaves the event as it was: no raw string is stored instead. *)
Theorem attribute_is_typed_or_absent
    (event : LogEvent) (match_ name val : string) (pieces : list string) :
  Split match_ ": " = name :: val :: pieces ->
  exists event', attributeMatch event match_ = Ok event' /\
    (attributeTypes !! name = None -> event' = event) /\
    (forall t, attributeTypes !! name = Some t ->
               (forall v, ~ parsesAs t val v) -> event' = event) /\
    (forall t v, attributeTypes !! name = Some t ->
                 parsesAs t val v -> event' = <[name := v]> event).
Proof.
  intros Hsplit. unfold mysqllog.attributeMatch. rewrite Hsplit.
  cbn [index nth_error bind].
  destruct (attributeTypes !! name) as [[| | |]|] eqn:Htype; cbn [bind].
  - eexists. split; [reflexivity|]. split; [discriminate|]. split.
    + intros t [= <-] Hnone. destruct (Hnone _ (parses_string _ _ val)).
    + intros t v [= <-] Hv. inversion Hv. reflexivity.
  - destruct (ParseBool val) as [b|] eqn:Hparse; cbn [fmap option_fmap option_map];
      (eexists; split; [reflexivity|]; split; [discriminate|]; split).
    + intros t [= <-] Hnone. destruct (Hnone _ (parses_bool _ _ val b Hparse)).
    + intros t v [= <-] Hv. inversion Hv. congruence.
    + reflexivity.
    + intros t v [= <-] Hv. inversion Hv. congruence.
  - destruct (ParseFloat val) as [f|] eqn:Hparse; cbn [fmap option_fmap option_map];
      (eexists; split; [reflexivity|]; split; [discriminate|]; split).
    + intros t [= <-] Hnone. destruct (Hnone _ (parses_float _ _ val f Hparse)).
    + intros t v [= <-] Hv. inversion Hv. congruence.
    + reflexivity.
    + intros t v [= <-] Hv. inversion Hv. congruence.
  - destruct (ParseInt val) as [n|] eqn:Hparse; cbn [fmap option_fmap option_map];
      (eexists; split; [reflexivity|]; split; [discriminate|]; split).
    + intros t [= <-] Hnone. destruct (Hnone _ (parses_int _ _ val n Hparse)).
    + intros t v [= <-] Hv. inversion Hv. congruence.
    + reflexivity.
    + intros t v [= <-] Hv. inversion Hv. congruence.
  - eexists. split; [reflexivity|]. split; [reflexivity|]. split.
    + discriminate.
    + discriminate.
Qed.

(** A key that the table does not list is out of reach of the attribute
    lines. *)
Lemma attributeMatch_other (event event' : LogEvent) (match_ k : string) :
  attributeMatch event match_ = Ok event' ->
  attributeTypes !! k = None -> event' !! k = event !! k.
Proof.
  unfold mysqllog.attributeMatch. intros Hrun Hk.
  destruct (index (Split match_ ": ") 0) as [p0|]; cbn [bind] in Hrun; [|discriminate].
  assert (forall v, attributeTypes !! p0 <> None -> (<[p0 := v]> event) !! k = event !! k) as Hins.
  { intros v Hp0. apply lookup_insert_ne. congruence. }
  destruct (attributeTypes !! p0) as [[| | |]|] eqn:Htype;
    try (destruct (index (Split match_ ": ") 1) as [p1|]; cbn [bind] in Hrun; [|discriminate]).
  - injection Hrun as <-. apply Hins. discriminate.
  - destruct (ParseBool p1); cbn in Hrun; injection Hrun as <-;
      [apply Hins; discriminate | reflexivity].
  - destruct (ParseFloat p1); cbn in Hrun; injection Hrun as <-;
      [apply Hins; discriminate | reflexivity].
  - destruct (ParseInt p1); cbn in Hrun; injection Hrun as <-;
      [apply Hins; discriminate | reflexivity].
  - cbn in Hrun. injection Hrun as <-. reflexivity.
Qed.

Lemma attributeMatches_other (matches : list string) (event event' : LogEvent) (k : string) :
  attributeMatches float64 ParseFloat attributeTypes matches event = Ok event' ->
  attributeTypes !! k = None -> event' !! k = event !! k.
Proof.
  revert event. induction matches as [|m matches IH]; intros event Hrun Hk.
  - injection Hrun as <-. reflexivity.
  - cbn [mysqllog.attributeMatches] in Hrun.
    destruct (attributeMatch event m) as [event1|] eqn:Hm; cbn [bind] in Hrun; [|discriminate].
    rewrite (IH _ Hrun Hk). exact (attributeMatch_other _ _ _ _ Hm Hk).
Qed.

Lemma headerEvents_other (header rest : list string) (event event' : LogEvent) (k : string) :
  Forall (fun line => isAttributeLine line = true) header ->
  headerEvents (header ++ rest) event = Ok event' ->
  attributeTypes !! k = None ->
  exists event1, headerEvents rest event1 = Ok event' /\ event1 !! k = event !! k.
Proof.
  intros Hall. revert event.
  induction Hall as [|line header Hline _ IH]; intros event Hrun Hk.
  - exists event. split; [exact Hrun | reflexivity].
  - apply andb_true_iff in Hline as [Hhdr Huh]. apply negb_true_iff in Huh.
    cbn [app mysqllog.headerEvents] in Hrun. rewrite Hhdr in Hrun.
    destruct line as [|c line]; [exact (IH _ Hrun Hk)|].
    unfold mysqllog.headerLine in Hrun. rewrite Huh in Hrun.
    destruct (attributeMatches float64 ParseFloat attributeTypes
                (FindAllString attributesRe (String c line)) event) as [event1|] eqn:Hm;
      cbn [bind] in Hrun; [|discriminate].
    destruct (IH _ Hrun Hk) as (event2 & Hrest & Hlook).
    exists event2. split; [exact Hrest|].
    rewrite Hlook. exact (attributeMatches_other _ _ _ _ Hm Hk).
Qed.

Lemma dropWhile_app {A : Type} (f : A -> bool) (xs ys : list A) :
  Forall (fun x => f x = true) xs -> dropWhile f (xs ++ ys) = dropWhile f ys.
Proof.
  intros H. induction H as [|x xs Hx _ IH]; cbn [app dropWhile]; [reflexivity|].
  rewrite Hx. exact IH.
Qed.

Lemma isAttributeLine_header (lines : list string) :
  Forall (fun line => isAttributeLine line = true) lines ->
  Forall (fun line => isHeaderLine line = true) lines.
Proof.
  intros Hall. eapply Forall_impl; [exact Hall|].
  intros line H. apply andb_true_iff in H as [H _]. exact H.
Qed.

(** The fields of a [# User@Host] line reach the event of its block: a key
    that no other phase writes holds what [parseUserHostLine] found for it. *)
Lemma UserHost_fields_reach_event
    (pre post body : list string) (line k : string)
    (fields : gmap string string) (event : LogEvent) :
  HasPrefix line "# User@Host" = true ->
  parseUserHostLine line = Ok fields ->
  Forall (fun l => isAttributeLine l = true) pre ->
  Forall (fun l => isAttributeLine l = true) post ->
  body <> [] -> Forall (fun l => isHeaderLine l = false) body ->
  attributeTypes !! k = None ->
  k <> "Database" -> k <> "Timestamp" -> k <> "Statement" ->
  parseEntry (pre ++ line :: post ++ body) = Ok event ->
  event !! k = VString <$> (fields !! k).
Proof.
  intros Hprefix Hfields Hpre Hpost Hne Hbody Hk Hdb Hts Hst Hrun.
  assert (isHeaderLine line = true) as Hline.
  { destruct line as [|c line]; [discriminate Hprefix|].
    cbn in Hprefix |- *. apply andb_true_iff in Hprefix as [H _]. exact H. }
  destruct body as [|b body]; [contradiction|].
  assert (isHeaderLine b = false) as Hb by (inversion Hbody; assumption).
  assert (dropWhile isHeaderLine (pre ++ line :: post ++ b :: body) = b :: body) as Hdrop.
  { rewrite dropWhile_app by (apply isAttributeLine_header; exact Hpre).
    cbn [dropWhile]. rewrite Hline.
    rewrite dropWhile_app by (apply isAttributeLine_header; exact Hpost).
    cbn [dropWhile]. rewrite Hb. reflexivity. }
  rewrite parseEntry_phases in Hrun by (right; rewrite Hdrop; discriminate).
  rewrite Hdrop in Hrun.
  destruct (headerEvents (pre ++ line :: post ++ b :: body) ∅) as [event0|] eqn:Hhdr;
    cbn [bind] in Hrun; [|discriminate].
  destruct (contextLines (b :: body) event0) as [[event1 rest]|] eqn:Hctx;
    cbn [bind] in Hrun; [|discriminate].
  injection Hrun as <-.
  rewrite lookup_insert_ne by congruence.
  rewrite (contextLines_lookup _ _ _ _ k Hctx) by (intros; congruence).
  destruct (headerEvents_other _ _ _ _ k Hpre Hhdr Hk) as (event2 & Hhdr2 & Hlook2).
  cbn [mysqllog.headerEvents] in Hhdr2. rewrite Hline in Hhdr2.
  destruct line as [|c line]; [discriminate Hprefix|].
  unfold mysqllog.headerLine in Hhdr2. rewrite Hprefix, Hfields in Hhdr2.
  cbn [bind] in Hhdr2.
  destruct (headerEvents_other _ _ _ _ k Hpost Hhdr2 Hk) as (event3 & Hhdr3 & Hlook3).
  cbn [mysqllog.headerEvents] in Hhdr3. rewrite Hb in Hhdr3.
  injection Hhdr3 as <-.
  rewrite Hlook3, lookup_union, lookup_fmap, Hlook2, lookup_empty.
  destruct (fields !! k); reflexivity.
Qed.

(** C5: in the event of a block whose header holds the line
    [# User@Host: root[root] @ localhost []], [User] is [root], [Host] is
    [localhost] and there is no key [IP]; with the line
    [# User@Host: root[root] @  [127.0.0.1]], [Host] and [IP] are both
    [127.0.0.1].  (The other header lines are attribute lines, and the table
    declares none of the three names.) *)
Theorem UserHost_extraction
    (pre post body : list string) (event1 event2 : LogEvent) :
  attributeTypes !! "User" = None -> attributeTypes !! "Host" = None ->
  attributeTypes !! "IP" = None ->
  Forall (fun l => isAttributeLine l = true) pre ->
  Forall (fun l => isAttributeLine l = true) post ->
  body <> [] -> Forall (fun l => isHeaderLine l = false) body ->
  parseEntry (pre ++ "# User@Host: root[root] @ localhost []" :: post ++ body) = Ok event1 ->
  parseEntry (pre ++ "# User@Host: root[root] @  [127.0.0.1]" :: post ++ body) = Ok event2 ->
  (event1 !! "User" = Some (VString "root") /\
   event1 !! "Host" = Some (VString "localhost") /\
   event1 !! "IP" = None) /\
  (event2 !! "Host" = Some (VString "127.0.0.1") /\
   event2 !! "IP" = Some (VString "127.0.0.1")).
Proof.
  intros Huser Hhost Hip Hpre Hpost Hne Hbody Hrun1 Hrun2.
  assert (parseUserHostLine "# User@Host: root[root] @ localhost []"
          = Ok {[ "User" := "root"; "Host" := "localhost" ]}) as Hf1
    by (vm_compute; reflexivity).
  assert (parseUserHostLine "# User@Host: root[root] @  [127.0.0.1]"
          = Ok {[ "User" := "root"; "Host" := "127.0.0.1"; "IP" := "127.0.0.1" ]}) as Hf2
    by (vm_compute; reflexivity).
  pose proof (fun k => UserHost_fields_reach_event pre post body
                         "# User@Host: root[root] @ localhost []" k _ event1
                         eq_refl Hf1 Hpre Hpost Hne Hbody) as H1.
  pose proof (fun k => UserHost_fields_reach_event pre post body
                         "# User@Host: root[root] @  [127.0.0.1]" k _ event2
                         eq_refl Hf2 Hpre Hpost Hne Hbody) as H2.
  repeat split.
  - rewrite (H1 "User") by (assumption || discriminate). reflexivity.
  - rewrite (H1 "Host") by (assumption || discriminate). reflexivity.
  - rewrite (H1 "IP") by (assumption || discriminate). reflexivity.
  - rewrite (H2 "Host") by (assumption || discriminate). reflexivity.
  - rewrite (H2 "IP") by (assumption || discriminate). reflexivity.
Qed.

(** ** The context lines *)

Lemma contains_app (s t : string) (c : ascii) :
  contains (s ++ t) c = contains s c || contains t c.
Proof.
  induction s as [|d s IH]; [reflexivity|].
  change (String d s ++ t) with (String d (s ++ t)). cbn [contains].
  rewrite IH, orb_assoc. reflexivity.
Qed.

(** A context line is consumed, whatever follows it. *)
Lemma contextLines_step (line : string) (rest : list string) (event : LogEvent) :
  isContextLine line = true ->
  exists event', contextLines (line :: rest) event = contextLines rest event'.
Proof.
  unfold isContextLine. intros Hline.
  destruct (HasPrefix line "use ") eqn:Huse.
  - destruct (contextLines_use line rest event Huse) as [db ->]. eauto.
  - cbn [orb] in Hline.
    destruct (HasPrefix line "SET timestamp=") eqn:Hts.
    + destruct (HasPrefix_inv _ _ Hts) as [t ->].
      destruct (contextLines_SET_timestamp t rest event) as (p & ps & e' & _ & -> & _).
      eauto.
    + cbn [mysqllog.contextLines]. rewrite Huse, Hline, Hts. eauto.
Qed.

Lemma contextLines_app (context rest : list string) (event : LogEvent) :
  Forall (fun line => isContextLine line = true) context ->
  exists event', contextLines (context ++ rest) event = contextLines rest event'.
Proof.
  intros Hall. revert event.
  induction Hall as [|line context Hline _ IH]; intros event; cbn [app]; [eauto|].
  destruct (contextLines_step line (context ++ rest) event Hline) as [event1 ->].
  apply IH.
Qed.

(** What the caller's loop leaves is reachable. *)
Lemma feed_reachable (p p' : Parser) (input : list string) (events : list (option LogEvent)) :
  reachable p -> feed p input = Ok (events, p') -> reachable p'.
Proof.
  revert p events. induction input as [|line input IH]; intros p events Hp Hfeed.
  - injection Hfeed as _ <-. exact Hp.
  - cbn [mysqllog.feed] in Hfeed.
    destruct (ConsumeLine p line) as [[event p1]|] eqn:Hstep; cbn [bind] in Hfeed; [|discriminate].
    destruct (feed p1 input) as [[events' p2]|] eqn:Hrest; cbn [bind] in Hfeed; [|discriminate].
    injection Hfeed as _ <-.
    apply (IH p1 events'); [|exact Hrest].
    exact (reachable_ConsumeLine _ _ _ _ p line event p1 Hp Hstep).
Qed.

End Properties.

(** * The properties at the sample instance *)

Example section6_block : Sample.parseEntry (Sample.header1 ++ Sample.body1) = Ok Sample.event1.
Proof. compute_done. Qed.

Example second_block : Sample.parseEntry (EmptyString :: Sample.header2 ++ Sample.body2) = Ok Sample.event2.
Proof. compute_done. Qed.

Lemma afterBlock1_reachable :
  Sample.reachable Sample.afterBlock1.
Proof.
  apply (feed_reachable _ _ _ _ newParser _ (Sample.header1 ++ Sample.body1)%list (repeat None 6)).
  - apply reachable_new.
  - compute_done.
Defined.

(** C2, as stated, fails: a body line that ends with [started with:] and
    carries no newline stays in [Statement], with the lines after it. *)
Lemma bare_rotation_marker_is_kept :
  HasSuffix "mysqld started with:" "started with:" = true /\
  bodyLines Sample.rotatedBare = ["SELECT 1;"; "mysqld started with:"; "Tcp port: 3306"] /\
  exists event : LogEvent (Z * nat),
    Sample.parseEntry Sample.rotatedBare = Ok event /\
    event !! "Statement"
    = Some (VString ("SELECT 1;" ++ LF ++ "mysqld started with:" ++ LF ++ "Tcp port: 3306")) /\
    event !! "Statement" <> Some (VString "SELECT 1;").
Proof.
  split; [reflexivity|]. split; [reflexivity|].
  exists (<["Statement" := VString ("SELECT 1;" ++ LF ++ "mysqld started with:" ++ LF
                                       ++ "Tcp port: 3306")]> {[ "Rows_sent" := VInt 1 ]}).
  split; [compute_done|]. split; [compute_done|]. compute_done.
Qed.

Lemma rotation_marker_cuts_Statement_witness :
  (bodyLines Sample.rotated
   = (["SELECT 1;"] ++ ("mysqld started with:" ++ LF)%string :: ["Tcp port: 3306"])%list /\
   Forall (fun line => isRotationMarker line = false) ["SELECT 1;"] /\
   HasSuffix ("mysqld started with:" ++ LF) ("started with:" ++ LF) = true /\
   Sample.parseEntry Sample.rotated = Ok Sample.rotatedEvent) /\
  Sample.rotatedEvent !! "Statement" = Some (VString (TrimSpace (Join ["SELECT 1;"] LF))).
Proof.
  assert (bodyLines Sample.rotated
          = (["SELECT 1;"] ++ ("mysqld started with:" ++ LF)%string :: ["Tcp port: 3306"])%list)
    as H1 by reflexivity.
  assert (Forall (fun line => isRotationMarker line = false) ["SELECT 1;"]) as H2
    by (repeat constructor).
  assert (HasSuffix ("mysqld started with:" ++ LF) ("started with:" ++ LF) = true) as H3
    by reflexivity.
  assert (Sample.parseEntry Sample.rotated = Ok Sample.rotatedEvent) as H4
    by compute_done.
  split; [repeat split; assumption|].
  exact (rotation_marker_cuts_Statement (Z * nat) Sample.ParseFloat Sample.formatUnix
           Sample.attributeTypes Sample.rotated ["SELECT 1;"] ["Tcp port: 3306"]
           ("mysqld started with:" ++ LF) Sample.rotatedEvent H1 H2 H3 H4).
Defined.

(** C3, as stated, fails: the fresh parser is not in the header state, and
    a first line that is no comment is neither buffered nor a switch to the
    query state. *)
Lemma fresh_parser_drops_first_line :
  inHeader newParser = false /\
  Sample.ConsumeLine newParser "SELECT 1;" = Ok (None, newParser) /\
  ~ (exists p', Sample.ConsumeLine newParser "SELECT 1;" = Ok (None, p') /\
                lines p' = ["SELECT 1;"] /\ inQuery p' = true).
Proof.
  split; [reflexivity|]. split; [reflexivity|].
  intros (p' & Hstep & Hlines & _).
  vm_compute in Hstep. injection Hstep as <-. discriminate Hlines.
Qed.

Lemma first_line_needs_a_header_witness :
  ("SELECT 1;" <> EmptyString /\ HasPrefix "SELECT 1;" "#" = false) /\
  (inHeader newParser = false /\ inQuery newParser = false /\ lines newParser = [] /\
   Sample.ConsumeLine newParser "SELECT 1;" = Ok (None, newParser) /\
   forall p, inHeader p = true ->
     Sample.ConsumeLine p "SELECT 1;"
     = Ok (None, {| inHeader := false; inQuery := true; lines := lines p ++ ["SELECT 1;"] |})).
Proof.
  assert ("SELECT 1;" <> EmptyString) as H1 by discriminate.
  assert (HasPrefix "SELECT 1;" "#" = false) as H2 by reflexivity.
  split; [split; assumption|].
  exact (first_line_needs_a_header (Z * nat) Sample.ParseFloat Sample.formatUnix
           Sample.attributeTypes "SELECT 1;" H1 H2).
Defined.

Lemma two_blocks_line_by_line_witness :
  (isBlock Sample.header1 Sample.body1 /\ isBlock Sample.header2 Sample.body2 /\
   Sample.parseEntry (Sample.header1 ++ Sample.body1) = Ok Sample.event1 /\
   Sample.parseEntry (EmptyString :: Sample.header2 ++ Sample.body2) = Ok Sample.event2) /\
  exists p,
    Sample.feed newParser
      (Sample.header1 ++ Sample.body1 ++ [EmptyString] ++ Sample.header2 ++ Sample.body2)
    = Ok ((repeat None (length (Sample.header1 ++ Sample.body1)) ++ [Some Sample.event1]
           ++ repeat None (length (Sample.header2 ++ Sample.body2)))%list, p) /\
    Sample.Flush p = Ok (Some Sample.event2, {| inHeader := false; inQuery := true; lines := [] |}).
Proof.
  assert (isBlock Sample.header1 Sample.body1) as H1
    by (repeat split; first [discriminate | repeat constructor]).
  assert (isBlock Sample.header2 Sample.body2) as H2
    by (repeat split; first [discriminate | repeat constructor]).
  assert (Sample.parseEntry (Sample.header1 ++ Sample.body1) = Ok Sample.event1) as H3
    by compute_done.
  assert (Sample.parseEntry (EmptyString :: Sample.header2 ++ Sample.body2) = Ok Sample.event2) as H4
    by compute_done.
  split; [exact (conj H1 (conj H2 (conj H3 H4)))|].
  exact (two_blocks_line_by_line (Z * nat) Sample.ParseFloat Sample.formatUnix
           Sample.attributeTypes Sample.header1 Sample.body1 Sample.header2 Sample.body2
           Sample.event1 Sample.event2 H1 H2 H3 H4).
Defined.

Lemma UserHost_extraction_witness :
  (Sample.attributeTypes !! "User" = None /\ Sample.attributeTypes !! "Host" = None /\
   Sample.attributeTypes !! "IP" = None /\
   Forall (fun l => isAttributeLine l = true) ["# Time: 2021-01-01T00:00:00Z"] /\
   Forall (fun l => isAttributeLine l = true) ["# Query_time: 0.5"] /\
   ["SELECT 1;"] <> [] /\ Forall (fun l => isHeaderLine l = false) ["SELECT 1;"] /\
   Sample.parseEntry (["# Time: 2021-01-01T00:00:00Z"]
                      ++ "# User@Host: root[root] @ localhost []"
                      :: ["# Query_time: 0.5"] ++ ["SELECT 1;"]) = Ok Sample.localhostEvent /\
   Sample.parseEntry (["# Time: 2021-01-01T00:00:00Z"]
                      ++ "# User@Host: root[root] @  [127.0.0.1]"
                      :: ["# Query_time: 0.5"] ++ ["SELECT 1;"]) = Ok Sample.addressEvent) /\
  (Sample.localhostEvent !! "User" = Some (VString "root") /\
   Sample.localhostEvent !! "Host" = Some (VString "localhost") /\
   Sample.localhostEvent !! "IP" = None) /\
  (Sample.addressEvent !! "Host" = Some (VString "127.0.0.1") /\
   Sample.addressEvent !! "IP" = Some (VString "127.0.0.1")).
Proof.
  assert (Sample.attributeTypes !! "User" = None) as H1 by reflexivity.
  assert (Sample.attributeTypes !! "Host" = None) as H2 by reflexivity.
  assert (Sample.attributeTypes !! "IP" = None) as H3 by reflexivity.
  assert (Forall (fun l => isAttributeLine l = true) ["# Time: 2021-01-01T00:00:00Z"]) as H4
    by (repeat constructor).
  assert (Forall (fun l => isAttributeLine l = true) ["# Query_time: 0.5"]) as H5
    by (repeat constructor).
  assert (["SELECT 1;"] <> []) as H6 by discriminate.
  assert (Forall (fun l => isHeaderLine l = false) ["SELECT 1;"]) as H7
    by (repeat constructor).
  assert (Sample.parseEntry (["# Time: 2021-01-01T00:00:00Z"]
                             ++ "# User@Host: root[root] @ localhost []"
                             :: ["# Query_time: 0.5"] ++ ["SELECT 1;"])
          = Ok Sample.localhostEvent) as H8 by compute_done.
  assert (Sample.parseEntry (["# Time: 2021-01-01T00:00:00Z"]
                             ++ "# User@Host: root[root] @  [127.0.0.1]"
                             :: ["# Query_time: 0.5"] ++ ["SELECT 1;"])
          = Ok Sample.addressEvent) as H9 by compute_done.
  split; [exact (conj H1 (conj H2 (conj H3 (conj H4 (conj H5 (conj H6 (conj H7 (conj H8 H9))))))))|].
  exact (UserHost_extraction (Z * nat) Sample.ParseFloat Sample.formatUnix Sample.attributeTypes
           ["# Time: 2021-01-01T00:00:00Z"] ["# Query_time: 0.5"] ["SELECT 1;"]
           Sample.localhostEvent Sample.addressEvent H1 H2 H3 H4 H5 H6 H7 H8 H9).
Defined.

Lemma afterBlock1_emits : Sample.emits Sample.afterBlock1 Sample.event1.
Proof.
  right. exists {| inHeader := false; inQuery := true; lines := [] |}. compute_done.
Defined.

Lemma emitted_event_has_Statement_witness :
  (Sample.reachable Sample.afterBlock1 /\ Sample.emits Sample.afterBlock1 Sample.event1) /\
  Sample.event1 !! "Statement"
  = Some (VString (TrimSpace (Join (keptLines (lines Sample.afterBlock1)) LF))) /\
  (Forall (fun line => isRotationMarker line = false) (bodyLines (lines Sample.afterBlock1)) ->
   keptLines (lines Sample.afterBlock1) = bodyLines (lines Sample.afterBlock1)) /\
  (bodyLines (lines Sample.afterBlock1) = [] ->
   Sample.event1 !! "Statement" = Some (VString EmptyString)).
Proof.
  split; [exact (conj afterBlock1_reachable afterBlock1_emits)|].
  exact (emitted_event_has_Statement (Z * nat) Sample.ParseFloat Sample.formatUnix
           Sample.attributeTypes Sample.afterBlock1 Sample.event1
           afterBlock1_reachable afterBlock1_emits).
Defined.

Lemma attribute_is_typed_or_absent_witness :
  Split "Rows_sent: 1" ": " = "Rows_sent" :: "1" :: [] /\
  exists event' : LogEvent (Z * nat),
    attributeMatch (Z * nat) Sample.ParseFloat Sample.attributeTypes ∅ "Rows_sent: 1"
    = Ok event' /\
    (Sample.attributeTypes !! "Rows_sent" = None -> event' = ∅) /\
    (forall t, Sample.attributeTypes !! "Rows_sent" = Some t ->
               (forall v, ~ parsesAs (Z * nat) Sample.ParseFloat t "1" v) -> event' = ∅) /\
    (forall t v, Sample.attributeTypes !! "Rows_sent" = Some t ->
                 parsesAs (Z * nat) Sample.ParseFloat t "1" v ->
                 event' = <["Rows_sent" := v]> ∅).
Proof.
  assert (Split "Rows_sent: 1" ": " = "Rows_sent" :: "1" :: []) as H1 by reflexivity.
  split; [exact H1|].
  exact (attribute_is_typed_or_absent (Z * nat) Sample.ParseFloat Sample.attributeTypes
           ∅ "Rows_sent: 1" "Rows_sent" "1" [] H1).
Defined.

Lemma flags_never_both_true_witness :
  Sample.reachable Sample.afterBlock1 /\
  inHeader Sample.afterBlock1 && inQuery Sample.afterBlock1 = false.
Proof.
  split; [exact afterBlock1_reachable|].
  exact (flags_never_both_true (Z * nat) Sample.ParseFloat Sample.formatUnix
           Sample.attributeTypes Sample.afterBlock1 afterBlock1_reachable).
Defined.

Lemma Flush_keeps_the_flags_witness :
  Sample.Flush Sample.afterBlock1
  = Ok (Some Sample.event1, {| inHeader := false; inQuery := true; lines := [] |}) /\
  (inHeader {| inHeader := false; inQuery := true; lines := [] |} = inHeader Sample.afterBlock1 /\
   inQuery {| inHeader := false; inQuery := true; lines := [] |} = inQuery Sample.afterBlock1 /\
   lines {| inHeader := false; inQuery := true; lines := [] |} = [] /\
   inQuery {| inHeader := false; inQuery := true; lines := [] |} = true /\
   exists event' : LogEvent (Z * nat),
     Sample.Flush {| inHeader := false; inQuery := true; lines := [] |}
     = Ok (Some event', {| inHeader := false; inQuery := true; lines := [] |}) /\
     event' !! "Statement" = Some (VString EmptyString)).
Proof.
  assert (Sample.Flush Sample.afterBlock1
          = Ok (Some Sample.event1, {| inHeader := false; inQuery := true; lines := [] |}))
    as H1 by compute_done.
  split; [exact H1|].
  exact (Flush_keeps_the_flags (Z * nat) Sample.ParseFloat Sample.formatUnix
           Sample.attributeTypes Sample.afterBlock1
           {| inHeader := false; inQuery := true; lines := [] |} Sample.event1 H1).
Defined.

(** ** The timestamp of a block *)

Lemma allFrom_spec (P : Z -> bool) (n : nat) (x : Z) :
  allFrom P n x = true -> forall y, (x <= y < x + Z.of_nat n)%Z -> P y = true.
Proof.
  revert x. induction n as [|n IH]; intros x Hall y Hy; [lia|].
  cbn [allFrom] in Hall. apply andb_true_iff in Hall as [Hx Hall].
  destruct (Z.eq_dec y x) as [->|Hne]; [exact Hx|].
  apply (IH (x + 1)%Z Hall). lia.
Qed.

(** A property that holds of the numbers below [n], checked one by one. *)
Lemma forall_below (P : Z -> bool) (n : Z) :
  allFrom P (Z.to_nat n) 0 = true -> forall x, (0 <= x < n)%Z -> P x = true.
Proof. intros Hall x Hx. apply (allFrom_spec P _ 0 Hall). lia. Qed.

Lemma dateOfEra_check :
  allFrom (fun x => let '(_, m, d) := Time.dateOfEra x in
                    ((1 <=? m) && (m <=? 12) && (1 <=? d) && (d <=? 31))%Z)
          (Z.to_nat 146097) 0 = true.
Proof. vm_compute. reflexivity. Qed.

(** In every day of an era the month is one of twelve and the day one of
    at most thirty-one. *)
Lemma dateOfEra_bounds (doe : Z) :
  (0 <= doe < 146097)%Z ->
  let '(_, m, d) := Time.dateOfEra doe in (1 <= m <= 12 /\ 1 <= d <= 31)%Z.
Proof.
  intros Hdoe.
  pose proof (forall_below
    (fun x => let '(_, m, d) := Time.dateOfEra x in
              ((1 <=? m) && (m <=? 12) && (1 <=? d) && (d <=? 31))%Z) 146097) as Hcheck.
  cbv beta in Hcheck. specialize (Hcheck dateOfEra_check doe Hdoe).
  destruct (Time.dateOfEra doe) as [[yoe m] d]. lia.
Qed.

Lemma appendInt_two_digits (x : Z) :
  (0 <= x < 100)%Z -> Time.hasShape "dd" (Time.appendInt x 2) = true.
Proof.
  apply (forall_below (fun x => Time.hasShape "dd" (Time.appendInt x 2)) 100).
  vm_compute. reflexivity.
Qed.

Lemma appendInt_four_digits (x : Z) :
  (0 <= x < 10000)%Z -> Time.hasShape "dddd" (Time.appendInt x 4) = true.
Proof.
  apply (forall_below (fun x => Time.hasShape "dddd" (Time.appendInt x 4)) 10000).
  vm_compute. reflexivity.
Qed.

Lemma hasShape_app (shape1 shape2 s1 s2 : string) :
  Time.hasShape shape1 s1 = true -> Time.hasShape shape2 s2 = true ->
  Time.hasShape (shape1 ++ shape2) (s1 ++ s2) = true.
Proof.
  revert s1. induction shape1 as [|p shape1 IH]; intros s1 H1 H2.
  - destruct s1; [exact H2 | discriminate H1].
  - destruct s1 as [|c s1]; [discriminate H1|].
    change (Time.hasShape (String p (shape1 ++ shape2)) (String c (s1 ++ s2)) = true).
    cbn [Time.hasShape] in H1 |- *.
    apply andb_true_iff in H1 as [Hc H1]. rewrite Hc, (IH _ H1 H2). reflexivity.
Qed.

Lemma append_empty_r (s : string) : s ++ EmptyString = s.
Proof.
  induction s as [|c s IH]; [reflexivity|].
  change (String c (s ++ EmptyString) = String c s). rewrite IH. reflexivity.
Qed.

(** The layout of [parser.go], element by element. *)
Lemma Format_layout (t : Time.clock) :
  Time.Format t "2006-01-02 15:04:05"
  = Time.appendInt (Time.year t) 4 ++ "-" ++ Time.appendInt (Time.month t) 2 ++ "-"
    ++ Time.appendInt (Time.day t) 2 ++ " " ++ Time.appendInt (Time.hour t) 2 ++ ":"
    ++ Time.appendInt (Time.minute t) 2 ++ ":" ++ Time.appendInt (Time.second t) 2.
Proof.
  rewrite <- (append_empty_r (Time.appendInt (Time.second t) 2)). reflexivity.
Qed.

(** The readings of a wall clock are in range. *)
Lemma Unix_bounds (zone : Z -> Z) (sec : Z) :
  let t := Time.Unix zone sec in
  (1 <= Time.month t <= 12 /\ 1 <= Time.day t <= 31 /\ 0 <= Time.hour t < 24 /\
   0 <= Time.minute t < 60 /\ 0 <= Time.second t < 60)%Z.
Proof.
  unfold Time.Unix, Time.date.
  set (local := (sec + zone sec)%Z).
  pose proof (dateOfEra_bounds ((local / 86400 + 719468) mod 146097)
                (Z.mod_pos_bound _ 146097 ltac:(lia))) as Hdate.
  destruct (Time.dateOfEra ((local / 86400 + 719468) mod 146097)) as [[yoe m] d].
  cbn [Time.month Time.day Time.hour Time.minute Time.second].
  pose proof (Z.mod_pos_bound local 86400 ltac:(lia)) as Ht.
  repeat split; try lia.
  - apply Z.div_pos; lia.
  - apply Z.div_lt_upper_bound; lia.
  - apply Z.mod_pos_bound; lia.
  - apply Z.mod_pos_bound; lia.
  - apply Z.mod_pos_bound; lia.
  - apply Z.mod_pos_bound; lia.
Qed.

(** From the year 0 to the year 9999 the formatted instant reads
    [YYYY-MM-DD HH:MM:SS]. *)
Lemma Format_shape (zone : Z -> Z) (sec : Z) :
  (0 <= Time.year (Time.Unix zone sec) <= 9999)%Z ->
  Time.hasShape "dddd-dd-dd dd:dd:dd"
    (Time.Format (Time.Unix zone sec) "2006-01-02 15:04:05") = true.
Proof.
  intros Hyear. rewrite Format_layout.
  destruct (Unix_bounds zone sec) as (Hm & Hd & Hh & Hmin & Hs).
  apply (hasShape_app "dddd" "-dd-dd dd:dd:dd"); [apply appendInt_four_digits; lia|].
  apply (hasShape_app "-" "dd-dd dd:dd:dd" "-"); [reflexivity|].
  apply (hasShape_app "dd" "-dd dd:dd:dd"); [apply appendInt_two_digits; lia|].
  apply (hasShape_app "-" "dd dd:dd:dd" "-"); [reflexivity|].
  apply (hasShape_app "dd" " dd:dd:dd"); [apply appendInt_two_digits; lia|].
  apply (hasShape_app " " "dd:dd:dd" " "); [reflexivity|].
  apply (hasShape_app "dd" ":dd:dd"); [apply appendInt_two_digits; lia|].
  apply (hasShape_app ":" "dd:dd" ":"); [reflexivity|].
  apply (hasShape_app "dd" ":dd"); [apply appendInt_two_digits; lia|].
  apply (hasShape_app ":" "dd" ":"); [reflexivity|].
  apply appendInt_two_digits; lia.
Qed.

(** The first piece of a split at a byte: it holds no such byte, and what
    follows it in the text is nothing or starts with that byte. *)
Lemma Split_head (s piece : string) (pieces : list string) (c : ascii) :
  Split s (String c EmptyString) = piece :: pieces ->
  contains piece c = false /\
  exists tail, s = piece ++ tail /\
               (tail = EmptyString \/ HasPrefix tail (String c EmptyString) = true).
Proof.
  unfold Split. revert piece pieces.
  induction s as [|d s IH]; intros piece pieces; cbn [Split_from HasPrefix].
  - intros [= <- _]. split; [reflexivity|]. exists EmptyString. auto.
  - rewrite andb_true_r. destruct (Ascii.eqb d c) eqn:Hd.
    + intros [= <- _]. split; [reflexivity|].
      exists (String d s). split; [reflexivity|]. right.
      cbn [HasPrefix]. rewrite Hd. reflexivity.
    + destruct (Split_from s (String c EmptyString) 0) as [|q qs] eqn:Hs.
      * destruct (Split_from_not_nil _ _ _ Hs).
      * intros [= <- _]. destruct (IH q qs eq_refl) as (Hq & tail & -> & Htail).
        split.
        -- cbn [contains]. rewrite Ascii.eqb_sym, Hd, Hq. reflexivity.
        -- exists tail. split; [reflexivity | exact Htail].
Qed.

Section Timestamp.

Variable float64 : Type.
Variable ParseFloat : string -> option float64.
Variable attributeTypes : gmap string attributeType.
Variable zone : Z -> Z.

Local Abbreviation LogEvent := (LogEvent float64).
Local Abbreviation parseEntry :=
  (mysqllog.parseEntry float64 ParseFloat (formatLocal zone) attributeTypes).
Local Abbreviation contextLines := (mysqllog.contextLines float64 (formatLocal zone)).
Local Abbreviation headerEvents := (mysqllog.headerEvents float64 ParseFloat attributeTypes).

(** The last [SET timestamp=] context line of a block decides the key
    [Timestamp]: it is [timestampOf] of the first piece of what follows the
    prefix, trimmed. *)
Lemma parseEntry_Timestamp
    (lines context rest : list string) (t piece : string) (pieces : list string)
    (event : LogEvent) :
  dropWhile isHeaderLine lines = (context ++ ("SET timestamp=" ++ t)%string :: rest)%list ->
  Forall (fun line => isContextLine line = true) context ->
  Forall (fun line => HasPrefix line "SET timestamp=" = false) (takeWhile isContextLine rest) ->
  Split t "=" = piece :: pieces ->
  parseEntry lines = Ok event ->
  event !! "Timestamp"
  = Some (VString (mysqllog.timestampOf (formatLocal zone) (TrimRight piece (";" ++ LF)))).
Proof.
  intros Hshape Hcontext Hlater Hsplit Hrun.
  rewrite parseEntry_phases in Hrun
    by (right; rewrite Hshape; destruct context; discriminate).
  rewrite Hshape in Hrun.
  destruct (headerEvents lines ∅) as [event0|]; cbn [bind] in Hrun; [|discriminate].
  destruct (contextLines_app float64 (formatLocal zone) context
              (("SET timestamp=" ++ t) :: rest) event0 Hcontext) as [event1 Happ].
  rewrite Happ in Hrun.
  destruct (contextLines_SET_timestamp float64 (formatLocal zone) t rest event1)
    as (piece' & pieces' & event2 & Hsplit' & Hstep & Hlook & _).
  rewrite Hstep in Hrun.
  rewrite Hsplit in Hsplit'. injection Hsplit' as <- _.
  destruct (contextLines rest event2) as [[event3 rest']|] eqn:Hctx;
    cbn [bind] in Hrun; [|discriminate].
  injection Hrun as <-.
  rewrite lookup_insert_ne by discriminate.
  rewrite (contextLines_lookup float64 (formatLocal zone) _ _ _ _ "Timestamp" Hctx);
    [exact Hlook | discriminate |].
  intros _. exact Hlater.
Qed.

(** C6 (amended): take a context line that starts with [SET timestamp=],
    the last such line of its block.  The value it gives is not all that
    follows the prefix: it is the text [raw] up to the next [=] (or up to the
    end of the line when there is none), with every trailing [;] and newline
    trimmed.  When that value parses as a base-10 64-bit integer [sec], the
    key [Timestamp] of the event is
    [time.Unix(sec, 0).Format("2006-01-02 15:04:05")] in the local zone, for
    an instant after Go's absolute zero year; it reads [YYYY-MM-DD HH:MM:SS]
    when the local year has four digits (0 to 9999).  When the value does
    not parse, [Timestamp] is that value, verbatim. *)
Theorem SET_timestamp_value
    (lines context rest : list string) (t : string) (event : LogEvent) :
  dropWhile isHeaderLine lines = (context ++ ("SET timestamp=" ++ t)%string :: rest)%list ->
  Forall (fun line => isContextLine line = true) context ->
  Forall (fun line => HasPrefix line "SET timestamp=" = false) (takeWhile isContextLine rest) ->
  parseEntry lines = Ok event ->
  exists raw tail : string,
    t = (raw ++ tail)%string /\
    contains raw "="%char = false /\
    (tail = EmptyString \/ HasPrefix tail "=" = true) /\
    (forall sec : Z,
        ParseInt (TrimRight raw (";" ++ LF)) = Some sec ->
        (Time.absoluteZeroYear < Time.year (Time.Unix zone sec))%Z ->
        event !! "Timestamp"
        = Some (VString (Time.Format (Time.Unix zone sec) "2006-01-02 15:04:05")) /\
        ((0 <= Time.year (Time.Unix zone sec) <= 9999)%Z ->
         Time.hasShape "dddd-dd-dd dd:dd:dd"
           (Time.Format (Time.Unix zone sec) "2006-01-02 15:04:05") = true)) /\
    (ParseInt (TrimRight raw (";" ++ LF)) = None ->
     event !! "Timestamp" = Some (VString (TrimRight raw (";" ++ LF)))).
Proof.
  intros Hshape Hcontext Hlater Hrun.
  destruct (Split_from_cons t "=" 0) as (raw & pieces & Hsplit).
  change (Split t "=" = raw :: pieces) in Hsplit.
  destruct (Split_head t raw pieces "=" Hsplit) as (Hraw & tail & Ht & Htail).
  pose proof (parseEntry_Timestamp lines context rest t raw pieces event
                Hshape Hcontext Hlater Hsplit Hrun) as Hstamp.
  unfold mysqllog.timestampOf in Hstamp.
  exists raw, tail.
  split; [exact Ht|]. split; [exact Hraw|]. split; [exact Htail|]. split.
  - intros sec Hsec _. rewrite Hsec in Hstamp. split; [exact Hstamp|].
    exact (Format_shape zone sec).
  - intros Hnone. rewrite Hnone in Hstamp. exact Hstamp.
Qed.

End Timestamp.

(** The round trip of the specification, in UTC. *)
Example epoch_block : Sample.parseEntryUTC Sample.epochBlock = Ok Sample.epochEvent.
Proof. compute_done. Qed.

Example stamped_block : Sample.parseEntryUTC Sample.stampedBlock = Ok Sample.stampedEvent.
Proof. compute_done. Qed.

(** Instants of the calendar, formatted. *)
Example format_epoch :
  let layout := "2006-01-02 15:04:05" in
  Time.Format (Time.Unix Sample.utc 0) layout = "1970-01-01 00:00:00" /\
  Time.Format (Time.Unix Sample.utc (-1)) layout = "1969-12-31 23:59:59" /\
  Time.Format (Time.Unix Sample.utc 951782400) layout = "2000-02-29 00:00:00" /\
  Time.Format (Time.Unix Sample.utc 4107542399) layout = "2100-02-28 23:59:59" /\
  Time.Format (Time.Unix (fun _ => 19800%Z) 1709251199) layout = "2024-03-01 05:29:59" /\
  Time.Format (Time.Unix Sample.utc (-62135596800)) layout = "0001-01-01 00:00:00" /\
  Time.Format (Time.Unix Sample.utc (-62167219201)) layout = "-0001-12-31 23:59:59" /\
  Time.Format (Time.Unix Sample.utc 9223372036854775807) layout
  = "292277026596-12-04 15:30:07".
Proof. cbv zeta. repeat apply conj; vm_compute; reflexivity. Qed.

(** C6, counterexample: the value of the line is not always what the event
    keeps.  For [SET timestamp=a=b;] the value [a=b] is no integer, and the
    event keeps [a]; for [SET timestamp=1=2;] the value [1=2] is no integer,
    and the event keeps the formatted epoch 1; for [SET timestamp=12;;] the
    value [12;] is no integer, and the event keeps the formatted epoch 12;
    of two such lines the second decides; and the epoch 253402300800 is
    formatted with a year of five digits. *)
Lemma timestamp_value_is_cut_short :
  (ParseInt "a=b" = None /\
   exists event, Sample.parseEntryUTC Sample.equalsBlock = Ok event /\
                 event !! "Timestamp" = Some (VString "a") /\
                 event !! "Timestamp" <> Some (VString "a=b")) /\
  (ParseInt "1=2" = None /\
   exists event, Sample.parseEntryUTC Sample.epochEqualsBlock = Ok event /\
                 event !! "Timestamp" = Some (VString "1970-01-01 00:00:01") /\
                 event !! "Timestamp" <> Some (VString "1=2")) /\
  (ParseInt "12;" = None /\
   exists event, Sample.parseEntryUTC Sample.trimmedBlock = Ok event /\
                 event !! "Timestamp" = Some (VString "1970-01-01 00:00:12") /\
                 event !! "Timestamp" <> Some (VString "12;")) /\
  (ParseInt "1" = Some 1%Z /\
   exists event, Sample.parseEntryUTC Sample.twiceBlock = Ok event /\
                 event !! "Timestamp" = Some (VString "1970-01-01 00:00:02") /\
                 event !! "Timestamp" <> Some (VString "1970-01-01 00:00:01")) /\
  (ParseInt "253402300800" = Some 253402300800%Z /\
   exists event, Sample.parseEntryUTC Sample.farBlock = Ok event /\
                 event !! "Timestamp" = Some (VString "10000-01-01 00:00:00") /\
                 Time.hasShape "dddd-dd-dd dd:dd:dd" "10000-01-01 00:00:00" = false).
Proof.
  split; [|split; [|split; [|split]]]; (split; [reflexivity|]).
  - exists {[ "Rows_sent" := VInt 1; "Timestamp" := VString "a";
              "Statement" := VString "SELECT 1;" ]}.
    split; [compute_done | split; [reflexivity | discriminate]].
  - exists {[ "Rows_sent" := VInt 1; "Timestamp" := VString "1970-01-01 00:00:01";
              "Statement" := VString "SELECT 1;" ]}.
    split; [compute_done | split; [reflexivity | discriminate]].
  - exists {[ "Rows_sent" := VInt 1; "Timestamp" := VString "1970-01-01 00:00:12";
              "Statement" := VString "SELECT 1;" ]}.
    split; [compute_done | split; [reflexivity | discriminate]].
  - exists {[ "Rows_sent" := VInt 1; "Timestamp" := VString "1970-01-01 00:00:02";
              "Statement" := VString "SELECT 1;" ]}.
    split; [compute_done | split; [reflexivity | discriminate]].
  - exists {[ "Rows_sent" := VInt 1; "Timestamp" := VString "10000-01-01 00:00:00";
              "Statement" := VString "SELECT 1;" ]}.
    split; [compute_done | split; reflexivity].
Qed.

Lemma SET_timestamp_value_witness :
  (dropWhile isHeaderLine Sample.epochBlock
   = (["use some_db;"] ++ ("SET timestamp=" ++ "1609459200;")%string
      :: ["SET NAMES utf8;"; "SELECT 1;"])%list /\
   Forall (fun line => isContextLine line = true) ["use some_db;"] /\
   Forall (fun line => HasPrefix line "SET timestamp=" = false)
          (takeWhile isContextLine ["SET NAMES utf8;"; "SELECT 1;"]) /\
   Sample.parseEntryUTC Sample.epochBlock = Ok Sample.epochEvent) /\
  exists raw tail : string,
    "1609459200;" = (raw ++ tail)%string /\
    contains raw "="%char = false /\
    (tail = EmptyString \/ HasPrefix tail "=" = true) /\
    (forall sec : Z,
        ParseInt (TrimRight raw (";" ++ LF)) = Some sec ->
        (Time.absoluteZeroYear < Time.year (Time.Unix Sample.utc sec))%Z ->
        Sample.epochEvent !! "Timestamp"
        = Some (VString (Time.Format (Time.Unix Sample.utc sec) "2006-01-02 15:04:05")) /\
        ((0 <= Time.year (Time.Unix Sample.utc sec) <= 9999)%Z ->
         Time.hasShape "dddd-dd-dd dd:dd:dd"
           (Time.Format (Time.Unix Sample.utc sec) "2006-01-02 15:04:05") = true)) /\
    (ParseInt (TrimRight raw (";" ++ LF)) = None ->
     Sample.epochEvent !! "Timestamp" = Some (VString (TrimRight raw (";" ++ LF)))).
Proof.
  assert (dropWhile isHeaderLine Sample.epochBlock
          = (["use some_db;"] ++ ("SET timestamp=" ++ "1609459200;")%string
             :: ["SET NAMES utf8;"; "SELECT 1;"])%list) as H1 by reflexivity.
  assert (Forall (fun line => isContextLine line = true) ["use some_db;"]) as H2
    by (repeat constructor).
  assert (Forall (fun line => HasPrefix line "SET timestamp=" = false)
                 (takeWhile isContextLine ["SET NAMES utf8;"; "SELECT 1;"])) as H3
    by (repeat constructor).
  assert (Sample.parseEntryUTC Sample.epochBlock = Ok Sample.epochEvent) as H4 by compute_done.
  split; [exact (conj H1 (conj H2 (conj H3 H4)))|].
  exact (SET_timestamp_value (Z * nat) Sample.ParseFloat Sample.attributeTypes Sample.utc
           Sample.epochBlock ["use some_db;"] ["SET NAMES utf8;"; "SELECT 1;"]
           "1609459200;" Sample.epochEvent H1 H2 H3 H4).
Defined.

(** * Further properties of the line consumer and the entry parser *)

Section MoreProperties.

Variable float64 : Type.
Variable ParseFloat : string -> option float64.
Variable formatUnix : Z -> string.
Variable attributeTypes : gmap string attributeType.

Local Abbreviation LogEvent := (LogEvent float64).
Local Abbreviation attributeMatch := (attributeMatch float64 ParseFloat attributeTypes).
Local Abbreviation attributeMatches := (attributeMatches float64 ParseFloat attributeTypes).
Local Abbreviation headerLine := (headerLine float64 ParseFloat attributeTypes).
Local Abbreviation headerLines := (headerLines float64 ParseFloat attributeTypes).
Local Abbreviation headerEvents := (headerEvents float64 ParseFloat attributeTypes).
Local Abbreviation contextLines := (contextLines float64 formatUnix).
Local Abbreviation parseEntry := (parseEntry float64 ParseFloat formatUnix attributeTypes).
Local Abbreviation ConsumeLine := (ConsumeLine float64 ParseFloat formatUnix attributeTypes).
Local Abbreviation Flush := (Flush float64 ParseFloat formatUnix attributeTypes).
Local Abbreviation feed := (feed float64 ParseFloat formatUnix attributeTypes).
Local Abbreviation reachable := (reachable float64 ParseFloat formatUnix attributeTypes).

(** ** Where the line consumer returns an event *)

Lemma isHeaderLine_tests (line : string) :
  isHeaderLine line = String.eqb line EmptyString || HasPrefix line "#".
Proof.
  destruct line as [|c line]; cbn; [reflexivity|].
  rewrite andb_true_r. reflexivity.
Qed.

(** At a block boundary in the query state the buffered block is parsed. *)
Lemma ConsumeLine_boundary (p : Parser) (line : string) :
  inQuery p = true -> isHeaderLine line = true ->
  ConsumeLine p line
  = (let! event := parseEntry (lines p) in
     Ok (Some event, {| inHeader := true; inQuery := false; lines := [line] |})).
Proof.
  intros Hq Hline. rewrite isHeaderLine_tests in Hline.
  unfold mysqllog.ConsumeLine. rewrite Hq.
  destruct (String.eqb line EmptyString); [reflexivity|].
  cbn [orb] in Hline. rewrite Hline. reflexivity.
Qed.

(** Anywhere else nothing is returned, and nothing can fail. *)
Lemma ConsumeLine_quiet (p : Parser) (line : string) :
  inQuery p = false \/ isHeaderLine line = false ->
  exists p', ConsumeLine p line = Ok (None, p').
Proof.
  rewrite isHeaderLine_tests. unfold mysqllog.ConsumeLine. intros [Hq | Hline].
  - rewrite Hq.
    destruct (String.eqb line EmptyString); [eauto|].
    destruct (HasPrefix line "#"); [eauto|].
    destruct (inHeader p); eauto.
  - apply orb_false_iff in Hline as [-> ->].
    destruct (inHeader p); [eauto|]. destruct (inQuery p); eauto.
Qed.

(** X1: [ConsumeLine] returns an event exactly when the parser is in the
    query state and the line is empty or starts with [#]; the event is that
    of the buffered lines, and the buffer restarts with the line.  It fails
    exactly when, there, [parseEntry] fails on the buffered lines. *)
Theorem ConsumeLine_returns_event_iff (p p' : Parser) (line : string) (event : LogEvent) :
  (ConsumeLine p line = Ok (Some event, p') <->
   inQuery p = true /\ isHeaderLine line = true /\ parseEntry (lines p) = Ok event /\
   p' = {| inHeader := true; inQuery := false; lines := [line] |}) /\
  (ConsumeLine p line = Panic <->
   inQuery p = true /\ isHeaderLine line = true /\ parseEntry (lines p) = Panic).
Proof.
  destruct (inQuery p) eqn:Hq, (isHeaderLine line) eqn:Hline.
  - rewrite (ConsumeLine_boundary p line Hq Hline).
    destruct (parseEntry (lines p)) as [e|]; cbn [bind]; split; split.
    + intros [= -> <-]. auto.
    + intros (_ & _ & [= ->] & ->). reflexivity.
    + discriminate.
    + intros (_ & _ & H). discriminate H.
    + discriminate.
    + intros (_ & _ & H & _). discriminate H.
    + auto.
    + reflexivity.
  - destruct (ConsumeLine_quiet p line (or_intror Hline)) as [p1 ->].
    split; split; try discriminate; intros (_ & H & _); discriminate H.
  - destruct (ConsumeLine_quiet p line (or_introl Hq)) as [p1 ->].
    split; split; try discriminate; intros (H & _); discriminate H.
  - destruct (ConsumeLine_quiet p line (or_introl Hq)) as [p1 ->].
    split; split; try discriminate; intros (H & _); discriminate H.
Qed.

(** X2: the call after one that returned an event returns none, whatever
    the line, and a [Flush] there returns none and changes nothing: a block
    is handed out once. *)
Theorem no_event_right_after_an_event (p p' : Parser) (line : string) (event : LogEvent) :
  ConsumeLine p line = Ok (Some event, p') ->
  Flush p' = Ok (None, p') /\
  forall line', exists p'', ConsumeLine p' line' = Ok (None, p'').
Proof.
  intros Hstep.
  assert (inQuery p' = false) as Hq.
  { destruct (inQuery p) eqn:Hq, (isHeaderLine line) eqn:Hline.
    - rewrite (ConsumeLine_boundary p line Hq Hline) in Hstep.
      destruct (parseEntry (lines p)); cbn [bind] in Hstep; [|discriminate].
      injection Hstep as _ <-. reflexivity.
    - destruct (ConsumeLine_quiet p line (or_intror Hline)) as [p1 H].
      rewrite H in Hstep. discriminate.
    - destruct (ConsumeLine_quiet p line (or_introl Hq)) as [p1 H].
      rewrite H in Hstep. discriminate.
    - destruct (ConsumeLine_quiet p line (or_introl Hq)) as [p1 H].
      rewrite H in Hstep. discriminate. }
  split.
  - unfold mysqllog.Flush. rewrite Hq. reflexivity.
  - intros line'. apply ConsumeLine_quiet. left. exact Hq.
Qed.

(** ** The shape of the buffer *)

(** A statement line is buffered, except before the first header. *)
Lemma ConsumeLine_statement_line (p : Parser) (line : string) :
  isHeaderLine line = false ->
  ConsumeLine p line
  = Ok (None, if inHeader p || inQuery p
              then {| inHeader := false; inQuery := true; lines := lines p ++ [line] |}
              else p).
Proof.
  rewrite isHeaderLine_tests. intros Hline.
  apply orb_false_iff in Hline as [Hblank Hcomment].
  unfold mysqllog.ConsumeLine. rewrite Hblank, Hcomment.
  destruct (inHeader p) eqn:Hh; [reflexivity|].
  destruct (inQuery p) eqn:Hq; reflexivity.
Qed.

(** Outside the query state a comment line is buffered and a blank line is
    ignored. *)
Lemma ConsumeLine_header_line (p : Parser) (line : string) :
  inQuery p = false -> isHeaderLine line = true ->
  ConsumeLine p line
  = Ok (None, if String.eqb line EmptyString then p
              else {| inHeader := true; inQuery := false; lines := lines p ++ [line] |}).
Proof.
  rewrite isHeaderLine_tests. intros Hq Hline.
  unfold mysqllog.ConsumeLine. rewrite Hq.
  destruct (String.eqb line EmptyString); [reflexivity|].
  cbn [orb] in Hline. rewrite Hline. reflexivity.
Qed.

(** X3: in every parser reached by calls of [ConsumeLine] and [Flush], the
    buffer is a run of header lines (empty or starting with [#]) followed by
    a run of statement lines.  Outside the query state there are no statement
    lines, and with both flags false the buffer is empty; in the query state
    a header is always followed by at least one statement line. *)
Theorem reachable_buffer_shape (p : Parser) :
  reachable p ->
  inHeader p && inQuery p = false /\
  (inHeader p = false -> inQuery p = false -> lines p = []) /\
  (inQuery p = false -> Forall (fun line => isHeaderLine line = true) (lines p)) /\
  (inQuery p = true ->
   exists header body,
     lines p = (header ++ body)%list /\
     Forall (fun line => isHeaderLine line = true) header /\
     Forall (fun line => isHeaderLine line = false) body /\
     (header <> [] -> body <> [])).
Proof.
  intros Hreach.
  induction Hreach as [|p line event p' _ IH Hstep|p event p' _ IH Hstep].
  - split; [reflexivity|]. split; [reflexivity|]. split; [constructor|discriminate].
  - destruct IH as (Hflags & Hnone & Hheader & Hbody).
    destruct (isHeaderLine line) eqn:Hline.
    + destruct (inQuery p) eqn:Hq.
      * rewrite (ConsumeLine_boundary p line Hq Hline) in Hstep.
        destruct (parseEntry (lines p)); cbn [bind] in Hstep; [|discriminate].
        injection Hstep as _ <-. cbn [inHeader inQuery lines].
        split; [reflexivity|]. split; [discriminate|]. split; [|discriminate].
        intros _. constructor; [exact Hline | constructor].
      * rewrite (ConsumeLine_header_line p line Hq Hline) in Hstep.
        destruct (String.eqb line EmptyString); injection Hstep as _ <-.
        -- rewrite Hq. auto.
        -- cbn [inHeader inQuery lines].
           split; [reflexivity|]. split; [discriminate|]. split; [|discriminate].
           intros _. apply Forall_app. split; [auto|].
           constructor; [exact Hline | constructor].
    + rewrite (ConsumeLine_statement_line p line Hline) in Hstep.
      destruct (inHeader p) eqn:Hh; cbn [orb] in Hstep.
      * injection Hstep as _ <-. cbn [inHeader inQuery lines].
        cbn [andb] in Hflags.
        split; [reflexivity|]. split; [discriminate|]. split; [discriminate|].
        intros _. exists (lines p), [line].
        split; [reflexivity|]. split; [auto|].
        split; [constructor; [exact Hline | constructor]|]. discriminate.
      * destruct (inQuery p) eqn:Hq; injection Hstep as _ <-.
        -- cbn [inHeader inQuery lines].
           split; [reflexivity|]. split; [discriminate|]. split; [discriminate|].
           intros _. destruct (Hbody eq_refl) as (header & body & Hlines & Hhdr & Hstmt & _).
           exists header, (body ++ [line])%list.
           split; [rewrite Hlines, app_assoc; reflexivity|]. split; [exact Hhdr|].
           split; [apply Forall_app; split; [exact Hstmt|constructor; [exact Hline|constructor]]|].
           intros _. destruct body; discriminate.
        -- rewrite Hh, Hq. auto.
  - destruct IH as (Hflags & Hnone & Hheader & Hbody).
    unfold mysqllog.Flush in Hstep.
    destruct (inQuery p) eqn:Hq; cbn [negb] in Hstep.
    + destruct (parseEntry (lines p)); cbn [bind] in Hstep; [|discriminate].
      injection Hstep as _ <-. cbn [inHeader inQuery lines].
      split; [exact Hflags|]. split; [discriminate|]. split; [discriminate|].
      intros _. exists [], [].
      split; [reflexivity|]. split; [constructor|]. split; [constructor|]. auto.
    + injection Hstep as _ <-. rewrite Hq. auto.
Qed.

(** ** The loop variable after the header loop *)

Lemma isHeaderLine_not_context (line : string) :
  isHeaderLine line = true -> isContextLine line = false.
Proof.
  destruct line as [|c line]; [reflexivity|]. cbn [isHeaderLine].
  intros Hc. apply Ascii.eqb_eq in Hc. subst c. reflexivity.
Qed.

(** On a block of header lines only, the range is exhausted and [i] is the
    index of the last line. *)
Lemma headerLines_exhausted (lines : list string) (i : nat) (event : LogEvent) :
  Forall (fun line => isHeaderLine line = true) lines ->
  headerLines lines i event
  = (let! event' := headerEvents lines event in Ok (event', pred (i + length lines))).
Proof.
  intros Hall. revert i event.
  induction Hall as [|line lines Hline _ IH]; intros i event.
  - cbn. rewrite Nat.add_0_r. reflexivity.
  - cbn [mysqllog.headerLines mysqllog.headerEvents length]. rewrite Hline.
    replace (i + S (length lines)) with (S i + length lines) by lia.
    destruct line as [|c line]; [apply IH|].
    cbn [isHeaderLine] in Hline. rewrite Hline. cbn [negb].
    destruct (headerLine (String c line) event) as [event1|]; cbn [bind]; [apply IH | reflexivity].
Qed.

(** X4: a block that consists of header lines only.  The header loop runs to
    the end of the block, which leaves its index on the last line, so the
    two later loops start there: the last header line, trimmed, is the
    [Statement] of the event. *)
Theorem header_only_block_Statement
    (header : list string) (last : string) (event : LogEvent) :
  Forall (fun line => isHeaderLine line = true) header ->
  isHeaderLine last = true ->
  isRotationMarker last = false ->
  parseEntry (header ++ [last]) = Ok event ->
  event !! "Statement" = Some (VString (TrimSpace last)).
Proof.
  intros Hheader Hlast Hmarker Hrun.
  unfold mysqllog.parseEntry in Hrun.
  rewrite headerLines_exhausted in Hrun
    by (apply Forall_app; split; [exact Hheader | repeat constructor; exact Hlast]).
  destruct (headerEvents (header ++ [last]) ∅) as [event0|]; cbn [bind] in Hrun; [|discriminate].
  rewrite length_app in Hrun. cbn [length Nat.add] in Hrun.
  replace (pred (length header + 1)) with (length header) in Hrun by lia.
  rewrite drop_app_length in Hrun.
  pose proof (isHeaderLine_not_context last Hlast) as Hctx.
  unfold isContextLine in Hctx. apply orb_false_iff in Hctx as [Huse Hset].
  cbn [mysqllog.contextLines] in Hrun. rewrite Huse, Hset in Hrun. cbn [bind] in Hrun.
  injection Hrun as <-. rewrite lookup_insert_eq.
  cbn [queryLines]. unfold isRotationMarker in Hmarker. rewrite Hmarker.
  reflexivity.
Qed.

(** ** Blocks that follow one another without a blank line *)

Lemma feed_more_header (header buffer : list string) :
  Forall (fun line => HasPrefix line "#" = true) header ->
  feed {| inHeader := true; inQuery := false; lines := buffer |} header
  = Ok (repeat None (length header),
        {| inHeader := true; inQuery := false; lines := buffer ++ header |}).
Proof.
  intros Hall. destruct header as [|line header].
  - cbn. rewrite app_nil_r. reflexivity.
  - apply (feed_header float64 ParseFloat formatUnix attributeTypes); [exact Hall | discriminate].
Qed.

(** X5: two blocks with no blank line between them, fed line by line to a
    fresh parser.  The first header line of the second block closes the
    first block: the call on it returns the event of the first block, no
    other call returns an event, and the final [Flush] returns the event of
    the second block. *)
Theorem next_header_closes_the_block
    (header1 body1 more body2 : list string) (first : string) (event1 event2 : LogEvent) :
  isBlock header1 body1 -> isBlock (first :: more) body2 ->
  parseEntry (header1 ++ body1) = Ok event1 ->
  parseEntry (first :: more ++ body2) = Ok event2 ->
  exists p,
    feed newParser (header1 ++ body1 ++ first :: more ++ body2)
    = Ok ((repeat None (length (header1 ++ body1)) ++ [Some event1]
           ++ repeat None (length (more ++ body2)))%list, p) /\
    Flush p = Ok (Some event2, {| inHeader := false; inQuery := true; lines := [] |}).
Proof.
  intros (Hne1 & Hh1 & Hb1 & Hl1) (_ & Hh2 & Hb2 & Hl2) Hrun1 Hrun2.
  inversion Hh2 as [|? ? Hfirst Hmore]; subst.
  exists {| inHeader := false; inQuery := true; lines := first :: more ++ body2 |}.
  split.
  - pose proof (feed_body float64 ParseFloat formatUnix attributeTypes
                  body1 header1 true Hl1) as Hfeed1.
    pose proof (feed_body float64 ParseFloat formatUnix attributeTypes
                  body2 (first :: more) true Hl2) as Hfeed2.
    cbn [negb] in Hfeed1, Hfeed2.
    assert (forall (A : Type) (x y : A), match body1 with [] => x | _ => y end = y) as Hm1
      by (intros; destruct body1; [contradiction | reflexivity]).
    assert (forall (A : Type) (x y : A), match body2 with [] => x | _ => y end = y) as Hm2
      by (intros; destruct body2; [contradiction | reflexivity]).
    rewrite !Hm1 in Hfeed1. rewrite !Hm2 in Hfeed2.
    unfold newParser.
    rewrite (feed_app float64 ParseFloat formatUnix attributeTypes),
      (feed_header float64 ParseFloat formatUnix attributeTypes header1 [] false Hh1 Hne1).
    cbn [bind app].
    rewrite (feed_app float64 ParseFloat formatUnix attributeTypes), Hfeed1. cbn [bind].
    cbn [mysqllog.feed].
    rewrite (ConsumeLine_boundary
               {| inHeader := false; inQuery := true; lines := header1 ++ body1 |}
               first eq_refl)
      by (rewrite isHeaderLine_tests, Hfirst; apply orb_true_r).
    cbn [lines]. rewrite Hrun1. cbn [bind].
    rewrite (feed_app float64 ParseFloat formatUnix attributeTypes),
      (feed_more_header more [first] Hmore).
    cbn [bind app]. rewrite Hfeed2. cbn [bind].
    rewrite !length_app, !repeat_app, <- !app_assoc. reflexivity.
  - unfold mysqllog.Flush. cbn [inQuery negb lines inHeader].
    rewrite Hrun2. reflexivity.
Qed.

(** ** The fields of a [# User@Host] line *)

Lemma userHostFields_ok (event : gmap string string) (u h ip : string) :
  wellFormedFields event ->
  wellFormedFields
    (let event := <["User" := u]> event in
     let event := <["Host" := h]> event in
     let event := <["IP" := ip]> event in
     let event :=
       if Nat.eqb (String.length (at_ event "IP")) 0 then delete "IP" event else event in
     if Nat.eqb (String.length (at_ event "Host")) 0 then
       if Nat.ltb 0 (String.length (at_ event "IP"))
       then <["Host" := at_ event "IP"]> event
       else delete "Host" event
     else event).
Proof.
  intros (Hkeys & Hhost & Hip & Hiph & Hhu).
  cbv zeta. unfold at_.
  destruct ip as [|c ip], h as [|d h]; simplify_map_eq; cbn.
  all: unfold wellFormedFields; simplify_map_eq.
  all: split;
    [ intros k Hsome;
      destruct (decide (k = "User")) as [|Hu]; [auto|];
      destruct (decide (k = "Host")) as [|Hh]; [auto|];
      destruct (decide (k = "IP")) as [|Hi]; [auto|];
      simplify_map_eq; auto
    | repeat split; first [done | eauto] ].
Qed.

Lemma userHostMatch_ok (event event' : gmap string string) (match_ : string) :
  userHostMatch event match_ = Ok event' ->
  wellFormedFields event -> wellFormedFields event'.
Proof.
  unfold userHostMatch. intros Hrun Hok.
  repeat match type of Hrun with
  | bind (index ?xs ?i) _ = _ =>
      destruct (index xs i); cbn [bind] in Hrun; [|discriminate]
  | (if ?b then _ else _) = _ => destruct b
  end.
  - injection Hrun as <-. apply userHostFields_ok. exact Hok.
  - injection Hrun as <-. exact Hok.
Qed.

Lemma userHostMatches_ok (matches : list string) (event event' : gmap string string) :
  userHostMatches matches event = Ok event' ->
  wellFormedFields event -> wellFormedFields event'.
Proof.
  revert event. induction matches as [|m matches IH]; intros event Hrun Hok.
  - injection Hrun as <-. exact Hok.
  - cbn [userHostMatches] in Hrun.
    destruct (userHostMatch event m) as [event1|] eqn:Hm; cbn [bind] in Hrun; [|discriminate].
    exact (IH _ Hrun (userHostMatch_ok _ _ _ Hm Hok)).
Qed.

(** X6: whatever the line, the map that [parseUserHostLine] returns has no
    key other than [User], [Host] and [IP]; it never holds an empty [Host]
    or an empty [IP]; when it holds [IP] it holds [Host], and when it holds
    [Host] it holds [User]. *)
Theorem parseUserHostLine_fields (line : string) (fields : gmap string string) :
  parseUserHostLine line = Ok fields -> wellFormedFields fields.
Proof.
  unfold parseUserHostLine. intros Hrun.
  apply (userHostMatches_ok _ _ _ Hrun).
  repeat split; try (rewrite lookup_empty; done).
  intros k [x Hx]. rewrite lookup_empty in Hx. discriminate.
Qed.

(** ** The keys and the types of an event *)

Local Abbreviation wellTyped := (wellTyped float64 attributeTypes).

Lemma wellTyped_builtin (event : LogEvent) (k s : string) :
  In k builtinKeys -> wellTyped event -> wellTyped (<[k := VString s]> event).
Proof.
  intros Hk Hok k' v. rewrite lookup_insert. case_decide as Heq.
  - intros [= <-]. subst k'. right. eauto.
  - apply Hok.
Qed.

Lemma attributeMatch_wellTyped (event event' : LogEvent) (match_ : string) :
  attributeMatch event match_ = Ok event' -> wellTyped event -> wellTyped event'.
Proof.
  unfold mysqllog.attributeMatch. intros Hrun Hok.
  destruct (index (Split match_ ": ") 0) as [p0|]; cbn [bind] in Hrun; [|discriminate].
  assert (forall t v, attributeTypes !! p0 = Some t -> mysqllog.hasType float64 t v ->
                      wellTyped (<[p0 := v]> event)) as Hins.
  { intros t v Ht Hv k' v'. rewrite lookup_insert. case_decide as Heq.
    - intros [= <-]. subst k'. left. eauto.
    - apply Hok. }
  destruct (attributeTypes !! p0) as [[| | |]|] eqn:Htype;
    try (destruct (index (Split match_ ": ") 1) as [p1|]; cbn [bind] in Hrun; [|discriminate]).
  - injection Hrun as <-. eapply Hins; [reflexivity | exact I].
  - destruct (ParseBool p1); cbn in Hrun; injection Hrun as <-;
      [eapply Hins; [reflexivity | exact I] | exact Hok].
  - destruct (ParseFloat p1); cbn in Hrun; injection Hrun as <-;
      [eapply Hins; [reflexivity | exact I] | exact Hok].
  - destruct (ParseInt p1); cbn in Hrun; injection Hrun as <-;
      [eapply Hins; [reflexivity | exact I] | exact Hok].
  - cbn in Hrun. injection Hrun as <-. exact Hok.
Qed.

Lemma headerLine_wellTyped (line : string) (event event' : LogEvent) :
  headerLine line event = Ok event' -> wellTyped event -> wellTyped event'.
Proof.
  unfold mysqllog.headerLine. intros Hrun Hok.
  destruct (HasPrefix line "# User@Host").
  - destruct (parseUserHostLine line) as [fields|] eqn:Hfields; cbn [bind] in Hrun; [|discriminate].
    injection Hrun as <-.
    assert (wellFormedFields fields) as (Hkeys & _).
    { apply (userHostMatches_ok _ _ _ Hfields).
      repeat split; try (rewrite lookup_empty; done).
      intros k [x Hx]. rewrite lookup_empty in Hx. discriminate. }
    intros k v Hlook. apply lookup_union_Some_raw in Hlook as [Hl | [_ Hr]].
    + rewrite lookup_fmap in Hl.
      destruct (fields !! k) as [s|] eqn:Hk; [|discriminate].
      injection Hl as <-. right. split; [|eauto].
      destruct (Hkeys k (ex_intro _ s Hk)) as [ -> | [ -> | -> ] ]; cbn; auto.
    + exact (Hok k v Hr).
  - revert event Hrun Hok.
    induction (FindAllString attributesRe line) as [|m matches IH]; intros event Hrun Hok.
    + injection Hrun as <-. exact Hok.
    + cbn [mysqllog.attributeMatches] in Hrun.
      destruct (attributeMatch event m) as [event1|] eqn:Hm; cbn [bind] in Hrun; [|discriminate].
      exact (IH _ Hrun (attributeMatch_wellTyped _ _ _ Hm Hok)).
Qed.

Lemma headerLines_wellTyped (lines : list string) (i i' : nat) (event event' : LogEvent) :
  headerLines lines i event = Ok (event', i') -> wellTyped event -> wellTyped event'.
Proof.
  revert i event. induction lines as [|line lines IH]; intros i event Hrun Hok.
  - injection Hrun as <- _. exact Hok.
  - cbn [mysqllog.headerLines] in Hrun. destruct line as [|c line]; [exact (IH _ _ Hrun Hok)|].
    destruct (negb (Ascii.eqb c "#")); [injection Hrun as <- _; exact Hok|].
    destruct (headerLine (String c line) event) as [event1|] eqn:Hline;
      cbn [bind] in Hrun; [|discriminate].
    exact (IH _ _ Hrun (headerLine_wellTyped _ _ _ Hline Hok)).
Qed.

Lemma contextLines_wellTyped (lines rest : list string) (event event' : LogEvent) :
  contextLines lines event = Ok (event', rest) -> wellTyped event -> wellTyped event'.
Proof.
  revert event. induction lines as [|line lines IH]; intros event Hrun Hok.
  - injection Hrun as <- _. exact Hok.
  - cbn [mysqllog.contextLines] in Hrun.
    destruct (HasPrefix line "use ").
    { destruct (index (Split line " ") 1) as [db|]; cbn [bind] in Hrun; [|discriminate].
      apply (IH _ Hrun). apply wellTyped_builtin; [cbn; auto | exact Hok]. }
    destruct (HasPrefix line "SET "); [|injection Hrun as <- _; exact Hok].
    destruct (HasPrefix line "SET timestamp="); [|exact (IH _ Hrun Hok)].
    destruct (index (Split line "=") 1) as [t|]; cbn [bind] in Hrun; [|discriminate].
    destruct (ParseInt _); apply (IH _ Hrun);
      repeat (apply wellTyped_builtin; [cbn; auto 6|]); exact Hok.
Qed.

(** X7: every entry of an event that [parseEntry] returns is either an
    attribute that the table declares, with a value of the declared type
    (string, bool, float64 or int64), or a string under one of the keys
    [User], [Host], [IP], [Database], [Timestamp] and [Statement].  No other
    key and no other kind of value ever gets into an event. *)
Theorem event_entries_are_typed (lines : list string) (event : LogEvent) (k : string)
    (v : value float64) :
  parseEntry lines = Ok event -> event !! k = Some v ->
  (exists t, attributeTypes !! k = Some t /\ mysqllog.hasType float64 t v) \/
  (In k builtinKeys /\ exists s, v = VString s).
Proof.
  unfold mysqllog.parseEntry. intros Hrun.
  destruct (headerLines lines 0 ∅) as [[event0 i]|] eqn:Hhdr; cbn [bind] in Hrun; [|discriminate].
  destruct (contextLines (drop i lines) event0) as [[event1 rest]|] eqn:Hctx;
    cbn [bind] in Hrun; [|discriminate].
  injection Hrun as <-.
  apply (wellTyped_builtin event1 "Statement"); [cbn; auto 7|].
  apply (contextLines_wellTyped _ _ _ _ Hctx).
  apply (headerLines_wellTyped _ _ _ _ _ Hhdr).
  intros k' v' Hempty. rewrite lookup_empty in Hempty. discriminate.
Qed.

(** ** More on the context lines *)

(** A [use ] line: [Database] becomes the second piece of the split at
    blanks, trimmed. *)
Lemma contextLines_use_value (t : string) (rest : list string) (event : LogEvent) :
  exists piece pieces,
    Split t " " = piece :: pieces /\
    contextLines (("use " ++ t) :: rest) event
    = contextLines rest (<["Database" := VString (TrimRight piece (";" ++ LF))]> event).
Proof.
  destruct (Split_from_cons t " " 0) as (piece & pieces & Hp).
  exists piece, pieces. split; [exact Hp|].
  cbn [mysqllog.contextLines]. rewrite (HasPrefix_app "use " t).
  change ("use " ++ t) with ("use" ++ String " " t).
  rewrite Split_first by reflexivity.
  unfold Split in *. rewrite Hp. reflexivity.
Qed.

(** X8: a context line [use <db>;] sets the key [Database] of the event to
    <db>, the text between the blank after [use] and the closing [;] (it
    holds no blank and does not itself end in [;] or a newline), provided
    that no later context line of the block is a [use ] line. *)
Theorem use_sets_Database
    (lines context rest : list string) (db : string) (event : LogEvent) :
  dropWhile isHeaderLine lines
  = (context ++ ("use " ++ db ++ ";")%string :: rest)%list ->
  Forall (fun line => isContextLine line = true) context ->
  Forall (fun line => HasPrefix line "use " = false) (takeWhile isContextLine rest) ->
  contains db " "%char = false ->
  TrimRight db (";" ++ LF) = db ->
  parseEntry lines = Ok event ->
  event !! "Database" = Some (VString db).
Proof.
  intros Hshape Hcontext Hlater Hdb Htrim Hrun.
  rewrite (parseEntry_phases float64 ParseFloat formatUnix attributeTypes) in Hrun
    by (right; rewrite Hshape; destruct context; discriminate).
  rewrite Hshape in Hrun.
  destruct (headerEvents lines ∅) as [event0|]; cbn [bind] in Hrun; [|discriminate].
  destruct (contextLines_app float64 formatUnix context
              (("use " ++ db ++ ";") :: rest) event0 Hcontext) as [event1 Happ].
  rewrite Happ in Hrun.
  destruct (contextLines_use_value (db ++ ";") rest event1)
    as (piece & pieces & Hsplit & Hstep).
  rewrite Hstep in Hrun.
  rewrite Split_absent in Hsplit by (rewrite contains_app, Hdb; reflexivity).
  injection Hsplit as <- _.
  rewrite TrimRight_snoc in Hrun by (reflexivity || exact Htrim).
  destruct (contextLines rest _) as [[event3 rest']|] eqn:Hctx;
    cbn [bind] in Hrun; [|discriminate].
  injection Hrun as <-.
  rewrite lookup_insert_ne by discriminate.
  rewrite (contextLines_lookup float64 formatUnix _ _ _ _ "Database" Hctx).
  - apply lookup_insert_eq.
  - intros _. exact Hlater.
  - discriminate.
Qed.

Lemma isContextLine_not_header (line : string) :
  isContextLine line = true -> isHeaderLine line = false.
Proof.
  destruct line as [|c line]; [discriminate|]. cbn [isHeaderLine].
  intros Hctx. destruct (Ascii.eqb c "#") eqn:Hc; [|reflexivity].
  apply Ascii.eqb_eq in Hc. subst c. discriminate Hctx.
Qed.

(** The events of the header do not depend on what follows it. *)
Lemma headerEvents_stop (header rest : list string) (line : string) (event : LogEvent) :
  Forall (fun l => isHeaderLine l = true) header -> isHeaderLine line = false ->
  headerEvents (header ++ line :: rest) event = headerEvents header event.
Proof.
  intros Hall Hline. revert event.
  induction Hall as [|h header Hh _ IH]; intros event; cbn [app mysqllog.headerEvents].
  - rewrite Hline. reflexivity.
  - rewrite Hh. destruct h as [|c h]; [apply IH|].
    destruct (headerLine (String c h) event); cbn [bind]; [apply IH | reflexivity].
Qed.

Lemma contextLines_skip_SET (context rest : list string) (line : string) (event : LogEvent) :
  Forall (fun l => isContextLine l = true) context ->
  HasPrefix line "SET " = true -> HasPrefix line "SET timestamp=" = false ->
  contextLines (context ++ line :: rest) event = contextLines (context ++ rest) event.
Proof.
  intros Hall Hset Hts. revert event.
  induction Hall as [|c context Hc _ IH]; intros event; cbn [app].
  - cbn [mysqllog.contextLines]. rewrite Hset, Hts.
    destruct (HasPrefix_inv _ _ Hset) as [t ->]. reflexivity.
  - cbn [mysqllog.contextLines]. unfold isContextLine in Hc.
    destruct (HasPrefix c "use ").
    { destruct (index (Split c " ") 1); cbn [bind]; [apply IH | reflexivity]. }
    destruct (HasPrefix c "SET "); [|discriminate Hc].
    destruct (HasPrefix c "SET timestamp="); [|apply IH].
    destruct (index (Split c "=") 1); cbn [bind]; [|reflexivity].
    destruct (ParseInt _); apply IH.
Qed.

(** X9: a context line that starts with [SET ] but not with
    [SET timestamp=] leaves no trace: the block parses to the same event as
    the block without that line (the line stands among the context lines,
    before a first statement line). *)
Theorem other_SET_line_is_skipped
    (header context rest : list string) (line first : string) :
  Forall (fun l => isHeaderLine l = true) header ->
  Forall (fun l => isContextLine l = true) context ->
  HasPrefix line "SET " = true -> HasPrefix line "SET timestamp=" = false ->
  isHeaderLine first = false ->
  parseEntry (header ++ context ++ line :: first :: rest)
  = parseEntry (header ++ context ++ first :: rest).
Proof.
  intros Hheader Hcontext Hset Hts Hfirst.
  assert (isHeaderLine line = false) as Hline.
  { apply isContextLine_not_header. unfold isContextLine. rewrite Hset. apply orb_true_r. }
  assert (forall tail x, isHeaderLine x = false ->
            exists y ys, (context ++ x :: tail)%list = y :: ys /\ isHeaderLine y = false) as Hhead.
  { intros tail x Hx. destruct Hcontext as [|c context Hc _].
    - exists x, tail. split; [reflexivity | exact Hx].
    - exists c, (context ++ x :: tail)%list. split; [reflexivity|].
      apply isContextLine_not_header. exact Hc. }
  assert (forall tail x, isHeaderLine x = false ->
            dropWhile isHeaderLine (header ++ context ++ x :: tail) = (context ++ x :: tail)%list
            /\ headerEvents (header ++ context ++ x :: tail) ∅ = headerEvents header ∅) as Hphase.
  { intros tail x Hx. destruct (Hhead tail x Hx) as (y & ys & -> & Hy). split.
    - rewrite (dropWhile_app isHeaderLine) by exact Hheader. cbn [dropWhile].
      rewrite Hy. reflexivity.
    - apply headerEvents_stop; assumption. }
  destruct (Hphase (first :: rest) line Hline) as [Hdrop1 Hhdr1].
  destruct (Hphase rest first Hfirst) as [Hdrop2 Hhdr2].
  rewrite !(parseEntry_phases float64 ParseFloat formatUnix attributeTypes).
  - rewrite Hdrop1, Hdrop2, Hhdr1, Hhdr2.
    destruct (headerEvents header ∅) as [event0|]; cbn [bind]; [|reflexivity].
    rewrite contextLines_skip_SET by assumption. reflexivity.
  - right. rewrite Hdrop2. destruct context; discriminate.
  - right. rewrite Hdrop1. destruct context; discriminate.
Qed.

(** ** The statement is trimmed *)

Lemma string_app_nil_r (s : string) : s ++ EmptyString = s.
Proof.
  induction s as [|c s IH]; [reflexivity|].
  change (String c s ++ EmptyString) with (String c (s ++ EmptyString)).
  rewrite IH. reflexivity.
Qed.

Lemma string_app_assoc (s t u : string) : (s ++ t) ++ u = s ++ t ++ u.
Proof.
  induction s as [|c s IH]; [reflexivity|].
  change (String c (s ++ t) ++ u = String c (s ++ t ++ u)).
  change (String c ((s ++ t) ++ u) = String c (s ++ t ++ u)).
  rewrite IH. reflexivity.
Qed.

Lemma rev_app (s t : string) : rev (s ++ t) = rev t ++ rev s.
Proof.
  induction s as [|c s IH].
  - cbn [rev]. change (EmptyString ++ t) with t. rewrite string_app_nil_r. reflexivity.
  - change (String c s ++ t) with (String c (s ++ t)). cbn [rev].
    rewrite IH, string_app_assoc. reflexivity.
Qed.

Lemma rev_involutive (s : string) : rev (rev s) = s.
Proof.
  induction s as [|c s IH]; [reflexivity|].
  cbn [rev]. rewrite rev_app, IH. reflexivity.
Qed.

(** What the trimming loop returns does not start with a rune that [width]
    accepts, and is the end of its argument. *)
Lemma trimWhile_done (width : string -> nat) (s : string) (skip : nat) :
  width EmptyString = 0 -> width (trimWhile width s skip) = 0.
Proof.
  intros Hnil. revert skip. induction s as [|c s IH]; intros skip; cbn [trimWhile].
  - exact Hnil.
  - destruct skip as [|n]; [|apply IH].
    destruct (width (String c s)) as [|n] eqn:Hw; [exact Hw | apply IH].
Qed.

Lemma trimWhile_suffix (width : string -> nat) (s : string) (skip : nat) :
  exists cut, s = cut ++ trimWhile width s skip.
Proof.
  revert skip. induction s as [|c s IH]; intros skip; cbn [trimWhile].
  - exists EmptyString. reflexivity.
  - assert (forall n, exists cut, String c s = cut ++ trimWhile width s n) as Hskip.
    { intros n. destruct (IH n) as [cut Hcut]. exists (String c cut).
      change (String c cut ++ trimWhile width s n)
        with (String c (cut ++ trimWhile width s n)).
      rewrite <- Hcut. reflexivity. }
    destruct skip as [|n]; [|apply Hskip].
    destruct (width (String c s)) as [|n]; [|apply Hskip].
    exists EmptyString. reflexivity.
Qed.

(** A white-space rune at the start of a text is one at the start of every
    text that extends it. *)
Lemma spaceWidth_app (s t : string) :
  spaceWidth s <> 0 -> spaceWidth (s ++ t) = spaceWidth s.
Proof.
  destruct s as [|a [|b [|c s]]]; cbn [spaceWidth String.append].
  - intros H. contradiction.
  - change (String a EmptyString ++ t) with (String a t). cbn [spaceWidth].
    destruct ((9 <=? byte a) && (byte a <=? 13) || (byte a =? 32))%N; [reflexivity|].
    intros H. contradiction.
  - change (String a (String b EmptyString) ++ t) with (String a (String b t)).
    cbn [spaceWidth].
    destruct ((9 <=? byte a) && (byte a <=? 13) || (byte a =? 32))%N; [reflexivity|].
    destruct ((byte a =? 194) && ((byte b =? 133) || (byte b =? 160)))%N; [reflexivity|].
    intros H. contradiction.
  - change (String a (String b (String c s)) ++ t)
      with (String a (String b (String c (s ++ t)))).
    cbn [spaceWidth]. reflexivity.
Qed.

Lemma TrimSpace_trimmed (s : string) :
  spaceWidth (TrimSpace s) = 0 /\ spaceWidthRev (rev (TrimSpace s)) = 0.
Proof.
  unfold TrimSpace.
  set (t := trimWhile spaceWidth s 0).
  set (r := trimWhile spaceWidthRev (rev t) 0).
  split.
  - destruct (trimWhile_suffix spaceWidthRev (rev t) 0) as [cut Hcut]. fold r in Hcut.
    assert (t = rev r ++ rev cut) as Ht.
    { rewrite <- (rev_involutive t), Hcut, rev_app. reflexivity. }
    destruct (Nat.eq_dec (spaceWidth (rev r)) 0) as [Hz|Hnz]; [exact Hz|].
    pose proof (spaceWidth_app (rev r) (rev cut) Hnz) as Happ.
    rewrite <- Ht in Happ.
    unfold t in Happ. rewrite trimWhile_done in Happ by reflexivity.
    congruence.
  - rewrite rev_involutive. unfold r. apply trimWhile_done. reflexivity.
Qed.

(** X10: the [Statement] of an event, whatever the lines, has no white
    space around it: it neither starts nor ends with a white-space rune (a
    blank, a tab, a newline, ..., in UTF-8). *)
Theorem Statement_is_trimmed (lines : list string) (event : LogEvent) :
  parseEntry lines = Ok event ->
  exists s, event !! "Statement" = Some (VString s) /\
            spaceWidth s = 0 /\ spaceWidthRev (rev s) = 0.
Proof.
  unfold mysqllog.parseEntry. intros Hrun.
  destruct (headerLines lines 0 ∅) as [[event0 i]|]; cbn [bind] in Hrun; [|discriminate].
  destruct (contextLines (drop i lines) event0) as [[event1 rest]|];
    cbn [bind] in Hrun; [|discriminate].
  injection Hrun as <-. eexists. split; [apply lookup_insert_eq|].
  apply TrimSpace_trimmed.
Qed.

(** ** What the patterns match *)

Section Matcher.
Context {R : Type}.

Lemma star_sound (class : ascii -> bool) (prev : option ascii) (s : string)
    (k : option ascii -> string -> option R) (x : R) :
  star class prev s k = Some x ->
  exists w s' prev', s = w ++ s' /\ allOf class w = true /\ k prev' s' = Some x.
Proof.
  revert prev. induction s as [|c s IH]; intros prev; cbn [star].
  - intros Hk. exists EmptyString, EmptyString, prev. auto.
  - destruct (class c) eqn:Hc.
    + destruct (star class (Some c) s k) as [y|] eqn:Hstar.
      * intros [= ->]. destruct (IH _ Hstar) as (w & s' & prev' & -> & Hw & Hk).
        exists (String c w), s', prev'. cbn [allOf]. rewrite Hc, Hw. auto.
      * intros Hk. exists EmptyString, (String c s), prev. auto.
    + intros Hk. exists EmptyString, (String c s), prev. auto.
Qed.

Lemma lit_sound (t : string) (prev : option ascii) (s : string)
    (k : option ascii -> string -> option R) (x : R) :
  lit t prev s k = Some x -> exists s' prev', s = t ++ s' /\ k prev' s' = Some x.
Proof.
  revert prev s. induction t as [|a t IH]; intros prev s; cbn [lit].
  - intros Hk. exists s, prev. auto.
  - destruct s as [|c s]; [discriminate|].
    destruct (Ascii.eqb c a) eqn:Hc; [|discriminate].
    apply Ascii.eqb_eq in Hc. subst c.
    intros Hlit. destruct (IH _ _ Hlit) as (s' & prev' & -> & Hk).
    exists s', prev'. auto.
Qed.

(** The matcher consumes a text of the pattern, then runs its continuation. *)
Lemma exec_sound (r : regex) (prev : option ascii) (s : string)
    (k : option ascii -> string -> option R) (x : R) :
  exec r prev s k = Some x ->
  exists w s' prev', s = w ++ s' /\ lang r w /\ k prev' s' = Some x.
Proof.
  revert prev s k. induction r as [|t|class|class|r1 IH1|r1 IH1 r2 IH2|r1 IH1 r2 IH2|];
    intros prev s k; cbn [exec lang].
  - intros Hk. exists EmptyString, s, prev. auto.
  - intros Hlit. destruct (lit_sound _ _ _ _ _ Hlit) as (s' & prev' & -> & Hk).
    exists t, s', prev'. auto.
  - apply star_sound.
  - destruct s as [|c s]; [discriminate|].
    destruct (class c) eqn:Hc; [|discriminate].
    intros Hstar. destruct (star_sound _ _ _ _ _ Hstar) as (w & s' & prev' & -> & Hw & Hk).
    exists (String c w), s', prev'. cbn [allOf]. rewrite Hc, Hw.
    repeat split; auto; discriminate.
  - destruct (exec r1 prev s k) as [y|] eqn:Hr1.
    + intros [= ->]. destruct (IH1 _ _ _ Hr1) as (w & s' & prev' & -> & Hw & Hk).
      exists w, s', prev'. auto.
    + intros Hk. exists EmptyString, s, prev. auto.
  - intros Hseq. destruct (IH1 _ _ _ Hseq) as (u & s1 & prev1 & -> & Hu & Hrest).
    destruct (IH2 _ _ _ Hrest) as (v & s2 & prev2 & -> & Hv & Hk).
    exists (u ++ v), s2, prev2. rewrite string_app_assoc. repeat split; eauto.
  - destruct (exec r1 prev s k) as [y|] eqn:Hr1.
    + intros [= ->]. destruct (IH1 _ _ _ Hr1) as (w & s' & prev' & -> & Hw & Hk).
      exists w, s', prev'. auto.
    + intros Hr2. destruct (IH2 _ _ _ Hr2) as (w & s' & prev' & -> & Hw & Hk).
      exists w, s', prev'. auto.
  - destruct (xorb (isWord prev) (isWord (next s))); [|discriminate].
    intros Hk. exists EmptyString, s, prev. auto.
Qed.

End Matcher.

Lemma length_string_app (s t : string) :
  String.length (s ++ t) = String.length s + String.length t.
Proof.
  induction s as [|c s IH]; [reflexivity|].
  change (String c s ++ t) with (String c (s ++ t)). cbn [String.length].
  rewrite IH. reflexivity.
Qed.

Lemma substring_prefix (w s : string) :
  substring 0 (String.length w) (w ++ s) = w.
Proof.
  induction w as [|c w IH].
  - destruct s; reflexivity.
  - change (String c w ++ s) with (String c (w ++ s)). cbn [String.length substring].
    rewrite IH. reflexivity.
Qed.

Lemma matchAt_sound (r : regex) (prev : option ascii) (s m : string) :
  matchAt r prev s = Some m -> lang r m.
Proof.
  unfold matchAt.
  destruct (exec r prev s (fun _ rest => Some rest)) as [rest|] eqn:Hexec; [|discriminate].
  destruct (exec_sound _ _ _ _ _ Hexec) as (w & s' & prev' & -> & Hw & [= ->]).
  intros [= <-].
  rewrite length_string_app.
  replace (String.length w + String.length rest - String.length rest) with (String.length w) by lia.
  rewrite substring_prefix. exact Hw.
Qed.

(** Every match that [FindAllString] returns is a text of the pattern. *)
Lemma findAll_sound (r : regex) (prev : option ascii) (s : string) (skip : nat)
    (atEnd : bool) (m : string) :
  In m (findAll r prev s skip atEnd) -> lang r m.
Proof.
  revert prev skip atEnd. induction s as [|c s IH]; intros prev skip atEnd.
  - destruct skip as [|n]; cbn [findAll]; [|contradiction].
    destruct (matchAt r prev EmptyString) as [[|d m']|] eqn:Hm.
    + destruct atEnd; cbn; [contradiction|].
      intros [<-|[]]. exact (matchAt_sound _ _ _ _ Hm).
    + intros [<-|[]]. exact (matchAt_sound _ _ _ _ Hm).
    + contradiction.
  - destruct skip as [|n]; cbn [findAll]; [|apply IH].
    destruct (matchAt r prev (String c s)) as [[|d m']|] eqn:Hm.
    + intros Hin. apply in_app_or in Hin as [Hin|Hin]; [|exact (IH _ _ _ Hin)].
      destruct atEnd; [contradiction|].
      destruct Hin as [<-|[]]. exact (matchAt_sound _ _ _ _ Hm).
    + intros [<-|Hin]; [exact (matchAt_sound _ _ _ _ Hm) | exact (IH _ _ _ Hin)].
    + apply IH.
Qed.

(** ** Where [parseEntry] can fail *)

(** A text that splits into one piece is that piece. *)
Lemma Split_single (s sep piece : string) : Split s sep = [piece] -> piece = s.
Proof.
  unfold Split. revert piece. induction s as [|c s IH]; intros piece; cbn [Split_from].
  - intros [= <-]. reflexivity.
  - destruct (HasPrefix (String c s) sep).
    + destruct (Split_from_cons s sep (String.length sep - 1)) as (q & qs & ->). discriminate.
    + destruct (Split_from s sep 0) as [|q qs] eqn:Hs.
      * destruct (Split_from_not_nil _ _ _ Hs).
      * intros [= <- ->]. rewrite (IH q eq_refl). reflexivity.
Qed.

(** Every match of the attribute pattern holds a colon. *)
Lemma attribute_match_has_colon (line m : string) :
  In m (FindAllString attributesRe line) -> contains m ":"%char = true.
Proof.
  intros Hin. apply findAll_sound in Hin.
  cbn [lang attributesRe] in Hin.
  destruct Hin as (u0 & v0 & -> & _ & u1 & v1 & -> & _ & u2 & v2 & -> & -> & _).
  rewrite !contains_app. cbn [contains]. rewrite Ascii.eqb_refl.
  cbn [orb]. rewrite !orb_true_r. reflexivity.
Qed.

Section ColonFreeTable.

(** The names of the table hold no colon. *)
Hypothesis names : forall k, is_Some (attributeTypes !! k) -> contains k ":"%char = false.

Lemma attributeMatch_returns (event : LogEvent) (match_ : string) :
  contains match_ ":"%char = true -> exists event', attributeMatch event match_ = Ok event'.
Proof.
  intros Hcolon. unfold mysqllog.attributeMatch.
  destruct (Split match_ ": ") as [|p0 [|p1 pieces]] eqn:Hsplit.
  - destruct (Split_from_not_nil _ _ _ Hsplit).
  - apply Split_single in Hsplit. subst p0. cbn [index nth_error bind].
    destruct (attributeTypes !! match_) as [t|] eqn:Ht.
    + rewrite (names match_) in Hcolon by eauto. discriminate.
    + cbn [bind]. eauto.
  - cbn [index nth_error bind].
    destruct (attributeTypes !! p0) as [[| | |]|]; cbn [bind].
    + eauto.
    + destruct (ParseBool p1); cbn; eauto.
    + destruct (ParseFloat p1); cbn; eauto.
    + destruct (ParseInt p1); cbn; eauto.
    + eauto.
Qed.

Lemma attributeMatches_returns (matches : list string) (event : LogEvent) :
  Forall (fun m => contains m ":"%char = true) matches ->
  exists event', attributeMatches matches event = Ok event'.
Proof.
  intros Hall. revert event.
  induction Hall as [|m matches Hm _ IH]; intros event; cbn [mysqllog.attributeMatches].
  - eauto.
  - destruct (attributeMatch_returns event m Hm) as [event1 ->]. cbn [bind]. apply IH.
Qed.

(** Only a [# User@Host] line can make the header loop fail. *)
Lemma headerLine_fails (line : string) (event : LogEvent) :
  headerLine line event = Panic ->
  HasPrefix line "# User@Host" = true /\ parseUserHostLine line = Panic.
Proof.
  unfold mysqllog.headerLine. destruct (HasPrefix line "# User@Host").
  - destruct (parseUserHostLine line); cbn [bind]; [discriminate | auto].
  - intros Hfail.
    destruct (attributeMatches_returns (FindAllString attributesRe line) event) as [e He].
    + apply Forall_forall. intros m Hm. apply list_elem_of_In in Hm.
      exact (attribute_match_has_colon line m Hm).
    + rewrite He in Hfail. discriminate.
Qed.

Lemma headerLines_fails (lines : list string) (i : nat) (event : LogEvent) :
  headerLines lines i event = Panic ->
  exists line, In line lines /\
               HasPrefix line "# User@Host" = true /\ parseUserHostLine line = Panic.
Proof.
  revert i event. induction lines as [|line lines IH]; intros i event; cbn [mysqllog.headerLines].
  - discriminate.
  - assert (forall j e, headerLines lines j e = Panic ->
              exists l, In l (line :: lines) /\
                        HasPrefix l "# User@Host" = true /\ parseUserHostLine l = Panic) as Hrest.
    { intros j e H. destruct (IH _ _ H) as (l & Hin & Hl). exists l. split; [right; exact Hin | exact Hl]. }
    destruct line as [|c line]; [apply Hrest|].
    destruct (negb (Ascii.eqb c "#")); [discriminate|].
    destruct (headerLine (String c line) event) as [event1|] eqn:Hline; cbn [bind]; [apply Hrest|].
    intros _. exists (String c line). split; [left; reflexivity|].
    exact (headerLine_fails _ _ Hline).
Qed.

Lemma parseEntry_fails (lines : list string) :
  parseEntry lines = Panic ->
  exists line, In line lines /\
               HasPrefix line "# User@Host" = true /\ parseUserHostLine line = Panic.
Proof.
  unfold mysqllog.parseEntry. intros Hfail.
  destruct (headerLines lines 0 ∅) as [[event0 i]|] eqn:Hhdr; cbn [bind] in Hfail.
  - destruct (contextLines_total float64 formatUnix (drop i lines) event0) as [event1 Hctx].
    rewrite Hctx in Hfail. discriminate.
  - exact (headerLines_fails _ _ _ Hhdr).
Qed.

(** X11: when no name of the table holds a colon, [parseEntry] fails only
    where [parseUserHostLine] fails on a line of the block that starts with
    [# User@Host]; attribute lines, context lines and statement lines never
    make it fail. *)
Theorem parseEntry_fails_only_in_UserHost (lines : list string) :
  parseEntry lines = Panic ->
  exists line, In line lines /\
               HasPrefix line "# User@Host" = true /\ parseUserHostLine line = Panic.
Proof. exact (parseEntry_fails lines). Qed.

Lemma parseEntry_without_UserHost (lines : list string) :
  Forall (fun line => HasPrefix line "# User@Host" = false) lines ->
  exists event, parseEntry lines = Ok event.
Proof.
  intros Hall. destruct (parseEntry lines) as [event|] eqn:Hrun; [eauto|].
  destruct (parseEntry_fails lines Hrun) as (line & Hin & Hprefix & _).
  rewrite Forall_forall in Hall. apply list_elem_of_In in Hin.
  rewrite (Hall line Hin) in Hprefix. discriminate.
Qed.

Lemma feed_without_UserHost (input : list string) (p : Parser) :
  Forall (fun line => HasPrefix line "# User@Host" = false) (lines p) ->
  Forall (fun line => HasPrefix line "# User@Host" = false) input ->
  exists events p', feed p input = Ok (events, p') /\
    Forall (fun line => HasPrefix line "# User@Host" = false) (lines p').
Proof.
  intros Hbuffer Hinput. revert p Hbuffer.
  induction Hinput as [|line input Hline _ IH]; intros p Hbuffer; cbn [mysqllog.feed].
  - eauto.
  - assert (exists event p1, ConsumeLine p line = Ok (event, p1) /\
              Forall (fun l => HasPrefix l "# User@Host" = false) (lines p1)) as Hstep.
    { destruct (isHeaderLine line) eqn:Hhdr.
      - destruct (inQuery p) eqn:Hq.
        + rewrite (ConsumeLine_boundary p line Hq Hhdr).
          destruct (parseEntry_without_UserHost (lines p) Hbuffer) as [event ->].
          cbn [bind]. do 2 eexists. split; [reflexivity|]. repeat constructor. exact Hline.
        + rewrite (ConsumeLine_header_line p line Hq Hhdr).
          do 2 eexists. split; [reflexivity|].
          destruct (String.eqb line EmptyString); [exact Hbuffer|].
          apply Forall_app. split; [exact Hbuffer | repeat constructor; exact Hline].
      - rewrite (ConsumeLine_statement_line p line Hhdr).
        do 2 eexists. split; [reflexivity|].
        destruct (inHeader p || inQuery p); [|exact Hbuffer].
        apply Forall_app. split; [exact Hbuffer | repeat constructor; exact Hline]. }
    destruct Hstep as (event & p1 & -> & Hp1). cbn [bind].
    destruct (IH p1 Hp1) as (events & p' & -> & Hp'). cbn [bind]. eauto.
Qed.

(** X12: when no name of the table holds a colon, a stream without any line
    that starts with [# User@Host] never makes the parser fail: every call of
    [ConsumeLine] on a fresh parser returns, and so does the final [Flush]. *)
Theorem stream_without_UserHost_never_fails (input : list string) :
  Forall (fun line => HasPrefix line "# User@Host" = false) input ->
  exists events p, feed newParser input = Ok (events, p) /\
                   exists last, Flush p = Ok last.
Proof.
  intros Hinput.
  destruct (feed_without_UserHost input newParser (List.Forall_nil _) Hinput)
    as (events & p & Hfeed & Hp).
  exists events, p. split; [exact Hfeed|].
  unfold mysqllog.Flush. destruct (inQuery p); cbn [negb]; [|eauto].
  destruct (parseEntry_without_UserHost (lines p) Hp) as [event ->]. cbn [bind]. eauto.
Qed.

End ColonFreeTable.

(** ** Blank lines *)

(** X13: a blank line right after header lines is no boundary: further
    header lines and the statement lines join the same block, and no call
    returns an event. *)
Theorem blank_line_after_header_is_ignored (header1 header2 body : list string) :
  header1 <> [] ->
  Forall (fun line => HasPrefix line "#" = true) header1 ->
  Forall (fun line => HasPrefix line "#" = true) header2 ->
  body <> [] -> Forall (fun line => isHeaderLine line = false) body ->
  feed newParser (header1 ++ [EmptyString] ++ header2 ++ body)
  = Ok (repeat None (length (header1 ++ [EmptyString] ++ header2 ++ body)),
        {| inHeader := false; inQuery := true; lines := header1 ++ header2 ++ body |}).
Proof.
  intros Hne Hh1 Hh2 Hb Hl.
  pose proof (feed_body float64 ParseFloat formatUnix attributeTypes
                body (header1 ++ header2) true Hl) as Hfeed.
  cbn [negb] in Hfeed.
  assert (forall (A : Type) (x y : A), match body with [] => x | _ => y end = y) as Hm
    by (intros; destruct body; [contradiction | reflexivity]).
  rewrite !Hm in Hfeed.
  unfold newParser.
  rewrite (feed_app float64 ParseFloat formatUnix attributeTypes),
    (feed_header float64 ParseFloat formatUnix attributeTypes header1 [] false Hh1 Hne).
  cbn [bind app]. cbn [mysqllog.feed].
  rewrite (ConsumeLine_header_line
             {| inHeader := true; inQuery := false; lines := header1 |}
             EmptyString eq_refl eq_refl).
  cbn [String.eqb bind].
  rewrite (feed_app float64 ParseFloat formatUnix attributeTypes),
    (feed_more_header header2 header1 Hh2).
  cbn [bind]. rewrite Hfeed. cbn [bind].
  rewrite length_app. cbn [app length].
  rewrite !length_app, repeat_app. cbn [repeat].
  rewrite repeat_app, <- !app_assoc. reflexivity.
Qed.

Lemma feed_cons (p : Parser) (line : string) (rest : list string) :
  feed p (line :: rest)
  = (let! '(event, p1) := ConsumeLine p line in
     let! '(events, p2) := feed p1 rest in
     Ok (event :: events, p2)).
Proof. reflexivity. Qed.

(** X14: a blank line inside a statement ends the block.  The call on the
    blank line returns the event of the lines so far; the lines after it are
    a block of their own, which the final [Flush] returns without any
    attribute of the header: its keys are among [Database], [Timestamp] and
    [Statement]. *)
Theorem blank_line_splits_a_statement
    (header body1 body2 : list string) (event1 : LogEvent) :
  isBlock header body1 ->
  body2 <> [] -> Forall (fun line => isHeaderLine line = false) body2 ->
  parseEntry (header ++ body1) = Ok event1 ->
  exists event2 p,
    feed newParser (header ++ body1 ++ [EmptyString] ++ body2)
    = Ok ((repeat None (length (header ++ body1)) ++ [Some event1]
           ++ repeat None (length body2))%list, p) /\
    Flush p = Ok (Some event2, {| inHeader := false; inQuery := true; lines := [] |}) /\
    forall k, is_Some (event2 !! k) ->
              k = "Database" \/ k = "Timestamp" \/ k = "Statement".
Proof.
  intros (Hne & Hh & Hb1 & Hl1) Hb2 Hl2 Hrun1.
  destruct body2 as [|b body2]; [contradiction|].
  assert (isHeaderLine b = false) as Hfirst by (inversion Hl2; assumption).
  assert (dropWhile isHeaderLine (EmptyString :: b :: body2) = b :: body2) as Hdrop
    by (cbn [dropWhile isHeaderLine]; rewrite Hfirst; reflexivity).
  pose proof (parseEntry_phases float64 ParseFloat formatUnix attributeTypes
                (EmptyString :: b :: body2)) as Hphases.
  rewrite Hdrop in Hphases.
  assert (b :: body2 <> []) as Hnil by discriminate.
  specialize (Hphases (or_intror Hnil)).
  cbn [mysqllog.headerEvents isHeaderLine] in Hphases. rewrite Hfirst in Hphases.
  cbn [bind] in Hphases.
  destruct (contextLines (b :: body2) ∅) as [[event rest]|] eqn:Hctx;
    [|destruct (contextLines_total float64 formatUnix (b :: body2) ∅) as [e He]; congruence].
  cbn [bind] in Hphases.
  eexists. exists {| inHeader := false; inQuery := true; lines := EmptyString :: b :: body2 |}.
  split; [|split].
  - pose proof (feed_body float64 ParseFloat formatUnix attributeTypes
                  body1 header true Hl1) as Hfeed1.
    pose proof (feed_body float64 ParseFloat formatUnix attributeTypes
                  (b :: body2) [EmptyString] true Hl2) as Hfeed2.
    cbn [negb] in Hfeed1, Hfeed2.
    assert (forall (A : Type) (x y : A), match body1 with [] => x | _ => y end = y) as Hm1
      by (intros; destruct body1; [contradiction | reflexivity]).
    rewrite !Hm1 in Hfeed1.
    unfold newParser.
    rewrite (feed_app float64 ParseFloat formatUnix attributeTypes),
      (feed_header float64 ParseFloat formatUnix attributeTypes header [] false Hh Hne).
    cbn [bind app].
    rewrite (feed_app float64 ParseFloat formatUnix attributeTypes), Hfeed1. cbn [bind].
    rewrite (feed_cons _ EmptyString).
    rewrite (ConsumeLine_boundary
               {| inHeader := false; inQuery := true; lines := header ++ body1 |}
               EmptyString eq_refl eq_refl).
    cbn [lines]. rewrite Hrun1. cbn [bind].
    rewrite Hfeed2. cbn [bind app].
    rewrite !length_app, !repeat_app, <- !app_assoc. reflexivity.
  - unfold mysqllog.Flush. cbn [inQuery negb lines inHeader].
    rewrite Hphases. reflexivity.
  - intros k Hk.
    destruct (decide (k = "Statement")) as [|Hs]; [auto|].
    destruct (decide (k = "Database")) as [|Hd]; [auto|].
    destruct (decide (k = "Timestamp")) as [|Ht]; [auto|].
    rewrite lookup_insert_ne in Hk by congruence.
    rewrite (contextLines_lookup float64 formatUnix _ _ _ _ k Hctx) in Hk by congruence.
    rewrite lookup_empty in Hk. destruct Hk as [x Hx]. discriminate.
Qed.
End MoreProperties.

(** * The further properties at the sample instance *)

Lemma Sample_names :
  forall k, is_Some (Sample.attributeTypes !! k) -> contains k ":"%char = false.
Proof.
  assert (map_Forall (fun k _ => contains k ":"%char = false) Sample.attributeTypes) as H
    by compute_done.
  intros k [t Hk]. exact (H k t Hk).
Defined.

Lemma no_event_right_after_an_event_witness :
  Sample.ConsumeLine Sample.afterBlock1 EmptyString = Ok (Some Sample.event1, Sample.afterBlank) /\
  (Sample.Flush Sample.afterBlank = Ok (None, Sample.afterBlank) /\
   forall line', exists p'', Sample.ConsumeLine Sample.afterBlank line' = Ok (None, p'')).
Proof.
  assert (Sample.ConsumeLine Sample.afterBlock1 EmptyString
          = Ok (Some Sample.event1, Sample.afterBlank)) as H1 by compute_done.
  split; [exact H1|].
  exact (no_event_right_after_an_event (Z * nat) Sample.ParseFloat Sample.formatUnix
           Sample.attributeTypes Sample.afterBlock1 Sample.afterBlank EmptyString
           Sample.event1 H1).
Defined.

Lemma reachable_buffer_shape_witness :
  Sample.reachable Sample.afterBlock1 /\
  (inHeader Sample.afterBlock1 && inQuery Sample.afterBlock1 = false /\
   (inHeader Sample.afterBlock1 = false -> inQuery Sample.afterBlock1 = false ->
    lines Sample.afterBlock1 = []) /\
   (inQuery Sample.afterBlock1 = false ->
    Forall (fun line => isHeaderLine line = true) (lines Sample.afterBlock1)) /\
   (inQuery Sample.afterBlock1 = true ->
    exists header body,
      lines Sample.afterBlock1 = (header ++ body)%list /\
      Forall (fun line => isHeaderLine line = true) header /\
      Forall (fun line => isHeaderLine line = false) body /\
      (header <> [] -> body <> []))).
Proof.
  split; [exact afterBlock1_reachable|].
  exact (reachable_buffer_shape (Z * nat) Sample.ParseFloat Sample.formatUnix
           Sample.attributeTypes Sample.afterBlock1 afterBlock1_reachable).
Defined.

Lemma header_only_block_Statement_witness :
  (Forall (fun line => isHeaderLine line = true) ["# Time: 2021-01-01T00:00:00Z"] /\
   isHeaderLine "# Rows_sent: 1" = true /\
   isRotationMarker "# Rows_sent: 1" = false /\
   Sample.parseEntry (["# Time: 2021-01-01T00:00:00Z"] ++ ["# Rows_sent: 1"])
   = Ok Sample.headerOnlyEvent) /\
  Sample.headerOnlyEvent !! "Statement" = Some (VString (TrimSpace "# Rows_sent: 1")).
Proof.
  assert (Forall (fun line => isHeaderLine line = true) ["# Time: 2021-01-01T00:00:00Z"]) as H1
    by (repeat constructor).
  assert (isHeaderLine "# Rows_sent: 1" = true) as H2 by reflexivity.
  assert (isRotationMarker "# Rows_sent: 1" = false) as H3 by reflexivity.
  assert (Sample.parseEntry (["# Time: 2021-01-01T00:00:00Z"] ++ ["# Rows_sent: 1"])
          = Ok Sample.headerOnlyEvent) as H4 by compute_done.
  split; [exact (conj H1 (conj H2 (conj H3 H4)))|].
  exact (header_only_block_Statement (Z * nat) Sample.ParseFloat Sample.formatUnix
           Sample.attributeTypes ["# Time: 2021-01-01T00:00:00Z"] "# Rows_sent: 1"
           Sample.headerOnlyEvent H1 H2 H3 H4).
Defined.

Lemma next_header_closes_the_block_witness :
  (isBlock Sample.header1 Sample.body1 /\
   isBlock ("# User@Host: root[root] @ localhost []" :: ["# Query_time: 1.5 Rows_sent: many"])
           Sample.body2 /\
   Sample.parseEntry (Sample.header1 ++ Sample.body1) = Ok Sample.event1 /\
   Sample.parseEntry ("# User@Host: root[root] @ localhost []"
                      :: ["# Query_time: 1.5 Rows_sent: many"] ++ Sample.body2)
   = Ok Sample.event2) /\
  exists p,
    Sample.feed newParser
      (Sample.header1 ++ Sample.body1
       ++ "# User@Host: root[root] @ localhost []"
       :: ["# Query_time: 1.5 Rows_sent: many"] ++ Sample.body2)
    = Ok ((repeat None (length (Sample.header1 ++ Sample.body1)) ++ [Some Sample.event1]
           ++ repeat None (length (["# Query_time: 1.5 Rows_sent: many"] ++ Sample.body2)))%list,
          p) /\
    Sample.Flush p = Ok (Some Sample.event2, {| inHeader := false; inQuery := true; lines := [] |}).
Proof.
  assert (isBlock Sample.header1 Sample.body1) as H1
    by (repeat split; first [discriminate | repeat constructor]).
  assert (isBlock ("# User@Host: root[root] @ localhost []"
                   :: ["# Query_time: 1.5 Rows_sent: many"]) Sample.body2) as H2
    by (repeat split; first [discriminate | repeat constructor]).
  assert (Sample.parseEntry (Sample.header1 ++ Sample.body1) = Ok Sample.event1) as H3
    by compute_done.
  assert (Sample.parseEntry ("# User@Host: root[root] @ localhost []"
                             :: ["# Query_time: 1.5 Rows_sent: many"] ++ Sample.body2)
          = Ok Sample.event2) as H4 by compute_done.
  split; [exact (conj H1 (conj H2 (conj H3 H4)))|].
  exact (next_header_closes_the_block (Z * nat) Sample.ParseFloat Sample.formatUnix
           Sample.attributeTypes Sample.header1 Sample.body1
           ["# Query_time: 1.5 Rows_sent: many"] Sample.body2
           "# User@Host: root[root] @ localhost []" Sample.event1 Sample.event2
           H1 H2 H3 H4).
Defined.

Lemma parseUserHostLine_fields_witness :
  parseUserHostLine "# User@Host: root[root] @  [127.0.0.1]" = Ok Sample.addressFields /\
  wellFormedFields Sample.addressFields.
Proof.
  assert (parseUserHostLine "# User@Host: root[root] @  [127.0.0.1]" = Ok Sample.addressFields)
    as H1 by compute_done.
  split; [exact H1|].
  exact (parseUserHostLine_fields "# User@Host: root[root] @  [127.0.0.1]"
           Sample.addressFields H1).
Defined.

Lemma event_entries_are_typed_witness :
  (Sample.parseEntry (Sample.header1 ++ Sample.body1) = Ok Sample.event1 /\
   Sample.event1 !! "Query_time" = Some (VFloat (123%Z, 6))) /\
  ((exists t, Sample.attributeTypes !! "Query_time" = Some t /\
              hasType (Z * nat) t (VFloat (123%Z, 6))) \/
   (In "Query_time" builtinKeys /\ exists s, VFloat (123%Z, 6) = VString s)).
Proof.
  assert (Sample.parseEntry (Sample.header1 ++ Sample.body1) = Ok Sample.event1) as H1
    by compute_done.
  assert (Sample.event1 !! "Query_time" = Some (VFloat (123%Z, 6))) as H2 by compute_done.
  split; [exact (conj H1 H2)|].
  exact (event_entries_are_typed (Z * nat) Sample.ParseFloat Sample.formatUnix
           Sample.attributeTypes (Sample.header1 ++ Sample.body1) Sample.event1
           "Query_time" (VFloat (123%Z, 6)) H1 H2).
Defined.

Lemma use_sets_Database_witness :
  (dropWhile isHeaderLine (Sample.header1 ++ Sample.body1)
   = ([] ++ ("use " ++ "some_db" ++ ";")%string
      :: ["SET timestamp=1609459200;"; "SELECT * FROM t;"])%list /\
   Forall (fun line => isContextLine line = true) [] /\
   Forall (fun line => HasPrefix line "use " = false)
          (takeWhile isContextLine ["SET timestamp=1609459200;"; "SELECT * FROM t;"]) /\
   contains "some_db" " "%char = false /\
   TrimRight "some_db" (";" ++ LF) = "some_db" /\
   Sample.parseEntry (Sample.header1 ++ Sample.body1) = Ok Sample.event1) /\
  Sample.event1 !! "Database" = Some (VString "some_db").
Proof.
  assert (dropWhile isHeaderLine (Sample.header1 ++ Sample.body1)
          = ([] ++ ("use " ++ "some_db" ++ ";")%string
             :: ["SET timestamp=1609459200;"; "SELECT * FROM t;"])%list) as H1 by reflexivity.
  assert (Forall (fun line => isContextLine line = true) []) as H2 by constructor.
  assert (Forall (fun line => HasPrefix line "use " = false)
                 (takeWhile isContextLine ["SET timestamp=1609459200;"; "SELECT * FROM t;"]))
    as H3 by (repeat constructor).
  assert (contains "some_db" " "%char = false) as H4 by reflexivity.
  assert (TrimRight "some_db" (";" ++ LF) = "some_db") as H5 by reflexivity.
  assert (Sample.parseEntry (Sample.header1 ++ Sample.body1) = Ok Sample.event1) as H6
    by compute_done.
  split; [exact (conj H1 (conj H2 (conj H3 (conj H4 (conj H5 H6)))))|].
  exact (use_sets_Database (Z * nat) Sample.ParseFloat Sample.formatUnix
           Sample.attributeTypes (Sample.header1 ++ Sample.body1) []
           ["SET timestamp=1609459200;"; "SELECT * FROM t;"] "some_db" Sample.event1
           H1 H2 H3 H4 H5 H6).
Defined.

Lemma other_SET_line_is_skipped_witness :
  (Forall (fun l => isHeaderLine l = true) Sample.header1 /\
   Forall (fun l => isContextLine l = true) ["use some_db;"] /\
   HasPrefix "SET NAMES utf8;" "SET " = true /\
   HasPrefix "SET NAMES utf8;" "SET timestamp=" = false /\
   isHeaderLine "SELECT 1;" = false) /\
  Sample.parseEntry (Sample.header1 ++ ["use some_db;"] ++ "SET NAMES utf8;" :: "SELECT 1;" :: [])
  = Sample.parseEntry (Sample.header1 ++ ["use some_db;"] ++ "SELECT 1;" :: []).
Proof.
  assert (Forall (fun l => isHeaderLine l = true) Sample.header1) as H1 by (repeat constructor).
  assert (Forall (fun l => isContextLine l = true) ["use some_db;"]) as H2
    by (repeat constructor).
  assert (HasPrefix "SET NAMES utf8;" "SET " = true) as H3 by reflexivity.
  assert (HasPrefix "SET NAMES utf8;" "SET timestamp=" = false) as H4 by reflexivity.
  assert (isHeaderLine "SELECT 1;" = false) as H5 by reflexivity.
  split; [exact (conj H1 (conj H2 (conj H3 (conj H4 H5))))|].
  exact (other_SET_line_is_skipped (Z * nat) Sample.ParseFloat Sample.formatUnix
           Sample.attributeTypes Sample.header1 ["use some_db;"] [] "SET NAMES utf8;"
           "SELECT 1;" H1 H2 H3 H4 H5).
Defined.

Lemma Statement_is_trimmed_witness :
  Sample.parseEntry (Sample.header1 ++ Sample.body1) = Ok Sample.event1 /\
  exists s, Sample.event1 !! "Statement" = Some (VString s) /\
            spaceWidth s = 0 /\ spaceWidthRev (rev s) = 0.
Proof.
  assert (Sample.parseEntry (Sample.header1 ++ Sample.body1) = Ok Sample.event1) as H1
    by compute_done.
  split; [exact H1|].
  exact (Statement_is_trimmed (Z * nat) Sample.ParseFloat Sample.formatUnix
           Sample.attributeTypes (Sample.header1 ++ Sample.body1) Sample.event1 H1).
Defined.

Lemma parseEntry_fails_only_in_UserHost_witness :
  ((forall k, is_Some (Sample.attributeTypes !! k) -> contains k ":"%char = false) /\
   Sample.parseEntry Sample.failingBlock = Panic) /\
  exists line, In line Sample.failingBlock /\
               HasPrefix line "# User@Host" = true /\ parseUserHostLine line = Panic.
Proof.
  assert (Sample.parseEntry Sample.failingBlock = Panic) as H1 by compute_done.
  split; [exact (conj Sample_names H1)|].
  exact (parseEntry_fails_only_in_UserHost (Z * nat) Sample.ParseFloat Sample.formatUnix
           Sample.attributeTypes Sample_names Sample.failingBlock H1).
Defined.

Lemma stream_without_UserHost_never_fails_witness :
  ((forall k, is_Some (Sample.attributeTypes !! k) -> contains k ":"%char = false) /\
   Forall (fun line => HasPrefix line "# User@Host" = false) Sample.plainStream) /\
  exists events p, Sample.feed newParser Sample.plainStream = Ok (events, p) /\
                   exists last, Sample.Flush p = Ok last.
Proof.
  assert (Forall (fun line => HasPrefix line "# User@Host" = false) Sample.plainStream) as H1
    by (repeat constructor).
  split; [exact (conj Sample_names H1)|].
  exact (stream_without_UserHost_never_fails (Z * nat) Sample.ParseFloat Sample.formatUnix
           Sample.attributeTypes Sample_names Sample.plainStream H1).
Defined.

Lemma blank_line_after_header_is_ignored_witness :
  (["# Time: 2021-01-01T00:00:00Z"] <> [] /\
   Forall (fun line => HasPrefix line "#" = true) ["# Time: 2021-01-01T00:00:00Z"] /\
   Forall (fun line => HasPrefix line "#" = true) ["# Query_time: 0.5"] /\
   ["SELECT 1;"] <> [] /\ Forall (fun line => isHeaderLine line = false) ["SELECT 1;"]) /\
  Sample.feed newParser
    (["# Time: 2021-01-01T00:00:00Z"] ++ [EmptyString] ++ ["# Query_time: 0.5"] ++ ["SELECT 1;"])
  = Ok (repeat None (length (["# Time: 2021-01-01T00:00:00Z"] ++ [EmptyString]
                             ++ ["# Query_time: 0.5"] ++ ["SELECT 1;"])),
        {| inHeader := false; inQuery := true;
           lines := ["# Time: 2021-01-01T00:00:00Z"] ++ ["# Query_time: 0.5"] ++ ["SELECT 1;"] |}).
Proof.
  assert (["# Time: 2021-01-01T00:00:00Z"] <> []) as H1 by discriminate.
  assert (Forall (fun line => HasPrefix line "#" = true) ["# Time: 2021-01-01T00:00:00Z"]) as H2
    by (repeat constructor).
  assert (Forall (fun line => HasPrefix line "#" = true) ["# Query_time: 0.5"]) as H3
    by (repeat constructor).
  assert (["SELECT 1;"] <> []) as H4 by discriminate.
  assert (Forall (fun line => isHeaderLine line = false) ["SELECT 1;"]) as H5
    by (repeat constructor).
  split; [exact (conj H1 (conj H2 (conj H3 (conj H4 H5))))|].
  exact (blank_line_after_header_is_ignored (Z * nat) Sample.ParseFloat Sample.formatUnix
           Sample.attributeTypes ["# Time: 2021-01-01T00:00:00Z"] ["# Query_time: 0.5"]
           ["SELECT 1;"] H1 H2 H3 H4 H5).
Defined.

Lemma blank_line_splits_a_statement_witness :
  (isBlock Sample.header1 Sample.body1 /\
   ["LIMIT 1;"] <> [] /\ Forall (fun line => isHeaderLine line = false) ["LIMIT 1;"] /\
   Sample.parseEntry (Sample.header1 ++ Sample.body1) = Ok Sample.event1) /\
  exists (event2 : LogEvent (Z * nat)) p,
    Sample.feed newParser (Sample.header1 ++ Sample.body1 ++ [EmptyString] ++ ["LIMIT 1;"])
    = Ok ((repeat None (length (Sample.header1 ++ Sample.body1)) ++ [Some Sample.event1]
           ++ repeat None (length ["LIMIT 1;"]))%list, p) /\
    Sample.Flush p = Ok (Some event2, {| inHeader := false; inQuery := true; lines := [] |}) /\
    forall k, is_Some (event2 !! k) ->
              k = "Database" \/ k = "Timestamp" \/ k = "Statement".
Proof.
  assert (isBlock Sample.header1 Sample.body1) as H1
    by (repeat split; first [discriminate | repeat constructor]).
  assert (["LIMIT 1;"] <> []) as H2 by discriminate.
  assert (Forall (fun line => isHeaderLine line = false) ["LIMIT 1;"]) as H3
    by (repeat constructor).
  assert (Sample.parseEntry (Sample.header1 ++ Sample.body1) = Ok Sample.event1) as H4
    by compute_done.
  split; [exact (conj H1 (conj H2 (conj H3 H4)))|].
  exact (blank_line_splits_a_statement (Z * nat) Sample.ParseFloat Sample.formatUnix
           Sample.attributeTypes Sample.header1 Sample.body1 ["LIMIT 1;"] Sample.event1
           H1 H2 H3 H4).
Defined.
